(** * neuralnet: normalization layers and the minibatch pipeline

    A shallow embedding of [neuralnet/normalization.py] and of the data-feeding
    helpers of [neuralnet/utils.py] ([DataManager.generate_in_background] and
    [DataManager.progress]).

    Numbers.  Tensor entries are real numbers: the formulas of the layers are
    read with their mathematical meaning, rounding of float32 values is not
    modelled, and there are no infinities and no nan.  Where a float decides
    between returning and raising it is modelled as a float (module [Float]).
    Python integers are [Z]; wall-clock readings are rationals. *)

From Stdlib Require Import String.
From Stdlib Require Import List ZArith QArith Qround Reals Lra Lia Bool Arith.
From Stdlib Require Import DecimalString.
From Stdlib Require Import Relations.Relation_Operators Sorting.Permutation.
Import ListNotations.

Close Scope Q_scope.
Close Scope R_scope.
Open Scope nat_scope.
Open Scope list_scope.

Set Implicit Arguments.

(** ** Python outcomes *)

(** The exceptions the modelled code can raise. *)
Inductive exn : Type :=
| AssertionError (msg : string)
| KeyError (key : string)
| TypeError (msg : string)
| ValueError (msg : string)
| IndexError (msg : string)
| AttributeError (name : string)
| ZeroDivisionError
| OverflowError (msg : string).

(** A call either returns a value or raises. *)
Inductive result (A : Type) : Type :=
| Ok (a : A)
| Raise (e : exn).

Arguments Ok {A} a.
Arguments Raise {A} e.

Definition bind {A B : Type} (r : result A) (k : A -> result B) : result B :=
  match r with
  | Ok a => k a
  | Raise e => Raise e
  end.

Notation "x <- c ;; k" := (bind c (fun x => k))
  (at level 61, c at next level, right associativity).
Notation "' p <- c ;; k" := (bind c (fun p => k))
  (at level 61, p pattern, c at next level, right associativity).

Definition is_ok {A : Type} (r : result A) : bool :=
  match r with Ok _ => true | Raise _ => false end.

(** A forward pass returns a value together with the layer it leaves behind;
    a pass that raises leaves the layer as it was. *)
Definition value_of {T X : Type} (r : result (T * X)) : result T :=
  match r with Ok (v, _) => Ok v | Raise e => Raise e end.

Definition layer_after {T X : Type} (l : X) (r : result (T * X)) : X :=
  match r with Ok (_, l') => l' | Raise _ => l end.

(** ** The background pipeline: [DataManager.generate_in_background] *)

Module Pipeline.

Section Queue.

(** The payload of a minibatch is left abstract. *)
Variable Batch : Type.

(** What travels through the queue: the items of the wrapped generator, and
    the string ['end'] that the producer puts last. *)
Inductive pyobj : Type :=
| Item (b : Batch)
| Str (s : string).

Definition sentinel : pyobj := Str "end".

(** [item is not 'end']: identity with the interned literal. *)
Definition is_sentinel (o : pyobj) : bool :=
  match o with
  | Str s => String.eqb s "end"
  | Item _ => false
  end.

(** [queue.Queue(maxsize)]: [put] blocks while the queue is full; a [maxsize]
    of zero or less makes the queue unbounded. *)
Definition has_room (maxsize : Z) (q : list pyobj) : bool :=
  (maxsize <=? 0)%Z || (Z.of_nat (length q) <? maxsize)%Z.

(** The state shared by the two threads, together with what each of them has
    done so far. *)
Record state : Type := mkState {
  source : list Batch;     (* what the wrapped generator has still to give *)
  sent : bool;             (* the producer has put the sentinel and returned *)
  queue : list pyobj;      (* the queue, oldest entry first *)
  yielded : list pyobj;    (* what the consumer has yielded, in order *)
  stopped : bool           (* the consumer's loop has ended *)
}.

Definition init (src : list Batch) : state :=
  mkState src false [] [] false.

(** One atomic action of either thread.  The producer runs
    [for item in generator: queue.put(item)] and then [queue.put(sentinel)];
    the consumer runs [item = queue.get()] and either yields it or leaves the
    loop. *)
Inductive step (maxsize : Z) : state -> state -> Prop :=
| producer_put : forall b src snt q out stp,
    has_room maxsize q = true ->
    step maxsize (mkState (b :: src) snt q out stp)
                 (mkState src snt (q ++ [Item b]) out stp)
| producer_end : forall q out stp,
    has_room maxsize q = true ->
    step maxsize (mkState [] false q out stp)
                 (mkState [] true (q ++ [sentinel]) out stp)
| consumer_yield : forall src snt o q out,
    is_sentinel o = false ->
    step maxsize (mkState src snt (o :: q) out false)
                 (mkState src snt q (out ++ [o]) false)
| consumer_stop : forall src snt o q out,
    is_sentinel o = true ->
    step maxsize (mkState src snt (o :: q) out false)
                 (mkState src snt q out true).

Definition reachable (maxsize : Z) (src : list Batch) (s : state) : Prop :=
  clos_refl_trans_n1 state (step maxsize) (init src) s.

(** The number of actions still ahead of a state, whatever the schedule: a
    [put] and a [get] for every item the generator has still to give and for
    the sentinel, a [get] for every entry of the queue. *)
Definition remaining (s : state) : nat :=
  2 * length (source s) + (if sent s then 0 else 2) + length (queue s).

(** The invariant of every reachable state: the items split into those the
    consumer has yielded, those waiting in the queue and those the generator has
    still to give, in this order; the sentinel, once put, is the last entry. *)
Inductive inv (src : list Batch) : state -> Prop :=
| inv_running : forall taken pending rest snt,
    src = taken ++ pending ++ rest ->
    (snt = true -> rest = []) ->
    inv src (mkState rest snt
               (map Item pending ++ (if snt then [sentinel] else []))
               (map Item taken) false)
| inv_stopped :
    inv src (mkState [] true [] (map Item src) true).

End Queue.

End Pipeline.

(** ** Progress reporting: [DataManager.progress] *)

Module Progress.

Section Items.

Variable A : Type.

(** What [progress] is given to iterate over: a list or another sized
    container ([has_len]), or a generator, which has no [__len__]. *)
Record iterable : Type := mkIterable {
  elems : list A;
  has_len : bool
}.

(** What the consumer of the generator observes: the printed text, by its
    parts, and the yielded items. *)
Inductive event : Type :=
| PrintCount (desc : string) (done total : Z) (percent : Q)
| PrintETA (minutes seconds : Z)
| Flush
| Yield (item : A)
| PrintTook (desc : string) (total : Z) (minutes seconds : Z).

(** [len(items)] *)
Definition len (items : iterable) : result Z :=
  if has_len items then Ok (Z.of_nat (length (elems items)))
  else Raise (TypeError "object of type 'generator' has no len()").

(** [total or len(items)]: [None] and [0] are false. *)
Definition total_or_len (total : option Z) (items : iterable) : result Z :=
  match total with
  | Some t => if (t =? 0)%Z then len items else Ok t
  | None => len items
  end.

(** [divmod(x, 60)] as printed by ["%d:%02d"]. *)
Definition divmod60 (x : Q) : Z * Z :=
  let m := Qfloor (x / 60)%Q in
  (m, Qfloor (x - 60 * inject_Z m)%Q).

(** What one pass through the [if t_now - t_last > min_delay] branch prints
    for item number [n]. *)
Definition report (desc : string) (total : Z) (t_start t_now : Q) (n : nat)
  : list event :=
  let percent := (inject_Z (Z.of_nat n) / inject_Z total * 100)%Q in
  let eta :=
    if (0 <? n) then
      let t_done := (t_now - t_start)%Q in
      let t_total := (t_done / inject_Z (Z.of_nat n) * inject_Z total)%Q in
      let '(m, sec) := divmod60 (t_total - t_done) in
      [PrintETA m sec]
    else [] in
  PrintCount desc (Z.of_nat n + 1) total percent :: eta ++ [Flush].

(** The body of the [for] loop, from item number [n] on.  [clock k] is the
    [k]-th reading of [time.time()]; reading 0 is [t_start].  The result is the
    events, in order, and the exception that ended the loop, if any. *)
Fixpoint loop (desc : string) (total : Z) (min_delay t_start : Q)
         (clock : nat -> Q) (n : nat) (t_last : Q) (items : list A)
  : list event * option exn :=
  match items with
  | [] =>
      let t_total := (clock (S n) - t_start)%Q in
      let '(m, sec) := divmod60 t_total in
      ([PrintTook desc total m sec], None)
  | item :: rest =>
      let t_now := clock (S n) in
      if Qlt_le_dec min_delay (t_now - t_last) then
        if (total =? 0)%Z then ([], Some ZeroDivisionError)
        else
          let '(evs, raised) :=
            loop desc total min_delay t_start clock (S n) t_now rest in
          (report desc total t_start t_now n ++ Yield item :: evs, raised)
      else
        let '(evs, raised) :=
          loop desc total min_delay t_start clock (S n) t_last rest in
        (Yield item :: evs, raised)
  end.

(** [progress(items, desc, total, min_delay)], run to its end. *)
Definition progress (items : iterable) (desc : string) (total : option Z)
           (min_delay : Q) (clock : nat -> Q) : list event * option exn :=
  match total_or_len total items with
  | Raise e => ([], Some e)
  | Ok t => loop desc t min_delay (clock 0) clock 0 0%Q (elems items)
  end.

(** The items a run has yielded. *)
Fixpoint yields (evs : list event) : list A :=
  match evs with
  | [] => []
  | Yield item :: evs' => item :: yields evs'
  | _ :: evs' => yields evs'
  end.

End Items.

End Progress.

(** ** Arrays

    The values of numpy arrays and of evaluated Theano tensors: a shape and
    the entries in row-major order. *)

Module Tensor.

Record tensor : Type := mkTensor {
  shape : list nat;
  data : list R
}.

Definition ndim (t : tensor) : nat := length (shape t).

(** The number of entries of an array of shape [sh]. *)
Definition size (sh : list nat) : nat := fold_right Nat.mul 1 sh.

(** The multi-index of the [k]-th entry, and back. *)
Fixpoint unravel (sh : list nat) (k : nat) : list nat :=
  match sh with
  | [] => []
  | d :: sh' => (k / size sh') mod d :: unravel sh' k
  end.

Fixpoint ravel (sh idx : list nat) : nat :=
  match sh, idx with
  | _ :: sh', i :: idx' => i * size sh' + ravel sh' idx'
  | _, _ => 0
  end.

Definition tget (t : tensor) (idx : list nat) : R :=
  nth (ravel (shape t) idx) (data t) 0%R.

Definition tbuild (sh : list nat) (f : list nat -> R) : tensor :=
  mkTensor sh (map (fun k => f (unravel sh k)) (seq 0 (size sh))).

Definition well_formed (t : tensor) : Prop :=
  length (data t) = size (shape t).

(** Constant arrays. *)
Definition full (sh : list nat) (c : R) : tensor :=
  mkTensor sh (repeat c (size sh)).

Definition ones (sh : list nat) : tensor := full sh 1%R.
Definition zeros (sh : list nat) : tensor := full sh 0%R.
Definition ones_like (t : tensor) : tensor := ones (shape t).
Definition zeros_like (t : tensor) : tensor := zeros (shape t).

(** *** Elementwise operations *)

Definition tmap (f : R -> R) (t : tensor) : tensor :=
  mkTensor (shape t) (map f (data t)).

(** Broadcasting: shapes are aligned on the right, and an axis of length one
    is repeated along the other operand's axis.  (Theano decides which axes
    may be repeated from the static type of each operand; the arrays here
    decide by their lengths, as numpy does.) *)
Definition pad (n : nat) (sh : list nat) : list nat :=
  repeat 1 (n - length sh) ++ sh.

Fixpoint bshape (sa sb : list nat) : option (list nat) :=
  match sa, sb with
  | [], [] => Some []
  | a :: sa', b :: sb' =>
      if (a =? b) || (a =? 1) || (b =? 1) then
        option_map (cons (if a =? 1 then b else a)) (bshape sa' sb')
      else None
  | _, _ => None
  end.

Fixpoint clamp (sh idx : list nat) : list nat :=
  match sh, idx with
  | d :: sh', i :: idx' => (if d =? 1 then 0 else i) :: clamp sh' idx'
  | _, _ => []
  end.

(** The entry of [t] that takes part at position [idx] of a result of [n]
    axes. *)
Definition bget (t : tensor) (n : nat) (idx : list nat) : R :=
  let sh := pad n (shape t) in
  nth (ravel sh (clamp sh idx)) (data t) 0%R.

Definition elemwise (f : R -> R -> R) (a b : tensor) : result tensor :=
  let n := Nat.max (ndim a) (ndim b) in
  match bshape (pad n (shape a)) (pad n (shape b)) with
  | Some sh => Ok (tbuild sh (fun idx => f (bget a n idx) (bget b n idx)))
  | None => Raise (ValueError "Input dimension mis-match")
  end.

Definition add := elemwise Rplus.
Definition sub := elemwise Rminus.
Definition mul := elemwise Rmult.
Definition div := elemwise Rdiv.

(** Arithmetic with a Python number. *)
Definition scale (c : R) (t : tensor) : tensor := tmap (Rmult c) t.
Definition shift (c : R) (t : tensor) : tensor := tmap (fun x => (x + c)%R) t.

Definition sqr : tensor -> tensor := tmap (fun x => (x * x)%R).
Definition tsqrt : tensor -> tensor := tmap sqrt.
Definition inv : tensor -> tensor := tmap (fun x => (1 / x)%R).

(** [T.clip(x, lo, hi)] with scalar bounds:
    [switch(x < lo, lo, switch(x > hi, hi, x))]. *)
Definition clip1 (lo hi x : R) : R :=
  if Rlt_dec x lo then lo else if Rlt_dec hi x then hi else x.

Definition clip (lo hi : R) : tensor -> tensor := tmap (clip1 lo hi).

(** *** Reductions *)

Definition mem (i : nat) (axes : list nat) : bool := existsb (Nat.eqb i) axes.

(** The shape after a reduction over [axes] that keeps the reduced axes with
    length one, and the shape of the block each result entry is reduced from. *)
Fixpoint kept_shape (axes : list nat) (i : nat) (sh : list nat) : list nat :=
  match sh with
  | [] => []
  | d :: sh' => (if mem i axes then 1 else d) :: kept_shape axes (S i) sh'
  end.

Fixpoint block_shape (axes : list nat) (i : nat) (sh : list nat) : list nat :=
  match sh with
  | [] => []
  | d :: sh' => (if mem i axes then d else 1) :: block_shape axes (S i) sh'
  end.

Fixpoint drop_axes (axes : list nat) (i : nat) (sh : list nat) : list nat :=
  match sh with
  | [] => []
  | d :: sh' =>
      if mem i axes then drop_axes axes (S i) sh'
      else d :: drop_axes axes (S i) sh'
  end.

Fixpoint idx_add (i j : list nat) : list nat :=
  match i, j with
  | a :: i', b :: j' => a + b :: idx_add i' j'
  | _, _ => []
  end.

Definition rsum (l : list R) : R := fold_right Rplus 0%R l.

Definition valid_axes (axes : list nat) (n : nat) : bool :=
  forallb (fun a => a <? n) axes.

(** [x.sum(axes, keepdims=True)] *)
Definition sum_keep (axes : list nat) (t : tensor) : tensor :=
  let blk := block_shape axes 0 (shape t) in
  tbuild (kept_shape axes 0 (shape t))
         (fun idx =>
            rsum (map (fun k => tget t (idx_add idx (unravel blk k)))
                      (seq 0 (size blk)))).

(** The number of entries each statistic is taken over. *)
Definition count (axes : list nat) (t : tensor) : nat :=
  size (block_shape axes 0 (shape t)).

(** Dropping the reduced axes leaves the entries in place. *)
Definition squeeze (axes : list nat) (t : tensor) : tensor :=
  mkTensor (drop_axes axes 0 (shape t)) (data t).

(** Putting axes of length one back at the positions [axes] of an array of
    [n] axes leaves the entries in place as well. *)
Fixpoint expanded_shape (axes : list nat) (i n : nat) (sh : list nat) : list nat :=
  match n with
  | 0 => []
  | S n' =>
      if mem i axes then 1 :: expanded_shape axes (S i) n' sh
      else match sh with
           | d :: sh' => d :: expanded_shape axes (S i) n' sh'
           | [] => 1 :: expanded_shape axes (S i) n' []
           end
  end.

Definition expand_dims (axes : list nat) (n : nat) (t : tensor) : tensor :=
  mkTensor (expanded_shape axes 0 n (shape t)) (data t).

Definition mean_keep (axes : list nat) (t : tensor) : tensor :=
  tmap (fun s => (s / INR (count axes t))%R) (sum_keep axes t).

(** [T.mean(x, axes, keepdims)] *)
Definition mean (axes : list nat) (keepdims : bool) (t : tensor) : result tensor :=
  if valid_axes axes (ndim t) then
    Ok (if keepdims then mean_keep axes t else squeeze axes (mean_keep axes t))
  else Raise (ValueError "axis out of bounds").

(** [T.var(x, axes, keepdims)]: the mean of the squared deviations from the
    mean (no correction for the degrees of freedom). *)
Definition var (axes : list nat) (keepdims : bool) (t : tensor) : result tensor :=
  if valid_axes axes (ndim t) then
    centered <- sub t (mean_keep axes t) ;;
    mean axes keepdims (sqr centered)
  else Raise (ValueError "axis out of bounds").

(** *** Moving axes *)

Fixpoint position (i : nat) (pattern : list (option nat)) : option nat :=
  match pattern with
  | [] => None
  | Some j :: rest =>
      if i =? j then Some 0 else option_map S (position i rest)
  | None :: rest => option_map S (position i rest)
  end.

Fixpoint occurrences (i : nat) (pattern : list (option nat)) : nat :=
  match pattern with
  | [] => 0
  | Some j :: rest => (if i =? j then 1 else 0) + occurrences i rest
  | None :: rest => occurrences i rest
  end.

(** A pattern is acceptable when every axis it names exists and is named
    once, and every axis it leaves out has length one. *)
Definition pattern_ok (pattern : list (option nat)) (sh : list nat) : bool :=
  forallb (fun p => match p with Some i => i <? length sh | None => true end)
          pattern
  && forallb (fun i => match occurrences i pattern with
                       | 0 => nth i sh 0 =? 1
                       | 1 => true
                       | _ => false
                       end)
             (seq 0 (length sh)).

(** [x.dimshuffle(pattern)]; [None] stands for ['x']. *)
Definition dimshuffle (pattern : list (option nat)) (t : tensor) : result tensor :=
  if pattern_ok pattern (shape t) then
    let sh := map (fun p => match p with
                            | Some i => nth i (shape t) 1
                            | None => 1
                            end) pattern in
    Ok (tbuild sh (fun idx =>
          tget t (map (fun i => match position i pattern with
                                | Some p => nth p idx 0
                                | None => 0
                                end)
                      (seq 0 (ndim t)))))
  else Raise (ValueError "dimshuffle: invalid pattern").

(** [x.T] *)
Definition transpose (t : tensor) : result tensor :=
  dimshuffle (map Some (rev (seq 0 (ndim t)))) t.

(** [x.flatten(2)]: the first axis is kept, the others are merged. *)
Definition flatten2 (t : tensor) : result tensor :=
  match shape t with
  | d :: (_ :: _) as rest => Ok (mkTensor [d; size rest] (data t))
  | _ => Raise (ValueError "invalid output ndimensions (2) for flatten")
  end.

(** [T.reshape(x, sh)] for a shape without [-1]. *)
Definition reshape (sh : list nat) (t : tensor) : result tensor :=
  if size sh =? size (shape t) then Ok (mkTensor sh (data t))
  else Raise (ValueError "total size of new array must be unchanged").

(** *** Linear algebra *)

(** [T.dot] of two matrices. *)
Definition dot (a b : tensor) : result tensor :=
  match shape a, shape b with
  | [n; k], [k'; m] =>
      if k =? k' then
        Ok (tbuild [n; m]
              (fun idx =>
                 let i := nth 0 idx 0 in
                 let j := nth 1 idx 0 in
                 rsum (map (fun l => (tget a [i; l] * tget b [l; j])%R)
                           (seq 0 k))))
      else Raise (ValueError "shapes not aligned")
  | _, _ => Raise (TypeError "dot: matrices expected")
  end.

(** [T.nlinalg.diag] of a vector: the diagonal matrix. *)
Definition diag (v : tensor) : result tensor :=
  match shape v with
  | [n] =>
      Ok (tbuild [n; n]
            (fun idx =>
               if nth 0 idx 0 =? nth 1 idx 0 then tget v [nth 0 idx 0]
               else 0%R))
  | _ => Raise (TypeError "diag: vector expected")
  end.

(** [x[:, lo:hi]] on a matrix. *)
Definition columns (lo hi : nat) (t : tensor) : result tensor :=
  match shape t with
  | [n; m] =>
      let hi' := Nat.min hi m in
      Ok (tbuild [n; hi' - lo] (fun idx => tget t [nth 0 idx 0; lo + nth 1 idx 0]))
  | _ => Raise (TypeError "too many indices for array")
  end.

End Tensor.

(** ** Floating-point numbers where they decide

    The entries of the arrays are read as real numbers.  Two places of the
    code depend on floating-point arithmetic for more than the last digits of
    a result, and are modelled with it: the cast of [epsilon] to [float32],
    which decides whether Theano accepts it, the division of two Python
    floats, which raises for a zero divisor, and the true division of two
    Python integers, whose rounded quotient an assertion compares with the
    floored one. *)

Module Float.

(** The integer nearest to [x], a half going to the even neighbour. *)
Definition round_half_even (x : R) : Z :=
  let n := Int_part x in
  if Rlt_dec (frac_part x) (1 / 2) then n
  else if Rlt_dec (1 / 2) (frac_part x) then (n + 1)%Z
  else if Z.even n then n else (n + 1)%Z.

(** The largest exponent [e' <= e] with [2 ^ e' <= x], searched downwards over
    [fuel] candidates; the last candidate is taken as it is. *)
Fixpoint exponent_from (fuel : nat) (e : Z) (x : R) : Z :=
  match fuel with
  | 0 => e
  | S fuel' =>
      if Rle_dec (powerRZ 2 e) x then e else exponent_from fuel' (e - 1) x
  end.

(** The exponent of the binary32 numbers around [x]: the [e] between -126
    and 127 with [2 ^ e <= |x| < 2 ^ (e + 1)], -126 for the subnormal numbers
    and 127 beyond the range. *)
Definition exponent32 (x : R) : Z := exponent_from 253 127 (Rabs x).

(** [np.float32(x)], for a number [x] of the range of binary32: the multiple
    of [2 ^ (e - 23)] nearest to [x], where [e] is the exponent of [x], a tie
    going to the even multiple.  (Beyond the range the cast gives [inf]; the
    real numbers have none, and the value here is a finite number of the same
    sign, at least [2 ^ 127] in size.) *)
Definition float32 (x : R) : R :=
  let ulp := powerRZ 2 (exponent32 x - 23) in
  (IZR (round_half_even (x / ulp)) * ulp)%R.

(** [a / b] for two Python floats. *)
Definition div (a b : R) : result R :=
  if Req_EM_T b 0 then Raise ZeroDivisionError else Ok (a / b)%R.

(** A number of binary64, [mantissa * 2 ^ exponent]. *)
Record binary64 : Type := mkFloat {
  mantissa : Z;
  exponent : Z
}.

(** The integer nearest to [n / d], a half going to the even neighbour, for
    [0 <= n] and [0 < d]. *)
Definition round_quotient (n d : Z) : Z :=
  let q := (n / d)%Z in
  let r := (n mod d)%Z in
  if (2 * r <? d)%Z then q
  else if (d <? 2 * r)%Z then (q + 1)%Z
  else if Z.even q then q else (q + 1)%Z.

(** Numerator and denominator of [na / (nb * 2 ^ e)]. *)
Definition scaled (na nb e : Z) : Z * Z :=
  if (0 <=? e)%Z then (na, nb * 2 ^ e)%Z else (na * 2 ^ (- e), nb)%Z.

(** [a / b] for two Python integers (Python 3): the binary64 number nearest
    to the quotient, a tie going to the even mantissa.  The exponent [e] is
    the one that leaves the quotient 53 bits, [2 ^ 52 <= |a| / (|b| * 2 ^ e)
    < 2 ^ 53], and not less than -1074, the exponent of the subnormal
    numbers; a quotient that rounds to [2 ^ 1024] or more raises
    [OverflowError]. *)
Definition true_divide (a b : Z) : result binary64 :=
  if (b =? 0)%Z then Raise ZeroDivisionError
  else if (a =? 0)%Z then Ok (mkFloat 0 0)
  else
    let na := Z.abs a in
    let nb := Z.abs b in
    let e0 := (Z.log2 na - Z.log2 nb - 53)%Z in
    let '(n0, d0) := scaled na nb e0 in
    let e1 := if (n0 / d0 <? 2 ^ 53)%Z then e0 else (e0 + 1)%Z in
    let e := Z.max e1 (-1074) in
    let '(n, d) := scaled na nb e in
    let m := round_quotient n d in
    if (1024 <=? Z.log2 m + e)%Z then
      Raise (OverflowError "integer division result too large for a float")
    else Ok (mkFloat (Z.sgn a * Z.sgn b * m) e).

(** [f == n] for a float and an integer: Python compares the two numbers
    exactly. *)
Definition eq_int (f : binary64) (n : Z) : bool :=
  if (0 <=? exponent f)%Z then (mantissa f * 2 ^ exponent f =? n)%Z
  else (mantissa f =? n * 2 ^ (- exponent f))%Z.

End Float.

(** ** Theano's batch normalization

    [theano.tensor.nnet.bn], after the reference formulas of its
    documentation:
<<
    mean = inputs.mean(axes, keepdims=True)
    var = inputs.var(axes, keepdims=True)
    invstd = T.inv(T.sqrt(var + epsilon))
    out = (inputs - mean) * gamma * invstd + beta
    m = T.cast(T.prod(inputs.shape) / T.prod(mean.shape), 'float32')
    running_mean = running_mean * (1 - running_average_factor) +
                   mean * running_average_factor
    running_var = running_var * (1 - running_average_factor) +
                  (m / (m - 1)) * var * running_average_factor
>>
    and, for [batch_normalization_test],
<<
    out = (inputs - mean) * gamma / T.sqrt(var + epsilon) + beta
>>
    Both functions cast [epsilon] before they compare it:
<<
    epsilon = np.cast[theano.config.floatX](epsilon)
    if epsilon < 1e-5:
        raise ValueError("epsilon must be at least 1e-5, got %s" % str(epsilon))
>>
    (the layers hand over [np.float32(epsilon)], so that the number compared
    is a binary32 one whatever [floatX] is).  The quotient
    [m / (m - 1)] is the one of [AbstractBatchNormTrain.perform], where [m] is
    a Python float: for [m = 1] the division raises [ZeroDivisionError].  (The
    compiled graph divides arrays instead, gets [inf] and stores [nan], as
    [var] is zero then; neither way does a batch with one entry per statistic
    leave a number behind.) *)

Module Theano.
Import Tensor.

Inductive axes_spec : Type :=
| PerActivation
| Spatial
| Axes (axes : list nat).

(** [_prepare_batch_normalization_axes]: the normalization axes and the
    remaining ones. *)
Definition prepare_axes (spec : axes_spec) (n : nat) : result (list nat * list nat) :=
  let axes := match spec with
              | PerActivation => [0]
              | Spatial => 0 :: seq 2 (n - 2)
              | Axes l => l
              end in
  match axes with
  | [] => Raise (ValueError "there should be at least one normalization axis")
  | _ =>
      if valid_axes axes n then
        Ok (axes, filter (fun i => negb (mem i axes)) (seq 0 n))
      else Raise (ValueError "axes should be less than ndim")
  end.

Definition epsilon_default : R := (1 / 10000)%R.
(** The bound [1e-5] of the check.  (The double nearest to it and 1/100000
    lie between the same two neighbouring binary32 numbers, so that a binary32
    number is below the one exactly when it is below the other.) *)
Definition epsilon_min : R := (1 / 100000)%R.

(** Parameters given without the normalization axes get an axis of length
    one at each of them (the functions shuffle them with ['x'] at every
    normalization axis), and statistics are returned without these axes. *)
Definition place (full : bool) (axes : list nat) (n : nat) (p : tensor) : tensor :=
  if full then p else expand_dims axes n p.

Definition unplace (full : bool) (axes : list nat) (t : tensor) : tensor :=
  if full then t else squeeze axes t.

(** The checks both functions start with: the axes, the number of axes of
    [gamma], [beta] and of the statistics in [others], and [epsilon].  The
    result is the normalization axes and whether the parameters come with all
    the axes of the input. *)
Definition checked (inputs gamma beta : tensor) (others : list tensor)
           (spec : axes_spec) (epsilon : R) : result (list nat * bool) :=
  let n := ndim inputs in
  '(axes, non_bc) <- prepare_axes spec n ;;
  let full := ndim gamma =? n in
  let params_ndim := if full then n else length non_bc in
  if negb ((ndim gamma =? params_ndim) && (ndim beta =? params_ndim)) then
    Raise (ValueError "gamma and beta dimensionality must match the normalization axes")
  else if negb (forallb (fun t => ndim t =? params_ndim) others) then
    Raise (ValueError "mean and var must be of the same dimensionality as gamma and beta")
  else if Rlt_dec (Float.float32 epsilon) epsilon_min then
    Raise (ValueError "epsilon must be at least 1e-5")
  else Ok (axes, full).

(** [(inputs - mean) * gamma * invstd + beta] *)
Definition normalize_train (inputs gamma beta mean invstd : tensor) : result tensor :=
  centered <- sub inputs mean ;;
  weighted <- mul centered gamma ;;
  scaled <- mul weighted invstd ;;
  add scaled beta.

(** [running * (1 - running_average_factor) + stat * running_average_factor] *)
Definition running_average (factor : R) (running stat : tensor) : result tensor :=
  add (scale (1 - factor) running) (scale factor stat).

(** [batch_normalization_train(inputs, gamma, beta, axes, epsilon,
    running_average_factor, running_mean, running_var)]; [running] is [None]
    when the two running statistics are left out.  The result is
    [(out, mean, invstd)] and the new running statistics. *)
Definition batch_normalization_train
           (inputs gamma beta : tensor) (spec : axes_spec) (epsilon : R)
           (running_average_factor : R) (running : option (tensor * tensor))
  : result (tensor * tensor * tensor * option (tensor * tensor)) :=
  let n := ndim inputs in
  '(axes, full) <-
     checked inputs gamma beta
             (match running with Some (rm, rv) => [rm; rv] | None => [] end)
             spec epsilon ;;
  let gamma' := place full axes n gamma in
  let beta' := place full axes n beta in
  mean <- Tensor.mean axes true inputs ;;
  var <- Tensor.var axes true inputs ;;
  let invstd := inv (tsqrt (shift epsilon var)) in
  out <- normalize_train inputs gamma' beta' mean invstd ;;
  match running with
  | None => Ok (out, unplace full axes mean, unplace full axes invstd, None)
  | Some (rm, rv) =>
      let m := (INR (size (shape inputs)) / INR (size (shape mean)))%R in
      new_rm <- running_average running_average_factor (place full axes n rm) mean ;;
      unbiased <- Float.div m (m - 1) ;;
      new_rv <- running_average running_average_factor (place full axes n rv)
                                (scale unbiased var) ;;
      Ok (out, unplace full axes mean, unplace full axes invstd,
          Some (unplace full axes new_rm, unplace full axes new_rv))
  end.

(** [batch_normalization_test(inputs, gamma, beta, mean, var, axes, epsilon)] *)
Definition batch_normalization_test
           (inputs gamma beta mean var : tensor) (spec : axes_spec) (epsilon : R)
  : result tensor :=
  let n := ndim inputs in
  '(axes, full) <- checked inputs gamma beta [mean; var] spec epsilon ;;
  centered <- sub inputs (place full axes n mean) ;;
  weighted <- mul centered (place full axes n gamma) ;;
  scaled <- div weighted (tsqrt (shift epsilon (place full axes n var))) ;;
  add scaled (place full axes n beta).

(** [T.addbroadcast(x, 2, 3)]: the two axes must have length one. *)
Definition addbroadcast23 (t : tensor) : result tensor :=
  if (nth 2 (shape t) 0 =? 1) && (nth 3 (shape t) 0 =? 1) then Ok t
  else Raise (ValueError "Dimension in Rebroadcast's input was supposed to be 1").

End Theano.

(** ** Activation functions: [neuralnet/utils.py] *)

Module Utils.
Import Tensor.

(** Keyword arguments of an activation function. *)
Inductive pyval : Type :=
| PyFloat (x : R)
| PyInt (z : Z).

Definition kwargs : Type := list (string * pyval).

Fixpoint kw_get (key : string) (kw : kwargs) : option pyval :=
  match kw with
  | [] => None
  | (k, v) :: kw' => if String.eqb k key then Some v else kw_get key kw'
  end.

(** [kw[key] = v] *)
Fixpoint kw_set (key : string) (v : pyval) (kw : kwargs) : kwargs :=
  match kw with
  | [] => [(key, v)]
  | (k, w) :: kw' =>
      if String.eqb k key then (k, v) :: kw' else (k, w) :: kw_set key v kw'
  end.

Definition to_real (v : pyval) : R :=
  match v with
  | PyFloat x => x
  | PyInt z => IZR z
  end.

(** A call with a keyword the function does not take raises. *)
Definition only_keywords (allowed : list string) (kw : kwargs) : result unit :=
  if forallb (fun kv => existsb (String.eqb (fst kv)) allowed) kw then Ok tt
  else Raise (TypeError "got an unexpected keyword argument").

Definition keyword (key : string) (default : R) (kw : kwargs) : R :=
  match kw_get key kw with
  | Some v => to_real v
  | None => default
  end.

(** A function object: its identity and what a call does. *)
Record pyfunc : Type := mkFunc {
  func_id : string;
  call : kwargs -> tensor -> result tensor
}.

(** [f is g] *)
Definition is_ (f g : pyfunc) : bool := String.eqb (func_id f) (func_id g).

(** [T.nnet.relu(x, alpha=0)]: [f1 * x + f2 * abs(x)] with
    [f1 = 0.5 * (1 + alpha)] and [f2 = 0.5 * (1 - alpha)]. *)
Definition relu1 (alpha x : R) : R :=
  (1 / 2 * (1 + alpha) * x + 1 / 2 * (1 - alpha) * Rabs x)%R.

Definition theano_relu : pyfunc :=
  mkFunc "theano.tensor.nnet.relu"
         (fun kw x => _ <- only_keywords ["alpha"%string] kw ;;
                      Ok (tmap (relu1 (keyword "alpha" 0%R kw)) x)).

Definition elementwise (name : string) (f : R -> R) : pyfunc :=
  mkFunc name (fun kw x => _ <- only_keywords [] kw ;; Ok (tmap f x)).

Definition theano_sigmoid : pyfunc :=
  elementwise "theano.tensor.nnet.sigmoid" (fun x => (1 / (1 + exp (- x)))%R).
Definition theano_tanh : pyfunc := elementwise "theano.tensor.tanh" tanh.
Definition theano_sin : pyfunc := elementwise "theano.tensor.sin" sin.
Definition theano_cos : pyfunc := elementwise "theano.tensor.cos" cos.

(** [T.nnet.elu(x, alpha=1)]: [switch(x > 0, x, alpha * expm1(x))]. *)
Definition elu1 (alpha x : R) : R :=
  if Rlt_dec 0 x then x else (alpha * (exp x - 1))%R.

Definition theano_elu : pyfunc :=
  mkFunc "theano.tensor.nnet.elu"
         (fun kw x => _ <- only_keywords ["alpha"%string] kw ;;
                      Ok (tmap (elu1 (keyword "alpha" 1%R kw)) x)).

(** [T.nnet.softmax] of a matrix: along each row. *)
Definition theano_softmax : pyfunc :=
  mkFunc "theano.tensor.nnet.softmax"
         (fun kw x =>
            _ <- only_keywords [] kw ;;
            match shape x with
            | [_; _] =>
                let e := tmap exp x in
                div e (sum_keep [1] e)
            | _ => Raise (ValueError "x must be 1-d or 2-d tensor of floats")
            end).

(** [def lrelu(x, alpha=0.2): return T.nnet.relu(x, alpha=alpha)] *)
Definition lrelu : pyfunc :=
  mkFunc "neuralnet.utils.lrelu"
         (fun kw x => _ <- only_keywords ["alpha"%string] kw ;;
                      Ok (tmap (relu1 (keyword "alpha" (2 / 10)%R kw)) x)).

(** [def linear(x): return x] *)
Definition linear : pyfunc :=
  mkFunc "neuralnet.utils.linear" (fun kw x => _ <- only_keywords [] kw ;; Ok x).

(** [def ramp(x)]: [left = T.switch(x < 0, 0, x)], then
    [T.switch(left > 1, 1, left)]. *)
Definition ramp1 (x : R) : R :=
  let left := if Rlt_dec x 0 then 0%R else x in
  if Rlt_dec 1 left then 1%R else left.

Definition ramp : pyfunc :=
  mkFunc "neuralnet.utils.ramp" (fun kw x => _ <- only_keywords [] kw ;; Ok (tmap ramp1 x)).

(** [input[:, i::maxout_size]] *)
Definition stride_axis1 (i k : nat) (t : tensor) : result tensor :=
  match shape t with
  | n :: c :: rest =>
      Ok (tbuild (n :: (c - i + k - 1) / k :: rest)
                 (fun idx =>
                    tget t (match idx with
                            | a :: b :: idx' => a :: i + k * b :: idx'
                            | _ => idx
                            end)))
  | _ => Raise (IndexError "too many indices for array")
  end.

(** [def maxout(input, maxout_size=4)]: the maximum over the strided slices;
    with no slice at all the function returns [None]. *)
Fixpoint maxout_from (k : nat) (acc : tensor) (slices : list nat) (t : tensor)
  : result tensor :=
  match slices with
  | [] => Ok acc
  | i :: rest =>
      piece <- stride_axis1 i k t ;;
      acc' <- elemwise Rmax acc piece ;;
      maxout_from k acc' rest t
  end.

Definition maxout : pyfunc :=
  mkFunc "neuralnet.utils.maxout"
         (fun kw x =>
            _ <- only_keywords ["maxout_size"%string] kw ;;
            match kw_get "maxout_size" kw with
            | Some (PyFloat _) =>
                Raise (TypeError "float object cannot be interpreted as an integer")
            | other =>
                let k := match other with
                         | Some (PyInt z) => Z.to_nat z
                         | _ => 4
                         end in
                match k with
                | 0 => Raise (TypeError "maxout returned None")
                | S k' =>
                    first <- stride_axis1 0 k x ;;
                    maxout_from k first (seq 1 k') x
                end
            end).

(** [def prelu(x, alpha)]: defined in the module, and not entered in
    [function]. *)
Definition prelu : pyfunc :=
  mkFunc "neuralnet.utils.prelu"
         (fun kw x =>
            _ <- only_keywords ["alpha"%string] kw ;;
            match kw_get "alpha" kw with
            | Some a => Ok (tmap (relu1 (to_real a)) x)
            | None => Raise (TypeError "prelu() missing 1 required positional argument")
            end).

(** The dictionary [function] at the end of the module. *)
Definition function : list (string * pyfunc) :=
  [ ("relu", theano_relu); ("sigmoid", theano_sigmoid); ("tanh", theano_tanh);
    ("lrelu", lrelu); ("softmax", theano_softmax); ("linear", linear);
    ("elu", theano_elu); ("ramp", ramp); ("maxout", maxout);
    ("sin", theano_sin); ("cos", theano_cos) ]%string.

(** [d[key]] *)
Fixpoint getitem (d : list (string * pyfunc)) (key : string) : result pyfunc :=
  match d with
  | [] => Raise (KeyError key)
  | (k, f) :: d' => if String.eqb k key then Ok f else getitem d' key
  end.

(** The [activation] argument of a layer: a key of [function] or a callable. *)
Inductive activation_arg : Type :=
| ByName (name : string)
| Callable (f : pyfunc).

(** [utils.function[activation] if not callable(activation) else activation] *)
Definition resolve (activation : activation_arg) : result pyfunc :=
  match activation with
  | ByName name => getitem function name
  | Callable f => Ok f
  end.

(** [activation == 'prelu'] *)
Definition names_prelu (activation : activation_arg) : bool :=
  match activation with
  | ByName name => String.eqb name "prelu"
  | Callable _ => false
  end.

End Utils.

(** ** The layers of [neuralnet/normalization.py] *)

(** [np.ones(shape)] and [np.zeros(shape)] take non-negative lengths. *)
Definition np_dims (sh : list Z) : result (list nat) :=
  if forallb (fun d => (0 <=? d)%Z) sh then Ok (map Z.to_nat sh)
  else Raise (ValueError "negative dimensions are not allowed").

(** [t[1]] *)
Definition second (sh : list Z) : result Z :=
  match nth_error sh 1 with
  | Some c => Ok c
  | None => Raise (IndexError "tuple index out of range")
  end.

(** The property [output_shape] of the layers, [tuple(self.input_shape)]
    under the decorator [utils.validate], is left out: [neuralnet/utils.py]
    defines no [validate], so that the sources do not say what the property
    returns. *)

Module Layer.

(** Modelled from the spec: the base class [Layer] ([neuralnet/layers.py]) is
    not among the sources.  Its constructor is taken to record the input shape
    and the name, and to start with empty parameter lists, in inference mode. *)
Record t : Type := mk {
  input_shape : list Z;
  layer_name : string;
  training_flag : bool;
  params : list string;
  trainable : list string;
  regularizable : list string
}.

Definition init (input_shape : list Z) (layer_name : string) : t :=
  mk input_shape layer_name false [] [] [].

Definition set_training_status (training : bool) (l : t) : t :=
  mk (input_shape l) (layer_name l) training
     (params l) (trainable l) (regularizable l).

Definition extend (ps ts rs : list string) (l : t) : t :=
  mk (input_shape l) (layer_name l) (training_flag l)
     (params l ++ ps) (trainable l ++ ts) (regularizable l ++ rs).

End Layer.

Module BatchNormLayer.

Local Open Scope string_scope.

Record t : Type := mk {
  layer : Layer.t;
  epsilon : R;
  running_average_factor : R;
  activation : Utils.pyfunc;
  no_scale : bool;
  axes : list nat;
  shape : list Z;
  kwargs : Utils.kwargs;
  gamma_values : Tensor.tensor;
  gamma : Tensor.tensor;
  beta_values : Tensor.tensor;
  beta : Tensor.tensor;
  running_mean : Tensor.tensor;
  running_var : Tensor.tensor;
  alpha : option R
}.

Definition input_shape (l : t) : list Z := Layer.input_shape (layer l).
Definition training_flag (l : t) : bool := Layer.training_flag (layer l).

Definition with_layer (b : Layer.t) (l : t) : t :=
  mk b (epsilon l) (running_average_factor l) (activation l) (no_scale l)
     (axes l) (shape l) (kwargs l) (gamma_values l) (gamma l) (beta_values l)
     (beta l) (running_mean l) (running_var l) (alpha l).

(** Assignments to the shared variables. *)
Definition set_running (mean var : Tensor.tensor) (l : t) : t :=
  mk (layer l) (epsilon l) (running_average_factor l) (activation l) (no_scale l)
     (axes l) (shape l) (kwargs l) (gamma_values l) (gamma l) (beta_values l)
     (beta l) mean var (alpha l).

Definition set_gamma (g : Tensor.tensor) (l : t) : t :=
  mk (layer l) (epsilon l) (running_average_factor l) (activation l) (no_scale l)
     (axes l) (shape l) (kwargs l) (gamma_values l) g (beta_values l)
     (beta l) (running_mean l) (running_var l) (alpha l).

Definition set_beta (b : Tensor.tensor) (l : t) : t :=
  mk (layer l) (epsilon l) (running_average_factor l) (activation l) (no_scale l)
     (axes l) (shape l) (kwargs l) (gamma_values l) (gamma l) (beta_values l)
     b (running_mean l) (running_var l) (alpha l).

Definition set_alpha (a : R) (l : t) : t :=
  mk (layer l) (epsilon l) (running_average_factor l) (activation l) (no_scale l)
     (axes l) (shape l) (kwargs l) (gamma_values l) (gamma l) (beta_values l)
     (beta l) (running_mean l) (running_var l) (Some a).

(** [__init__(self, input_shape, layer_name, epsilon, running_average_factor,
    axes, activation, no_scale, **kwargs)] *)
Definition init (input_shape : list Z) (layer_name : string)
           (epsilon running_average_factor : R) (axes : string)
           (activation : Utils.activation_arg) (no_scale : bool)
           (kwargs : Utils.kwargs) : result t :=
  let base := Layer.init input_shape layer_name in
  act <- Utils.resolve activation ;;
  let spatial := String.eqb axes "spatial" in
  let axes_ := if spatial then 0 :: seq 2 (length input_shape - 2) else [0] in
  shape_ <- (if spatial then c <- second input_shape ;; Ok [c]
             else Ok (tl input_shape)) ;;
  dims <- np_dims shape_ ;;
  let name := fun suffix => (layer_name ++ suffix)%string in
  let base := Layer.extend
                [name "/running_mean"; name "/running_var"; name "/gamma"; name "/beta"]
                (if no_scale then [name "/beta"] else [name "/beta"; name "/gamma"])
                (if no_scale then [] else [name "/gamma"])
                base in
  let prelu := Utils.names_prelu activation in
  let base := if prelu
              then Layer.extend [name "/alpha"] [name "/alpha"] [] base
              else base in
  Ok (mk base epsilon running_average_factor act no_scale axes_ shape_ kwargs
         (Tensor.ones dims) (Tensor.ones dims)
         (Tensor.zeros dims) (Tensor.zeros dims)
         (Tensor.zeros dims) (Tensor.zeros dims)
         (if prelu then Some (1 / 10)%R else None)).

(** [**self.kwargs]: the entry [kwargs['alpha']] is the shared variable
    [self.alpha] itself, so a call sees its current value. *)
Definition call_kwargs (l : t) : Utils.kwargs :=
  match alpha l with
  | Some a => Utils.kw_set "alpha" (Utils.PyFloat a) (kwargs l)
  | None => kwargs l
  end.

(** [batch_normalization_train(self, input)].  The new running statistics
    that Theano returns become the default updates of clones of
    [self.running_mean] and [self.running_var]; a clone shares the storage of
    its original, so evaluating the output assigns them.  The term
    [0 * (running_mean + running_var)] only ties the clones to the output and
    leaves its value as it is. *)
Definition batch_normalization_train (l : t) (input : Tensor.tensor)
  : result (Tensor.tensor * t) :=
  '(out, _, _, updates) <-
     Theano.batch_normalization_train input (gamma l) (beta l)
       (Theano.Axes (axes l)) (epsilon l) (running_average_factor l)
       (Some (running_mean l, running_var l)) ;;
  match updates with
  | Some (mean_, var_) => Ok (out, set_running mean_ var_ l)
  | None => Ok (out, l)
  end.

(** [batch_normalization_test(self, input)] *)
Definition batch_normalization_test (l : t) (input : Tensor.tensor)
  : result Tensor.tensor :=
  Theano.batch_normalization_test input (gamma l) (beta l)
    (running_mean l) (running_var l) (Theano.Axes (axes l)) (epsilon l).

(** [get_output(self, input)]: the value of the output, and the layer after
    the updates of the shared variables. *)
Definition get_output (l : t) (input : Tensor.tensor) : result (Tensor.tensor * t) :=
  '(out, l') <- (if training_flag l then batch_normalization_train l input
                 else out <- batch_normalization_test l input ;; Ok (out, l)) ;;
  y <- Utils.call (activation l) (call_kwargs l) out ;;
  Ok (y, l').

(** [reset(self)]: the layer it leaves behind, and how the call ends. *)
Definition reset (l : t) : t * result unit :=
  let l := set_gamma (gamma_values l) l in
  let l := set_beta (beta_values l) l in
  match Utils.getitem Utils.function "prelu" with
  | Raise e => (l, Raise e)
  | Ok f =>
      if Utils.is_ (activation l) f then
        match alpha l with
        | Some _ => (set_alpha (1 / 10)%R l, Ok tt)
        | None => (l, Raise (AttributeError "alpha"))
        end
      else (l, Ok tt)
  end.

End BatchNormLayer.

Module DecorrBatchNormLayer.

(** A [DecorrBatchNormLayer] is a [BatchNormLayer] built with
    ['per-activation'] axes. *)
Definition t : Type := BatchNormLayer.t.

Definition init (input_shape : list Z) (layer_name : string)
           (epsilon running_average_factor : R)
           (activation : Utils.activation_arg) (no_scale : bool)
           (kwargs : Utils.kwargs) : result t :=
  BatchNormLayer.init input_shape layer_name epsilon running_average_factor
                      "per-activation" activation no_scale kwargs.

Section Eigh.

(** [T.nlinalg.Eigh()]: the eigenvalues and the eigenvectors (as columns) of
    a symmetric matrix, computed by LAPACK. *)
Variable eigh : Tensor.tensor -> result (Tensor.tensor * Tensor.tensor).

(** The first lines of [get_output]: the flattened input [X], the matrix
    [Sigma] and the matrix [Z] that is applied to [X]. *)
Definition transform (input : Tensor.tensor)
  : result (Tensor.tensor * Tensor.tensor * Tensor.tensor) :=
  match Tensor.shape input with
  | [m; c; h; w] =>
      X <- Tensor.dimshuffle [Some 1; Some 0; Some 2; Some 3] input ;;
      X <- Tensor.flatten2 X ;;
      Muy <- Tensor.mean [1] false X ;;
      X_centered <- Tensor.sub X Muy ;;
      X_centered_T <- Tensor.transpose X_centered ;;
      S <- Tensor.dot X_centered X_centered_T ;;
      let Sigma := Tensor.scale (1 / INR m)%R S in
      '(W, D) <- eigh Sigma ;;
      root <- Tensor.diag (Tensor.tsqrt W) ;;
      D_T <- Tensor.transpose D ;;
      DW <- Tensor.dot D root ;;
      Z <- Tensor.dot DW D_T ;;
      Ok (X, Sigma, Z)
  | _ => Raise (ValueError "not enough values to unpack")
  end.

(** [get_output(self, input)] *)
Definition get_output (l : t) (input : Tensor.tensor) : result (Tensor.tensor * t) :=
  '(X, _, Z) <- transform input ;;
  X <- Tensor.dot Z X ;;
  X_T <- Tensor.transpose X ;;
  '(out, l') <- (if BatchNormLayer.training_flag l
                 then BatchNormLayer.batch_normalization_train l X_T
                 else out <- BatchNormLayer.batch_normalization_test l X_T ;;
                      Ok (out, l)) ;;
  out <- Utils.call (BatchNormLayer.activation l) (BatchNormLayer.call_kwargs l) out ;;
  out_T <- Tensor.transpose out ;;
  match Tensor.shape input with
  | [m; c; h; w] =>
      out <- Tensor.reshape [c; m; h; w] out_T ;;
      out <- Tensor.dimshuffle [Some 1; Some 0; Some 2; Some 3] out ;;
      Ok (out, l')
  | _ => Raise (ValueError "not enough values to unpack")
  end.

End Eigh.

End DecorrBatchNormLayer.

Module GroupNormLayer.

Local Open Scope string_scope.

Record t : Type := mk {
  layer : Layer.t;
  groups : Z;
  epsilon : R;
  activation : Utils.pyfunc;
  kwargs : Utils.kwargs;
  gamma_values : Tensor.tensor;
  gamma : Tensor.tensor;
  beta_values : Tensor.tensor;
  beta : Tensor.tensor;
  alpha : option R
}.

Definition input_shape (l : t) : list Z := Layer.input_shape (layer l).

Definition set_gamma (g : Tensor.tensor) (l : t) : t :=
  mk (layer l) (groups l) (epsilon l) (activation l) (kwargs l)
     (gamma_values l) g (beta_values l) (beta l) (alpha l).

Definition set_beta (b : Tensor.tensor) (l : t) : t :=
  mk (layer l) (groups l) (epsilon l) (activation l) (kwargs l)
     (gamma_values l) (gamma l) (beta_values l) b (alpha l).

Definition set_alpha (a : R) (l : t) : t :=
  mk (layer l) (groups l) (epsilon l) (activation l) (kwargs l)
     (gamma_values l) (gamma l) (beta_values l) (beta l) (Some a).

(** [input_shape[1] / groups == input_shape[1] // groups]: the true quotient,
    a float, against the floored one. *)
Definition groups_divide (channels groups : Z) : result bool :=
  quotient <- Float.true_divide channels groups ;;
  Ok (Float.eq_int quotient (channels / groups)%Z).

(** [__init__(self, input_shape, layer_name, groups, epsilon, activation,
    **kwargs)] *)
Definition init (input_shape : list Z) (layer_name : string) (groups : Z)
           (epsilon : R) (activation : Utils.activation_arg)
           (kwargs : Utils.kwargs) : result t :=
  channels <- second input_shape ;;
  divides <- groups_divide channels groups ;;
  if negb divides then
    Raise (AssertionError "groups must divide the number of input channels.")
  else
    let base := Layer.init input_shape layer_name in
    act <- Utils.resolve activation ;;
    dims <- np_dims [channels] ;;
    let name := fun suffix => (layer_name ++ suffix)%string in
    let base := Layer.extend [name "/gamma"; name "/beta"]
                             [name "/gamma"; name "/beta"]
                             [name "/gamma"] base in
    let prelu := Utils.names_prelu activation in
    let base := if prelu
                then Layer.extend [name "/alpha"] [name "/alpha"] [] base
                else base in
    Ok (mk base groups epsilon act kwargs
           (Tensor.ones dims) (Tensor.ones dims)
           (Tensor.zeros dims) (Tensor.zeros dims)
           (if prelu then Some (1 / 10)%R else None)).

Definition call_kwargs (l : t) : Utils.kwargs :=
  match alpha l with
  | Some a => Utils.kw_set "alpha" (Utils.PyFloat a) (kwargs l)
  | None => kwargs l
  end.

Definition swap01 : list (option nat) := [Some 1; Some 0; Some 2; Some 3].

(** The branch [if self.groups == 1] of [get_output], up to the activation. *)
Definition layer_norm_path (l : t) (gamma beta input : Tensor.tensor)
  : result Tensor.tensor :=
  input_ <- Tensor.dimshuffle swap01 input ;;
  stat <- Tensor.mean [0; 2; 3] true input_ ;;
  '(output, _, _, _) <-
     Theano.batch_normalization_train input_ (Tensor.ones_like stat)
       (Tensor.zeros_like stat) Theano.Spatial (epsilon l)
       (1 / 10)%R None ;;
  output <- Tensor.dimshuffle swap01 output ;;
  scaled <- Tensor.mul gamma output ;;
  Tensor.add scaled beta.

(** The branch [elif self.groups == self.input_shape[1]]; Theano's default
    [epsilon] applies, since none is passed. *)
Definition instance_norm_path (l : t) (gamma beta input : Tensor.tensor)
  : result Tensor.tensor :=
  stat <- Tensor.mean [2; 3] true input ;;
  '(output, _, _, _) <-
     Theano.batch_normalization_train input (Tensor.ones_like stat)
       (Tensor.zeros_like stat) (Theano.Axes [2; 3]) Theano.epsilon_default
       (1 / 10)%R None ;;
  scaled <- Tensor.mul gamma output ;;
  Tensor.add scaled beta.

(** The branch [else]: the general grouped computation. *)
Definition grouped_path (l : t) (gamma beta input : Tensor.tensor)
  : result Tensor.tensor :=
  match Tensor.shape input with
  | [n; c; h; w] =>
      let g := Z.to_nat (groups l) in
      if (groups l <=? 0)%Z || (n * g * h * w =? 0)%nat
         || negb ((n * c * h * w) mod (n * g * h * w) =? 0)%nat then
        Raise (ValueError "total size of new array must be unchanged")
      else
        input_ <- Tensor.reshape [n; g; (n * c * h * w) / (n * g * h * w); h; w] input ;;
        mean <- Tensor.mean [2; 3; 4] true input_ ;;
        var <- Tensor.var [2; 3; 4] true input_ ;;
        centered <- Tensor.sub input_ mean ;;
        input_ <- Tensor.div centered (Tensor.tsqrt (Tensor.shift (epsilon l) var)) ;;
        input_ <- Tensor.reshape [n; c; h; w] input_ ;;
        scaled <- Tensor.mul gamma input_ ;;
        Tensor.add scaled beta
  | _ => Raise (ValueError "not enough values to unpack")
  end.

Definition channel_pattern : list (option nat) := [None; Some 0; None; None].

(** [get_output(self, input)] *)
Definition get_output (l : t) (input : Tensor.tensor) : result (Tensor.tensor * t) :=
  gamma <- Tensor.dimshuffle channel_pattern (gamma l) ;;
  beta <- Tensor.dimshuffle channel_pattern (beta l) ;;
  output <- (if (groups l =? 1)%Z then layer_norm_path l gamma beta input
             else
               channels <- second (input_shape l) ;;
               if (groups l =? channels)%Z then instance_norm_path l gamma beta input
               else grouped_path l gamma beta input) ;;
  y <- Utils.call (activation l) (call_kwargs l) output ;;
  Ok (y, l).

(** The forward pass through the general grouped computation, whatever the
    number of groups: what the two dedicated branches are compared with. *)
Definition grouped_output (l : t) (input : Tensor.tensor) : result Tensor.tensor :=
  gamma <- Tensor.dimshuffle channel_pattern (gamma l) ;;
  beta <- Tensor.dimshuffle channel_pattern (beta l) ;;
  output <- grouped_path l gamma beta input ;;
  Utils.call (activation l) (call_kwargs l) output.

(** [reset(self)] *)
Definition reset (l : t) : t * result unit :=
  let l := set_gamma (gamma_values l) l in
  let l := set_beta (beta_values l) l in
  match Utils.getitem Utils.function "prelu" with
  | Raise e => (l, Raise e)
  | Ok f =>
      if Utils.is_ (activation l) f then
        match alpha l with
        | Some _ => (set_alpha (1 / 10)%R l, Ok tt)
        | None => (l, Raise (AttributeError "alpha"))
        end
      else (l, Ok tt)
  end.

End GroupNormLayer.

Module BatchRenormLayer.

(** A [BatchRenormLayer] is a [BatchNormLayer] with two more shared
    scalars. *)
Record t : Type := mk {
  base : BatchNormLayer.t;
  r_max : R;
  d_max : R
}.

Definition input_shape (l : t) : list Z := BatchNormLayer.input_shape (base l).
Definition training_flag (l : t) : bool := BatchNormLayer.training_flag (base l).

(** [__init__(self, input_shape, layer_name, epsilon, r_max, d_max,
    running_average_factor, axes, activation, **kwargs)] *)
Definition init (input_shape : list Z) (layer_name : string) (epsilon : R)
           (r_max d_max : R) (running_average_factor : R) (axes : string)
           (activation : Utils.activation_arg) (kwargs : Utils.kwargs)
  : result t :=
  b <- BatchNormLayer.init input_shape layer_name epsilon running_average_factor
                           axes activation false kwargs ;;
  Ok (mk b r_max d_max).

Definition tiny : R := (1 / 10000000000)%R.

(** The mean and the variance that [get_output] normalizes with. *)
Definition adjusted_statistics (l : t) (input : Tensor.tensor)
  : result (Tensor.tensor * Tensor.tensor * Tensor.tensor * Tensor.tensor) :=
  let b := base l in
  let axes := BatchNormLayer.axes b in
  batch_mean <- Tensor.mean axes false input ;;
  batch_var <- Tensor.var axes false input ;;
  let batch_std := Tensor.tsqrt (Tensor.shift tiny batch_var) in
  let running_std :=
    Tensor.tsqrt (Tensor.shift tiny (BatchNormLayer.running_var b)) in
  ratio <- Tensor.div batch_std running_std ;;
  let r := Tensor.clip (- r_max l) (r_max l) ratio in
  diff <- Tensor.sub batch_mean (BatchNormLayer.running_mean b) ;;
  offset <- Tensor.div diff running_std ;;
  let d := Tensor.clip (- d_max l) (d_max l) offset in
  let r_ := Tensor.shift tiny r in
  d_std <- Tensor.mul d batch_std ;;
  correction <- Tensor.div d_std r_ ;;
  mean <- Tensor.sub batch_mean correction ;;
  std <- Tensor.div batch_std r_ ;;
  Ok (batch_mean, batch_std, mean, Tensor.sqr std).

(** [get_output(self, input)] *)
Definition get_output (l : t) (input : Tensor.tensor) : result (Tensor.tensor * t) :=
  let b := base l in
  '(batch_mean, batch_std, mean, var) <- adjusted_statistics l input ;;
  out <- Theano.batch_normalization_test input (BatchNormLayer.gamma b)
           (BatchNormLayer.beta b) mean var
           (Theano.Axes (BatchNormLayer.axes b)) (BatchNormLayer.epsilon b) ;;
  l' <- (if training_flag l then
           let f := BatchNormLayer.running_average_factor b in
           let m := (INR (Tensor.size (Tensor.shape input))
                     / INR (Tensor.size (Tensor.shape (BatchNormLayer.gamma b))))%R in
           diff <- Tensor.sub batch_mean (BatchNormLayer.running_mean b) ;;
           new_mean <- Tensor.add (BatchNormLayer.running_mean b) (Tensor.scale f diff) ;;
           new_var <- Tensor.add
                        (Tensor.scale (1 - f)%R (BatchNormLayer.running_var b))
                        (Tensor.scale (f * (m / (m - 1)))%R (Tensor.sqr batch_std)) ;;
           Ok (mk (BatchNormLayer.set_running new_mean new_var b) (r_max l) (d_max l))
         else Ok l) ;;
  y <- Utils.call (BatchNormLayer.activation b) [] out ;;
  Ok (y, l').

(** [reset] is inherited. *)
Definition reset (l : t) : t * result unit :=
  let '(b, r) := BatchNormLayer.reset (base l) in
  (mk b (r_max l) (d_max l), r).

End BatchRenormLayer.

Module AdaptiveInstanceNorm2DLayer.

Record t : Type := mk {
  layer : Layer.t;
  epsilon : R
}.

Definition input_shape (l : t) : list Z := Layer.input_shape (layer l).

Definition init (input_shape : list Z) (layer_name : string) (epsilon : R) : t :=
  mk (Layer.init input_shape layer_name) epsilon.

(** A bound of a slice over an axis of length [m]. *)
Definition slice_bound (b : Z) (m : nat) : nat :=
  if (b <? 0)%Z then Z.to_nat (Z.max 0 (Z.of_nat m + b))
  else Nat.min (Z.to_nat b) m.

Definition trailing : list (option nat) := [Some 0; Some 1; None; None].

(** [get_output(self, input, params)] *)
Definition get_output (l : t) (input params : Tensor.tensor)
  : result (Tensor.tensor * t) :=
  if negb ((Tensor.ndim params =? 2) || (Tensor.ndim params =? 4)) then
    Raise (AssertionError
             "The second element in input should either be a feature map or a concatenated matrix.")
  else
    '(scale, bias) <-
       (if Tensor.ndim params =? 4 then
          v <- Tensor.var [2; 3] false params ;;
          m <- Tensor.mean [2; 3] false params ;;
          Ok (Tensor.tsqrt (Tensor.shift (1 / 100000000)%R v), m)
        else
          channels <- second (input_shape l) ;;
          let width := nth 1 (Tensor.shape params) 0 in
          let cut := slice_bound channels width in
          left <- Tensor.columns 0 cut params ;;
          right <- Tensor.columns cut width params ;;
          scale <- Tensor.dimshuffle trailing left ;;
          bias <- Tensor.dimshuffle trailing right ;;
          Ok (scale, bias)) ;;
    '(output, _, _, _) <-
       Theano.batch_normalization_train input scale bias (Theano.Axes [2; 3])
         Theano.epsilon_default (1 / 10)%R None ;;
    Ok (output, l).

End AdaptiveInstanceNorm2DLayer.

Module ConditionalInstanceNorm2DLayer.

Section Conv.

(** [Conv2DLayer] ([neuralnet/layers.py]) is not among the sources: its
    objects, its constructor (here with the arguments the layer passes: the
    number of input channels, the number of filters and the name) and its call
    are parameters. *)
Variable Conv2DLayer : Type.
Variable Conv2DLayer_init :
  Z -> Z -> Utils.activation_arg -> string -> result Conv2DLayer.
Variable Conv2DLayer_call : Conv2DLayer -> Tensor.tensor -> result Tensor.tensor.
Variable Conv2DLayer_params : Conv2DLayer -> list string.

Record t : Type := mk {
  adain : AdaptiveInstanceNorm2DLayer.t;
  noise_dim : Z;
  shift_conv : Conv2DLayer;
  scale_conv : Conv2DLayer
}.

Definition input_shape (l : t) : list Z :=
  AdaptiveInstanceNorm2DLayer.input_shape (adain l).

Definition epsilon (l : t) : R := AdaptiveInstanceNorm2DLayer.epsilon (adain l).

(** [__init__(self, input_shape, noise_dim, layer_name, epsilon, activation)] *)
Definition init (input_shape : list Z) (noise_dim : Z) (layer_name : string)
           (epsilon : R) (activation : Utils.activation_arg) : result t :=
  let a := AdaptiveInstanceNorm2DLayer.init input_shape layer_name epsilon in
  channels <- second input_shape ;;
  shift <- Conv2DLayer_init noise_dim channels activation (layer_name ++ "/shift") ;;
  channels <- second input_shape ;;
  scale <- Conv2DLayer_init noise_dim channels activation (layer_name ++ "/scale") ;;
  let own := (Conv2DLayer_params shift ++ Conv2DLayer_params scale)%list in
  let a := AdaptiveInstanceNorm2DLayer.mk
             (Layer.extend own own own (AdaptiveInstanceNorm2DLayer.layer a))
             (AdaptiveInstanceNorm2DLayer.epsilon a) in
  Ok (mk a noise_dim shift scale).

(** [get_output(self, input, noise)] *)
Definition get_output (l : t) (input noise : Tensor.tensor)
  : result (Tensor.tensor * t) :=
  noise4 <- Tensor.dimshuffle AdaptiveInstanceNorm2DLayer.trailing noise ;;
  shift <- Conv2DLayer_call (shift_conv l) noise4 ;;
  shift <- Theano.addbroadcast23 shift ;;
  noise4 <- Tensor.dimshuffle AdaptiveInstanceNorm2DLayer.trailing noise ;;
  scale <- Conv2DLayer_call (scale_conv l) noise4 ;;
  scale <- Theano.addbroadcast23 scale ;;
  mean <- Tensor.mean [2; 3] true input ;;
  var <- Tensor.var [2; 3] true input ;;
  let std := Tensor.tsqrt (Tensor.shift (epsilon l) var) in
  centered <- Tensor.sub input mean ;;
  normed <- Tensor.div centered std ;;
  scaled <- Tensor.mul normed scale ;;
  out <- Tensor.add scaled shift ;;
  Ok (out, l).

End Conv.

End ConditionalInstanceNorm2DLayer.

Module InstanceNormLayer.

(** [GroupNormLayer] with as many groups as channels. *)
Definition init (input_shape : list Z) (layer_name : string) (epsilon : R)
           (activation : Utils.activation_arg) (kwargs : Utils.kwargs)
  : result GroupNormLayer.t :=
  channels <- second input_shape ;;
  GroupNormLayer.init input_shape layer_name channels epsilon activation kwargs.

End InstanceNormLayer.

Module LayerNormLayer.

(** [GroupNormLayer] with one group. *)
Definition init (input_shape : list Z) (layer_name : string) (epsilon : R)
           (activation : Utils.activation_arg) (kwargs : Utils.kwargs)
  : result GroupNormLayer.t :=
  GroupNormLayer.init input_shape layer_name 1 epsilon activation kwargs.

End LayerNormLayer.

(** ** The layer variants together *)

Module Normalization.

Section Variants.

Variable eigh : Tensor.tensor -> result (Tensor.tensor * Tensor.tensor).
Variable Conv2DLayer : Type.
Variable Conv2DLayer_call : Conv2DLayer -> Tensor.tensor -> result Tensor.tensor.

(** An object of one of the classes of the module. *)
Inductive layer : Type :=
| BatchNorm (l : BatchNormLayer.t)
| BatchRenorm (l : BatchRenormLayer.t)
| DecorrBatchNorm (l : DecorrBatchNormLayer.t)
| GroupNorm (l : GroupNormLayer.t)
| InstanceNorm (l : GroupNormLayer.t)
| LayerNorm (l : GroupNormLayer.t)
| AdaptiveInstanceNorm (l : AdaptiveInstanceNorm2DLayer.t)
| ConditionalInstanceNorm (l : ConditionalInstanceNorm2DLayer.t Conv2DLayer).

Definition input_shape (l : layer) : list Z :=
  match l with
  | BatchNorm b | DecorrBatchNorm b => BatchNormLayer.input_shape b
  | BatchRenorm b => BatchRenormLayer.input_shape b
  | GroupNorm g | InstanceNorm g | LayerNorm g => GroupNormLayer.input_shape g
  | AdaptiveInstanceNorm a => AdaptiveInstanceNorm2DLayer.input_shape a
  | ConditionalInstanceNorm c => ConditionalInstanceNorm2DLayer.input_shape c
  end.

Definition lift {X : Type} (wrap : X -> layer) (r : result (Tensor.tensor * X))
  : result (Tensor.tensor * layer) :=
  '(out, l) <- r ;; Ok (out, wrap l).

(** The forward pass; [aux] is the second input of the adaptive and the
    conditional layer, the others do not look at it. *)
Definition get_output (l : layer) (input aux : Tensor.tensor)
  : result (Tensor.tensor * layer) :=
  match l with
  | BatchNorm b => lift BatchNorm (BatchNormLayer.get_output b input)
  | BatchRenorm b => lift BatchRenorm (BatchRenormLayer.get_output b input)
  | DecorrBatchNorm b =>
      lift DecorrBatchNorm (DecorrBatchNormLayer.get_output eigh b input)
  | GroupNorm g => lift GroupNorm (GroupNormLayer.get_output g input)
  | InstanceNorm g => lift InstanceNorm (GroupNormLayer.get_output g input)
  | LayerNorm g => lift LayerNorm (GroupNormLayer.get_output g input)
  | AdaptiveInstanceNorm a =>
      lift AdaptiveInstanceNorm (AdaptiveInstanceNorm2DLayer.get_output a input aux)
  | ConditionalInstanceNorm c =>
      lift ConditionalInstanceNorm
           (ConditionalInstanceNorm2DLayer.get_output Conv2DLayer_call c input aux)
  end.

(** [reset], for the classes that define or inherit one in the module. *)
Definition reset (l : layer) : option (layer * result unit) :=
  match l with
  | BatchNorm b =>
      let '(b', r) := BatchNormLayer.reset b in Some (BatchNorm b', r)
  | DecorrBatchNorm b =>
      let '(b', r) := BatchNormLayer.reset b in Some (DecorrBatchNorm b', r)
  | BatchRenorm b =>
      let '(b', r) := BatchRenormLayer.reset b in Some (BatchRenorm b', r)
  | GroupNorm g =>
      let '(g', r) := GroupNormLayer.reset g in Some (GroupNorm g', r)
  | InstanceNorm g =>
      let '(g', r) := GroupNormLayer.reset g in Some (InstanceNorm g', r)
  | LayerNorm g =>
      let '(g', r) := GroupNormLayer.reset g in Some (LayerNorm g', r)
  | AdaptiveInstanceNorm _ | ConditionalInstanceNorm _ => None
  end.

End Variants.

End Normalization.

(** ** Sample layers and inputs *)

Module Examples.

(** [BatchNormLayer((2, 1), 'BN')]: one channel, batches of two, in the state
    the constructor leaves it in. *)
Definition bn : BatchNormLayer.t :=
  BatchNormLayer.mk
    (Layer.mk [2; 1]%Z "BN" false
              ["BN/running_mean"; "BN/running_var"; "BN/gamma"; "BN/beta"]%string
              ["BN/beta"; "BN/gamma"]%string ["BN/gamma"]%string)
    (1 / 10000)%R (1 / 10)%R Utils.theano_relu false [0] [1%Z] []
    (Tensor.mkTensor [1] [1%R]) (Tensor.mkTensor [1] [1%R])
    (Tensor.mkTensor [1] [0%R]) (Tensor.mkTensor [1] [0%R])
    (Tensor.mkTensor [1] [0%R]) (Tensor.mkTensor [1] [0%R])
    None.

(** The same layer after [set_training_status(True)]. *)
Definition bn_training : BatchNormLayer.t :=
  BatchNormLayer.with_layer
    (Layer.set_training_status true (BatchNormLayer.layer bn)) bn.

(** A batch of the two one-channel samples 0 and 2. *)
Definition batch_0_2 : Tensor.tensor := Tensor.mkTensor [2; 1] [0; 2]%R.

(** A batch of the two one-channel samples 3 and 3. *)
Definition batch_3_3 : Tensor.tensor := Tensor.mkTensor [2; 1] [3; 3]%R.

(** [BatchRenormLayer((2, 1), 'BRN')], as constructed (test mode, running
    statistics zero, [r_max = 1], [d_max = 0]). *)
Definition brn : BatchRenormLayer.t :=
  BatchRenormLayer.mk
    (BatchNormLayer.mk
       (Layer.mk [2; 1]%Z "BRN" false
                 ["BRN/running_mean"; "BRN/running_var"; "BRN/gamma"; "BRN/beta"]%string
                 ["BRN/beta"; "BRN/gamma"]%string ["BRN/gamma"]%string)
       (1 / 10000)%R (1 / 10)%R Utils.theano_relu false [0] [1%Z] []
       (Tensor.mkTensor [1] [1%R]) (Tensor.mkTensor [1] [1%R])
       (Tensor.mkTensor [1] [0%R]) (Tensor.mkTensor [1] [0%R])
       (Tensor.mkTensor [1] [0%R]) (Tensor.mkTensor [1] [0%R])
       None)
    1%R 0%R.

(** [GroupNormLayer((1, 2, 1, 4), 'GN', groups=2, epsilon=6e-4,
    activation='linear')]: as many groups as channels. *)
Definition gn : GroupNormLayer.t :=
  GroupNormLayer.mk
    (Layer.mk [1; 2; 1; 4]%Z "GN" false
              ["GN/gamma"; "GN/beta"]%string ["GN/gamma"; "GN/beta"]%string
              ["GN/gamma"]%string)
    2%Z (6 / 10000)%R Utils.linear []
    (Tensor.mkTensor [2] [1; 1]%R) (Tensor.mkTensor [2] [1; 1]%R)
    (Tensor.mkTensor [2] [0; 0]%R) (Tensor.mkTensor [2] [0; 0]%R)
    None.

(** [LayerNormLayer((1, 2, 1, 4), 'LN', epsilon=6e-4, activation='linear')]:
    one group. *)
Definition ln : GroupNormLayer.t :=
  GroupNormLayer.mk
    (Layer.mk [1; 2; 1; 4]%Z "LN" false
              ["LN/gamma"; "LN/beta"]%string ["LN/gamma"; "LN/beta"]%string
              ["LN/gamma"]%string)
    1%Z (6 / 10000)%R Utils.linear []
    (Tensor.mkTensor [2] [1; 1]%R) (Tensor.mkTensor [2] [1; 1]%R)
    (Tensor.mkTensor [2] [0; 0]%R) (Tensor.mkTensor [2] [0; 0]%R)
    None.

(** One sample of two channels and four positions; each channel has mean 0
    and variance 3/10000. *)
Definition sample_2x4 : Tensor.tensor :=
  Tensor.mkTensor [1; 2; 1; 4]
    [- (3 / 100); 1 / 100; 1 / 100; 1 / 100;
     - (3 / 100); 1 / 100; 1 / 100; 1 / 100]%R.

(** [DecorrBatchNormLayer((1, 2, 2, 1), 'DBN')] after
    [set_training_status(True)]. *)
Definition dbn : DecorrBatchNormLayer.t :=
  BatchNormLayer.mk
    (Layer.mk [1; 2; 2; 1]%Z "DBN" true
              ["DBN/running_mean"; "DBN/running_var"; "DBN/gamma"; "DBN/beta"]%string
              ["DBN/beta"; "DBN/gamma"]%string ["DBN/gamma"]%string)
    (1 / 10000)%R (1 / 10)%R Utils.theano_relu false [0] [2; 2; 1]%Z []
    (Tensor.ones [2; 2; 1]) (Tensor.ones [2; 2; 1])
    (Tensor.zeros [2; 2; 1]) (Tensor.zeros [2; 2; 1])
    (Tensor.zeros [2; 2; 1]) (Tensor.zeros [2; 2; 1])
    None.

(** One sample of two channels and two positions: channel 0 is [4; 0],
    channel 1 is [2; -2]. *)
Definition sample_2x2 : Tensor.tensor :=
  Tensor.mkTensor [1; 2; 2; 1] [4; 0; 2; - 2]%R.

(** The matrix [Sigma] of that sample, its eigenvalues and its eigenvectors. *)
Definition sigma_2x2 : Tensor.tensor := Tensor.mkTensor [2; 2] [4; 0; 0; 4]%R.
Definition eigenvalues_2x2 : Tensor.tensor := Tensor.mkTensor [2] [4; 4]%R.
Definition identity_2x2 : Tensor.tensor := Tensor.mkTensor [2; 2] [1; 0; 0; 1]%R.

(** An eigendecomposition that knows this one matrix. *)
Definition eigh_2x2 (a : Tensor.tensor) : result (Tensor.tensor * Tensor.tensor) :=
  Ok (eigenvalues_2x2, identity_2x2).

End Examples.

(** ** Minibatches: [generator] of [src/utils.py] *)

Module Batches.

Section Data.

(** A sample and its target. *)
Variables X Y : Type.

(** Where a bound of [a[lo:hi]] falls in a sequence of [len] entries: a
    negative bound counts from the end, and every bound is brought back into
    the sequence. *)
Definition slice_bound (len : nat) (i : Z) : nat :=
  if (i <? 0)%Z then Z.to_nat (Z.max 0 (i + Z.of_nat len))
  else Nat.min (Z.to_nat i) len.

(** [a[lo:hi]] *)
Definition slice {A : Type} (lo hi : Z) (a : list A) : list A :=
  let b := slice_bound (length a) lo in
  let e := slice_bound (length a) hi in
  firstn (e - b) (skipn b a).

(** [a[index]] for an array [a] and an array of positions. *)
Fixpoint take {A : Type} (a : list A) (index : list nat) : result (list A) :=
  match index with
  | [] => Ok []
  | i :: rest =>
      match nth_error a i with
      | Some v => vs <- take a rest ;; Ok (v :: vs)
      | None => Raise (IndexError "index out of bounds")
      end
  end.

(** What the generators yield: the pair [(x[lo:hi], y[lo:hi])], or
    [x[lo:hi]] alone. *)
Inductive minibatch : Type :=
| Pair (x : list X) (y : list Y)
| Single (x : list X).

Definition inputs (b : minibatch) : list X :=
  match b with Pair x _ => x | Single x => x end.

Definition targets (b : minibatch) : list Y :=
  match b with Pair _ y => y | Single _ => [] end.

(** The loop [for i in range(num_batches): yield ...], which the two
    generators share word for word. *)
Definition yield_batches (x : list X) (y : list Y) (no_target : bool)
           (batch_size num_batches : Z) : list minibatch :=
  map (fun i =>
         let lo := (Z.of_nat i * batch_size)%Z in
         let hi := ((Z.of_nat i + 1) * batch_size)%Z in
         if no_target then Single (slice lo hi x)
         else Pair (slice lo hi x) (slice lo hi y))
      (seq 0 (Z.to_nat num_batches)).

(** [a // b] and Python 2's [a / b] on integers. *)
Definition floordiv (a b : Z) : result Z :=
  if (b =? 0)%Z then Raise ZeroDivisionError else Ok (a / b)%Z.

(** [generator(data, batch_size, no_response)] of [src/utils.py] (Python 2);
    [data] is handed over by its parts, and [y] is not looked at when
    [no_response] is set.  The result is what the generator yields when it is
    run to its end, or the exception that ends it. *)
Definition generator (x : list X) (y : list Y) (batch_size : Z)
           (no_response : bool) : result (list minibatch) :=
  num_batch <- floordiv (Z.of_nat (length x)) batch_size ;;
  Ok (yield_batches x y no_response batch_size num_batch).

End Data.

End Batches.

(** ** [DataManager]: the attributes and [generator] *)

Module DataManager.
Import Batches.

Section Data.

Variables X Y : Type.

(** The data set of a [DataManager]: [(features, targets)], or the features
    alone when [no_target] is set ([ys] is then not looked at). *)
Record dataset : Type := mkData {
  xs : list X;
  ys : list Y
}.

(** The attributes the generator reads.  The data sets and their sizes are
    [None] until [load_data] of a subclass has set them. *)
Record t : Type := mk {
  training_set : option dataset;
  testing_set : option dataset;
  num_train_data : option Z;
  num_test_data : option Z;
  batch_size : Z;
  test_batch_size : Z;
  shuffle : bool;
  no_target : bool;
  augmentation : bool;
  num_cached : Z
}.

Definition is_train (stage : string) : bool := String.eqb stage "train".

(** [shape // self.batch_size] *)
Definition num_batches_of (shape : option Z) (batch_size : Z) : result Z :=
  match shape with
  | Some n => floordiv n batch_size
  | None =>
      Raise (TypeError "unsupported operand type(s) for //: 'NoneType' and 'int'")
  end.

(** [generator(stage)], run to its end.  [index] is the array
    [np.random.shuffle] leaves behind, a rearrangement of
    [np.arange(0, len(x))]. *)
Definition generator (dm : t) (stage : string) (index : list nat)
  : result (list (minibatch X Y)) :=
  let dataset := if is_train stage then training_set dm else testing_set dm in
  let shape := if is_train stage then num_train_data dm else num_test_data dm in
  let shuffle := if is_train stage then shuffle dm else false in
  num_batches <- num_batches_of shape (batch_size dm) ;;
  match dataset with
  | None =>
      if no_target dm then
        if shuffle then Raise (IndexError "tuple index out of range")
        else if (0 <? num_batches)%Z then
               Raise (TypeError "'NoneType' object is not subscriptable")
             else Ok []
      else Raise (TypeError "cannot unpack non-iterable NoneType object")
  | Some d =>
      x <- (if shuffle then take (xs d) index else Ok (xs d)) ;;
      y <- (if shuffle && negb (no_target dm) then take (ys d) index
            else Ok (ys d)) ;;
      Ok (yield_batches x y (no_target dm) (batch_size dm) num_batches)
  end.

End Data.

End DataManager.

(** ** [buildmodel.Model] as an iterator *)

Module Model.

Section Layers.

(** The layer objects are left abstract. *)
Variable Layer : Type.

(** The two attributes the iterator protocol reads ([layers] and [index] are
    set up by [Structure], which is not among the sources). *)
Record t : Type := mk {
  layers : list Layer;
  index : Z
}.

(** How a call of [next] ends. *)
Inductive outcome : Type :=
| Return (l : Layer)
| StopIteration
| Error (e : exn).

(** [a[i]] on a list: a negative position counts from the end. *)
Definition getitem (a : list Layer) (i : Z) : result Layer :=
  let j := if (i <? 0)%Z then (i + Z.of_nat (length a))%Z else i in
  if (j <? 0)%Z then Raise (IndexError "list index out of range")
  else match nth_error a (Z.to_nat j) with
       | Some l => Ok l
       | None => Raise (IndexError "list index out of range")
       end.

(** [def next(self)]: the model after the call, and how the call ends. *)
Definition next (m : t) : t * outcome :=
  if (length (layers m) =? 0) || (index m =? Z.of_nat (length (layers m)))%Z
  then (m, StopIteration)
  else
    let m' := mk (layers m) (index m + 1) in
    (m', match getitem (layers m') (index m' - 1) with
         | Ok l => Return l
         | Raise e => Error e
         end).

(** [for layer in model: ...] (Python 2): [__iter__] returns the model itself,
    and [next] is called until it raises.  The result is the model the loop
    leaves behind, the layers the loop body has seen, and the exception that
    came out of the loop, if any; [None] when [fuel] calls were not enough. *)
Fixpoint iterate (fuel : nat) (m : t) : option (t * list Layer * option exn) :=
  match fuel with
  | 0 => None
  | S fuel' =>
      match next m with
      | (m', StopIteration) => Some (m', [], None)
      | (m', Error e) => Some (m', [], Some e)
      | (m', Return l) =>
          match iterate fuel' m' with
          | Some (m'', ls, e) => Some (m'', l :: ls, e)
          | None => None
          end
      end
  end.

End Layers.

End Model.

(** ** The learning-rate schedule: [decrease_learning_rate] *)

Module Schedule.

(** [decrease_learning_rate(learning_rate, iter, epsilon_zero, epsilon_tau,
    tau)]: the value [learning_rate.set_value] is given. *)
Definition decrease_learning_rate (iter epsilon_zero epsilon_tau tau : R)
  : result R :=
  let eps_zero := if Rle_dec iter tau then epsilon_zero else 0%R in
  if Req_EM_T tau 0 then Raise ZeroDivisionError
  else Ok ((1 - iter / tau) * eps_zero + iter / tau * epsilon_tau)%R.

End Schedule.

(** ** The background pipeline over a generator that raises *)

Module FailingPipeline.
Import Pipeline.

Section Queue.

Variable Batch : Type.

(** As [Pipeline.state], for a wrapped generator that gives the items of
    [source] and then raises instead of ending: the producer's loop has no
    handler, so the exception ends the producer thread before
    [queue.put(sentinel)]. *)
Record state : Type := mkState {
  source : list Batch;           (* what the generator gives before it raises *)
  dead : bool;                   (* the exception has ended the producer *)
  queue : list (pyobj Batch);
  yielded : list (pyobj Batch);
  stopped : bool
}.

Definition init (src : list Batch) : state :=
  mkState src false [] [] false.

Inductive step (maxsize : Z) : state -> state -> Prop :=
| producer_put : forall b src q out stp,
    has_room maxsize q = true ->
    step maxsize (mkState (b :: src) false q out stp)
                 (mkState src false (q ++ [Item b]) out stp)
| producer_raise : forall q out stp,
    step maxsize (mkState [] false q out stp)
                 (mkState [] true q out stp)
| consumer_yield : forall src d o q out,
    is_sentinel o = false ->
    step maxsize (mkState src d (o :: q) out false)
                 (mkState src d q (out ++ [o]) false)
| consumer_stop : forall src d o q out,
    is_sentinel o = true ->
    step maxsize (mkState src d (o :: q) out false)
                 (mkState src d q out true).

Definition reachable (maxsize : Z) (src : list Batch) (s : state) : Prop :=
  clos_refl_trans_n1 state (step maxsize) (init src) s.

(** The number of actions still ahead: a [put] and a [get] for every item the
    generator has still to give, the raise, and a [get] for every entry of
    the queue. *)
Definition remaining (s : state) : nat :=
  2 * length (source s) + (if dead s then 0 else 1) + length (queue s).

End Queue.

End FailingPipeline.

(** ** [DataManager.get_batches] *)

Module Feed.
Import Batches DataManager.

Section Data.

Variables X Y : Type.

(** What ends a run: one of the exceptions above, or the
    [NotImplementedError] of [augment_minibatches]. *)
Inductive raised : Type :=
| Exn (e : exn)
| NotImplementedError.

(** What the caller of [get_batches] observes when it consumes the returned
    generator to its end: the events up to an exception, up to the point where
    the consumer waits for ever, or of a complete run. *)
Inductive outcome : Type :=
| Fails (evs : list (Progress.event (minibatch X Y))) (e : raised)
| Blocks (evs : list (Progress.event (minibatch X Y)))
| Completes (evs : list (Progress.event (minibatch X Y))).

(** ['Epoch %d/%d, Batch ' % (epoch, num_epochs)] *)
Definition description (epoch num_epochs : Z) : string :=
  ("Epoch " ++ NilZero.string_of_int (Z.to_int epoch) ++ "/"
   ++ NilZero.string_of_int (Z.to_int num_epochs) ++ ", Batch ")%string.

(** [generate_in_background(batches)], consumed until neither thread can
    act: the minibatches the consumer has yielded, and whether its loop has
    ended ([true]) or it waits in [queue.get()] for ever ([false]).  The two
    threads run as [Pipeline.step] lets them, under any schedule; a generator
    that raises does so before its first item, in the producer thread, and the
    threads then run as [FailingPipeline.step] lets them. *)
Inductive generate_in_background (maxsize : Z)
  : result (list (minibatch X Y)) -> list (minibatch X Y) -> bool -> Prop :=
| consumer_ends : forall items s handed,
    Pipeline.reachable maxsize items s ->
    Pipeline.stopped s = true ->
    Pipeline.yielded s = map (@Pipeline.Item _) handed ->
    generate_in_background maxsize (Ok items) handed true
| consumer_waits : forall e s handed,
    FailingPipeline.reachable maxsize [] s ->
    (forall s', ~ FailingPipeline.step maxsize s s') ->
    FailingPipeline.yielded s = map (@Pipeline.Item _) handed ->
    generate_in_background maxsize (Raise e) handed false.

(** What the caller observes of [progress] over the consumer: the run of
    [progress] over the minibatches handed on, without the closing line when
    the consumer never ends. *)
Definition reported (desc : string) (num_batches : Z) (clock : nat -> Q)
           (handed : list (minibatch X Y)) (ended : bool) : outcome :=
  let '(evs, r) :=
    Progress.progress (Progress.mkIterable handed false) desc
                      (Some num_batches) (1 # 10)%Q clock in
  match r with
  | Some ex => Fails evs (Exn ex)
  | None => if ended then Completes evs else Blocks (removelast evs)
  end.

(** [get_batches(epoch, num_epochs, stage)], consumed to the end.

    [generator(stage)] and the two wrappers are generators: nothing of them
    runs before the first item is asked for.  [augment_minibatches] is an
    ordinary method and raises in the call, as [shape // batch_size] does.
    [progress] resolves [total] before it asks the consumer of
    [generate_in_background] for the first item, which is what starts the
    producer thread. *)
Inductive get_batches (dm : t X Y) (epoch num_epochs : option Z)
          (stage : string) (index : list nat) (clock : nat -> Q)
  : outcome -> Prop :=
| augment_raises :
    is_train stage && augmentation dm = true ->
    get_batches dm epoch num_epochs stage index clock
                (Fails [] NotImplementedError)
| without_progress : forall handed ended,
    is_train stage && augmentation dm = false ->
    epoch = None \/ num_epochs = None ->
    generate_in_background (num_cached dm) (generator dm stage index)
                           handed ended ->
    get_batches dm epoch num_epochs stage index clock
                (if ended then Completes (map (@Progress.Yield _) handed)
                 else Blocks (map (@Progress.Yield _) handed))
| num_batches_raises : forall e n ex,
    is_train stage && augmentation dm = false ->
    epoch = Some e -> num_epochs = Some n ->
    num_batches_of
      (if is_train stage then num_train_data dm else num_test_data dm)
      (if is_train stage then batch_size dm else test_batch_size dm)
    = Raise ex ->
    get_batches dm epoch num_epochs stage index clock (Fails [] (Exn ex))
| total_raises : forall e n num_batches ex,
    is_train stage && augmentation dm = false ->
    epoch = Some e -> num_epochs = Some n ->
    num_batches_of
      (if is_train stage then num_train_data dm else num_test_data dm)
      (if is_train stage then batch_size dm else test_batch_size dm)
    = Ok num_batches ->
    Progress.total_or_len (Some num_batches)
      (Progress.mkIterable (@nil (minibatch X Y)) false) = Raise ex ->
    get_batches dm epoch num_epochs stage index clock (Fails [] (Exn ex))
| with_progress : forall e n num_batches total handed ended,
    is_train stage && augmentation dm = false ->
    epoch = Some e -> num_epochs = Some n ->
    num_batches_of
      (if is_train stage then num_train_data dm else num_test_data dm)
      (if is_train stage then batch_size dm else test_batch_size dm)
    = Ok num_batches ->
    Progress.total_or_len (Some num_batches)
      (Progress.mkIterable (@nil (minibatch X Y)) false) = Ok total ->
    generate_in_background (num_cached dm) (generator dm stage index)
                           handed ended ->
    get_batches dm epoch num_epochs stage index clock
                (reported (description e n) num_batches clock handed ended).

End Data.

End Feed.

(** ** Arrays as numpy reshapes them, and shared variables *)

Module Numpy.
Import Tensor.

(** [np.reshape(a, newshape)]: one length may be [-1] and is then inferred
    from the number of entries. *)
Definition np_reshape (newshape : list Z) (t : tensor) : result tensor :=
  let n := size (shape t) in
  if existsb (fun d => (d <? -1)%Z) newshape then
    Raise (ValueError "negative dimensions not allowed")
  else
    match length (filter (fun d => (d =? -1)%Z) newshape) with
    | 0 =>
        let sh := map Z.to_nat newshape in
        if size sh =? n then Ok (mkTensor sh (data t))
        else Raise (ValueError "cannot reshape array into the given shape")
    | 1 =>
        let known :=
          size (map Z.to_nat (filter (fun d => negb (d =? -1)%Z) newshape)) in
        if (known =? 0) || negb (n mod known =? 0) then
          Raise (ValueError "cannot reshape array into the given shape")
        else
          Ok (mkTensor (map (fun d => if (d =? -1)%Z then n / known
                                      else Z.to_nat d) newshape)
                       (data t))
    | _ => Raise (ValueError "can only specify one unknown dimension")
    end.

(** [v.set_value(new)] on a Theano shared variable holding [v]: the type of
    the variable fixes the number of axes, not their lengths. *)
Definition set_value (v new : tensor) : result tensor :=
  if ndim new =? ndim v then Ok new
  else Raise (TypeError "Wrong number of dimensions").

End Numpy.

(** ** Converting weights: [fully_connected_to_convolution] *)

Module Weights.
Import Tensor Numpy.

(** [fully_connected_to_convolution(weight, prev_layer_shape)] of
    [neuralnet/utils.py]; [None] is the result for a quotient that is not a
    square.  The quotient is a true division; [np.sqrt] of a negative quotient
    is [nan], which [int] refuses. *)
Definition fully_connected_to_convolution
           (weight : tensor) (prev_layer_shape : list Z)
  : result (option tensor) :=
  match shape weight with
  | [] => Raise (IndexError "tuple index out of range")
  | rows :: _ =>
      c <- second prev_layer_shape ;;
      if (c =? 0)%Z then Raise ZeroDivisionError
      else
        let filter_size_square := (INR rows / IZR c)%R in
        if Rlt_dec filter_size_square 0 then
          Raise (ValueError "cannot convert float NaN to integer")
        else
          let filter_size := sqrt filter_size_square in
          let k := Int_part filter_size in
          if Req_EM_T filter_size (IZR k) then
            w <- np_reshape [(-1)%Z; c; k; k] weight ;;
            Ok (Some w)
          else Ok None
  end.

End Weights.

(** ** Feeding the shared variables: [update_input] *)

Module Placeholders.
Import Tensor Numpy.

(** The values held by the shared variables, and how a call ends. *)
Definition outcome : Type := (tensor * tensor) * option exn.

(** [update_input(data, shared_vars, no_response=False, **kwargs)] of
    [src/utils.py], for [data = (x, y)]; [shape_x] and [shape_y] are the
    keyword arguments of these names, if given.  Both arrays are reshaped
    before either variable is assigned. *)
Definition update_input (x y : tensor) (shared_vars : tensor * tensor)
           (shape_x shape_y : option (list Z)) : outcome :=
  let '(vx, vy) := shared_vars in
  let shape_y := match shape_y with
                 | None => map Z.of_nat (shape vy)
                 | Some s => s
                 end in
  let shape_x := match shape_x with
                 | None => map Z.of_nat (shape vx)
                 | Some s => s
                 end in
  match (x <- np_reshape shape_x x ;; y <- np_reshape shape_y y ;; Ok (x, y)) with
  | Raise (ValueError _) =>
      ((vx, vy),
       Some (ValueError
               "Input of the shared variable must have the same shape with the shared variable"))
  | Raise e => ((vx, vy), Some e)
  | Ok (x, y) =>
      match set_value vx x with
      | Raise e => ((vx, vy), Some e)
      | Ok vx' =>
          match set_value vy y with
          | Raise e => ((vx', vy), Some e)
          | Ok vy' => ((vx', vy'), None)
          end
      end
  end.

End Placeholders.

Module DataManagerInput.
Import Tensor Numpy.

(** [DataManager.update_input(data)] of [neuralnet/utils.py] with targets and
    two placeholders: the shapes are read and not compared (the check is
    commented out), and the arrays are assigned as they come. *)
Definition update_input (x y : tensor) (placeholders : tensor * tensor)
  : Placeholders.outcome :=
  let '(vx, vy) := placeholders in
  match set_value vx x with
  | Raise e => ((vx, vy), Some e)
  | Ok vx' =>
      match set_value vy y with
      | Raise e => ((vx', vy), Some e)
      | Ok vy' => ((vx', vy'), None)
      end
  end.

End DataManagerInput.

(** ** Loading weights: [load_weights] *)

Module LoadWeights.
Import Tensor Weights.

(** What [load_weights] reads and writes of a layer: the values of the shared
    variables in [layer.params], and the attributes [filter_shape] and [W],
    which a layer may lack.  [W] is only reached for a layer whose [params]
    cannot be indexed. *)
Record layer : Type := mkLayer {
  params : list tensor;
  filter_shape : option (list Z);
  W : option tensor
}.

Definition shape_eqb (a b : list nat) : bool :=
  if list_eq_dec Nat.eq_dec a b then true else false.

(** The first [try] statement of the loop body with its handler, for the
    array [weights[keys[j]]]. *)
Definition first_block (weights : list tensor) (j : nat) (l : layer)
  : result layer :=
  match nth_error weights j with
  | None => Raise (IndexError "list index out of range")
  | Some w =>
      let body :=
        W_ <- (if ndim w =? 4
               then dimshuffle [Some 3; Some 2; Some 0; Some 1] w
               else Ok w) ;;
        match params l with
        | [] => Raise (IndexError "list index out of range")
        | p0 :: ps =>
            if shape_eqb (shape W_) (shape p0)
            then Ok (mkLayer (W_ :: ps) (filter_shape l) (W l))
            else Ok l
        end in
      match body with
      | Ok l' => Ok l'
      | Raise _ =>
          match filter_shape l with
          | Some fs =>
              W_converted <- fully_connected_to_convolution w fs ;;
              match W_converted with
              | Some wc =>
                  if list_eq_dec Z.eq_dec (map Z.of_nat (shape wc)) fs then
                    match W l with
                    | Some _ => Ok (mkLayer (params l) (filter_shape l) (Some wc))
                    | None => Raise (AttributeError "W")
                    end
                  else Ok l
              | None => Ok l
              end
          | None => Ok l
          end
      end
  end.

(** The second [try] statement.  Its handler prints [keys[j+1]]: when there is
    no such key, the [IndexError] the handler has caught is raised again,
    outside of any [try]. *)
Definition second_block (weights : list tensor) (j : nat) (l : layer)
  : result layer :=
  match nth_error weights (j + 1) with
  | None => Raise (IndexError "list index out of range")
  | Some b =>
      match params l with
      | p0 :: p1 :: ps =>
          if shape_eqb (shape b) (shape p1)
          then Ok (mkLayer (p0 :: b :: ps) (filter_shape l) (W l))
          else Ok l
      | _ => Ok l
      end
  end.

(** The loop [for i, layer in enumerate(model)], from the counter [j] on. *)
Fixpoint loop (weights : list tensor) (j : nat) (model : list layer)
  : result (list layer) :=
  match model with
  | [] => Ok []
  | l :: rest =>
      if (Z.of_nat (length weights) - 1 <? Z.of_nat j)%Z then Ok (l :: rest)
      else
        l <- first_block weights j l ;;
        l <- second_block weights j l ;;
        rest <- loop weights (j + 2) rest ;;
        Ok (l :: rest)
  end.

(** [load_weights(weight_file, model)]; [weights] are the arrays of the file
    in the order of their sorted names.  The result is the layers as the call
    leaves them, or the exception that comes out of it. *)
Definition load_weights (weights : list tensor) (model : list layer)
  : result (list layer) :=
  loop weights 0 model.

End LoadWeights.

(** ** More samples *)

Module Samples.

(** A data manager with five training samples and six test samples, batches
    of two, and a validation batch size of three. *)
Definition dm : DataManager.t nat bool :=
  DataManager.mk
    (Some (DataManager.mkData [1; 2; 3; 4; 5] [true; false; true; false; true]))
    (Some (DataManager.mkData [6; 7; 8; 9; 10; 11]
                              [false; false; true; true; false; true]))
    (Some 5%Z) (Some 6%Z) 2%Z 3%Z false false false 1%Z.

(** The same with [shuffle] on. *)
Definition dm_shuffle : DataManager.t nat bool :=
  DataManager.mk (DataManager.training_set dm) (DataManager.testing_set dm)
                 (Some 5%Z) (Some 6%Z) 2%Z 3%Z true false false 1%Z.

(** The same with batches of eight, more than there are samples. *)
Definition dm_large_batch : DataManager.t nat bool :=
  DataManager.mk (DataManager.training_set dm) (DataManager.testing_set dm)
                 (Some 5%Z) (Some 6%Z) 8%Z 8%Z false false false 1%Z.

(** A clock that advances by one second at every reading. *)
Definition clock (k : nat) : Q := inject_Z (Z.of_nat k).

(** [Examples.brn] after [set_training_status(True)]. *)
Definition brn_training : BatchRenormLayer.t :=
  BatchRenormLayer.mk
    (BatchNormLayer.with_layer
       (Layer.set_training_status true
          (BatchNormLayer.layer (BatchRenormLayer.base Examples.brn)))
       (BatchRenormLayer.base Examples.brn))
    (BatchRenormLayer.r_max Examples.brn) (BatchRenormLayer.d_max Examples.brn).

(** A weight matrix with four rows, its bias, and a layer with parameters of
    these shapes. *)
Definition weight_4x2 : Tensor.tensor :=
  Tensor.mkTensor [4; 2] [1; 2; 3; 4; 5; 6; 7; 8]%R.

Definition bias_2 : Tensor.tensor := Tensor.mkTensor [2] [9; 10]%R.

Definition dense : LoadWeights.layer :=
  LoadWeights.mkLayer [Tensor.zeros [4; 2]; Tensor.zeros [2]] None None.

(** One sample with four channels. *)
Definition channels_1x4 : Tensor.tensor := Tensor.mkTensor [1; 4] [1; 5; 2; 3]%R.

(** [BatchNormLayer((2, 1), 'BN', epsilon=1e-6)]. *)
Definition bn_small_epsilon : BatchNormLayer.t :=
  BatchNormLayer.mk
    (BatchNormLayer.layer Examples.bn) (1 / 1000000)%R (1 / 10)%R
    Utils.theano_relu false [0] [1%Z] []
    (Tensor.mkTensor [1] [1%R]) (Tensor.mkTensor [1] [1%R])
    (Tensor.mkTensor [1] [0%R]) (Tensor.mkTensor [1] [0%R])
    (Tensor.mkTensor [1] [0%R]) (Tensor.mkTensor [1] [0%R])
    None.

(** [BatchNormLayer((2, 1), 'BN', activation='linear')] after
    [set_training_status(True)], with [gamma = 2] and [beta = 7]. *)
Definition bn_linear_training : BatchNormLayer.t :=
  BatchNormLayer.mk
    (Layer.set_training_status true (BatchNormLayer.layer Examples.bn))
    (1 / 10000)%R (1 / 10)%R Utils.linear false [0] [1%Z] []
    (Tensor.mkTensor [1] [1%R]) (Tensor.mkTensor [1] [2%R])
    (Tensor.mkTensor [1] [0%R]) (Tensor.mkTensor [1] [7%R])
    (Tensor.mkTensor [1] [0%R]) (Tensor.mkTensor [1] [0%R])
    None.

(** [GroupNormLayer((1, 4, 1, 2), 'GN4', groups=2, activation='linear')]:
    four channels in two groups. *)
Definition gn_two_groups : GroupNormLayer.t :=
  GroupNormLayer.mk
    (Layer.mk [1; 4; 1; 2]%Z "GN4" false
              ["GN4/gamma"; "GN4/beta"]%string ["GN4/gamma"; "GN4/beta"]%string
              ["GN4/gamma"]%string)
    2%Z (1 / 10000)%R Utils.linear []
    (Tensor.mkTensor [4] [1; 1; 1; 1]%R) (Tensor.mkTensor [4] [1; 1; 1; 1]%R)
    (Tensor.mkTensor [4] [0; 0; 0; 0]%R) (Tensor.mkTensor [4] [0; 0; 0; 0]%R)
    None.

(** Its parameters as [dimshuffle('x', 0, 'x', 'x')] leaves them, and one
    sample of four channels and two positions. *)
Definition gamma_1x4x1x1 : Tensor.tensor :=
  Tensor.mkTensor [1; 4; 1; 1] [1; 1; 1; 1]%R.

Definition beta_1x4x1x1 : Tensor.tensor :=
  Tensor.mkTensor [1; 4; 1; 1] [0; 0; 0; 0]%R.

Definition sample_4x2 : Tensor.tensor :=
  Tensor.mkTensor [1; 4; 1; 2] [1; 2; 3; 4; 5; 6; 7; 8]%R.

End Samples.

(** * Properties *)

(** ** The background pipeline *)

Module PipelineFacts.
Import Pipeline.

Section Queue.

Variable Batch : Type.

Lemma is_sentinel_item (b : Batch) : is_sentinel (Item b) = false.
Proof. reflexivity. Qed.

Lemma is_sentinel_sentinel : is_sentinel (sentinel Batch) = true.
Proof. reflexivity. Qed.

(** The running case of the invariant, with the queue and the output up to
    equality. *)
Lemma inv_running_eq (src taken pending rest : list Batch) (snt : bool)
      (q out : list (pyobj Batch)) :
  src = taken ++ pending ++ rest ->
  (snt = true -> rest = []) ->
  q = map (@Item Batch) pending ++ (if snt then [sentinel Batch] else []) ->
  out = map (@Item Batch) taken ->
  inv src (mkState rest snt q out false).
Proof. intros Hsrc Hsnt -> ->. now constructor. Qed.

Lemma inv_init (src : list Batch) : inv src (init src).
Proof.
  unfold init.
  apply inv_running_eq with (taken := []) (pending := []); auto; discriminate.
Qed.

Lemma inv_step (maxsize : Z) (src : list Batch) (s s' : state Batch) :
  inv src s -> step maxsize s s' -> inv src s'.
Proof.
  intros Hinv Hstep.
  destruct Hstep as [b rest snt q out stp Hroom | q out stp Hroom
                    | rest snt o q out Ho | rest snt o q out Ho];
    inversion Hinv as [taken pending rest' snt' Hsrc Hsnt [Hr Hs Hq Hout] | ]; subst.
  - (* the producer puts an item *)
    destruct snt; [specialize (Hsnt eq_refl); discriminate | ].
    apply inv_running_eq with (taken := taken) (pending := pending ++ [b]);
      try discriminate; auto.
    + now rewrite <- app_assoc.
    + now rewrite map_app, !app_nil_r.
  - (* the producer puts the sentinel *)
    apply inv_running_eq with (taken := taken) (pending := pending); auto.
    now rewrite app_nil_r.
  - (* the consumer yields *)
    destruct pending as [| b pending]; simpl in Hq.
    + destruct snt; simpl in Hq; [ | discriminate].
      injection Hq as <- <-; discriminate.
    + injection Hq as <- <-.
      apply inv_running_eq with (taken := taken ++ [b]) (pending := pending); auto.
      * now rewrite <- app_assoc.
      * now rewrite map_app.
  - (* the consumer meets the sentinel *)
    destruct pending as [| b pending]; simpl in Hq.
    + destruct snt; simpl in Hq; [ | discriminate].
      injection Hq as <- <-.
      rewrite (Hsnt eq_refl), app_nil_r.
      apply inv_stopped.
    + injection Hq as <- <-; discriminate.
Qed.

Lemma reachable_inv (maxsize : Z) (src : list Batch) (s : state Batch) :
  reachable maxsize src s -> inv src s.
Proof.
  unfold reachable.
  induction 1 as [| s s' Hstep _ IH].
  - apply inv_init.
  - eapply inv_step; eauto.
Qed.

Lemma step_bound (maxsize : Z) (s s' : state Batch) :
  (1 <= maxsize)%Z -> step maxsize s s' ->
  (Z.of_nat (length (queue s)) <= maxsize)%Z ->
  (Z.of_nat (length (queue s')) <= maxsize)%Z.
Proof.
  intros Hc Hstep.
  destruct Hstep as [b rest snt q out stp Hroom | q out stp Hroom
                    | rest snt o q out Ho | rest snt o q out Ho];
    simpl; try rewrite length_app; simpl; try lia;
    unfold has_room in Hroom;
    apply orb_true_iff in Hroom; destruct Hroom as [H | H]; lia.
Qed.

Lemma reachable_bound (maxsize : Z) (src : list Batch) (s : state Batch) :
  (1 <= maxsize)%Z -> reachable maxsize src s ->
  (Z.of_nat (length (queue s)) <= maxsize)%Z.
Proof.
  intros Hc. unfold reachable.
  induction 1 as [| s s' Hstep _ IH].
  - simpl. lia.
  - eapply step_bound; eauto.
Qed.

Lemma step_remaining (maxsize : Z) (s s' : state Batch) :
  step maxsize s s' -> remaining s = S (remaining s').
Proof.
  destruct 1; unfold remaining; simpl; try rewrite length_app; simpl;
    repeat match goal with |- context [if ?b then _ else _] => destruct b end; lia.
Qed.

(** A state whose consumer has not stopped always has a next action: the two
    threads never wait for each other for ever. *)
Lemma inv_progress (maxsize : Z) (src : list Batch) (s : state Batch) :
  inv src s -> stopped s = false -> exists s', step maxsize s s'.
Proof.
  intros Hinv Hrun.
  destruct Hinv as [taken pending rest snt Hsrc Hsnt | ]; [ | discriminate].
  destruct pending as [| b pending]; simpl.
  - destruct snt; simpl.
    + eexists. apply consumer_stop. reflexivity.
    + assert (Hroom : has_room maxsize (@nil (pyobj Batch)) = true).
      { unfold has_room; simpl.
        destruct (Z.leb_spec maxsize 0); simpl; [reflexivity | ].
        apply Z.ltb_lt; lia. }
      destruct rest as [| b rest].
      * eexists. apply producer_end. exact Hroom.
      * eexists. apply producer_put. exact Hroom.
  - eexists. apply consumer_yield. reflexivity.
Qed.

Lemma inv_yielded_prefix (src : list Batch) (s : state Batch) :
  inv src s -> exists rest, map (@Item Batch) src = yielded s ++ rest.
Proof.
  destruct 1 as [taken pending rest snt Hsrc Hsnt | ]; simpl.
  - exists (map (@Item Batch) (pending ++ rest)). now rewrite <- map_app, Hsrc.
  - exists []. now rewrite app_nil_r.
Qed.

Lemma inv_yielded_items (src : list Batch) (s : state Batch) :
  inv src s -> forall o, In o (yielded s) -> is_sentinel o = false.
Proof.
  intros Hinv o Hin.
  assert (exists l, yielded s = map (@Item Batch) l) as [l Hl]
    by (destruct Hinv; simpl; eauto).
  rewrite Hl in Hin. apply in_map_iff in Hin as [b [<- _]]. reflexivity.
Qed.

Lemma inv_all_yielded (src : list Batch) (s : state Batch) :
  inv src s -> stopped s = true ->
  yielded s = map (@Item Batch) src /\ queue s = [] /\ source s = [].
Proof.
  destruct 1; simpl; [discriminate | auto].
Qed.

(** C7 (amended).  For a queue capacity of at least one (and below the number
    of items), in every state the two threads can reach, under any schedule:
    what the consumer has yielded is a prefix of the source, in the source's
    order; the queue never holds more than [maxsize] entries; the sentinel is
    never yielded; once the consumer has stopped it has yielded every item and
    the queue is empty; until then some thread can always act, and every
    action brings the end nearer, so that every run ends with the consumer
    stopped. *)
Theorem generate_in_background_fifo
        (maxsize : Z) (src : list Batch) (s : state Batch) :
  (1 <= maxsize)%Z ->
  (maxsize < Z.of_nat (length src))%Z ->
  reachable maxsize src s ->
  (exists rest, map (@Item Batch) src = yielded s ++ rest) /\
  (Z.of_nat (length (queue s)) <= maxsize)%Z /\
  (forall o, In o (yielded s) -> is_sentinel o = false) /\
  (stopped s = true -> yielded s = map (@Item Batch) src /\ queue s = []) /\
  (stopped s = false -> exists s', step maxsize s s') /\
  (forall s', step maxsize s s' -> remaining s = S (remaining s')).
Proof.
  intros Hc _ Hreach.
  pose proof (reachable_inv Hreach) as Hinv.
  repeat split.
  - now apply inv_yielded_prefix.
  - now apply reachable_bound with (src := src).
  - now apply inv_yielded_items with (src := src).
  - now apply inv_all_yielded.
  - now apply (inv_all_yielded Hinv).
  - intros Hrun. now apply inv_progress with (src := src).
  - intros s' Hstep. now apply step_remaining with (maxsize := maxsize).
Qed.

(** Order, completeness and termination do not depend on the capacity: for
    every [num_cached], also zero, negative or larger than the number of items,
    what the consumer has yielded is a prefix of the source, the sentinel is
    never yielded, a stopped consumer has yielded everything and left the queue
    and the generator empty, a running consumer never faces a state without a
    next action, and every action brings the end one step nearer. *)
Theorem generate_in_background_every_capacity
        (maxsize : Z) (src : list Batch) (s : state Batch) :
  reachable maxsize src s ->
  (exists rest, map (@Item Batch) src = yielded s ++ rest) /\
  (forall o, In o (yielded s) -> is_sentinel o = false) /\
  (stopped s = true ->
   yielded s = map (@Item Batch) src /\ queue s = [] /\ source s = []) /\
  (stopped s = false -> exists s', step maxsize s s') /\
  (forall s', step maxsize s s' -> remaining s = S (remaining s')).
Proof.
  intros Hreach.
  pose proof (reachable_inv Hreach) as Hinv.
  split; [now apply inv_yielded_prefix | ].
  split; [now apply inv_yielded_items with (src := src) | ].
  split; [now apply inv_all_yielded | ].
  split; [intros Hrun; now apply inv_progress with (src := src) | ].
  intros s' Hstep. now apply step_remaining with (maxsize := maxsize).
Qed.

Lemma producer_runs_ahead (maxsize : Z) (src rest done : list Batch) :
  (maxsize <= 0)%Z ->
  reachable maxsize src (mkState rest false (map (@Item Batch) done) [] false) ->
  reachable maxsize src
    (mkState [] false (map (@Item Batch) (done ++ rest)) [] false).
Proof.
  intros Hc. revert done.
  induction rest as [| b rest IH]; intros done Hreach.
  - now rewrite app_nil_r.
  - replace (done ++ b :: rest) with ((done ++ [b]) ++ rest)
      by now rewrite <- app_assoc.
    apply IH. rewrite map_app. simpl.
    eapply rtn1_trans; [ | exact Hreach].
    apply producer_put. unfold has_room.
    apply orb_true_iff. left. now apply Z.leb_le.
Qed.

(** With [num_cached] zero or negative the queue is unbounded: the producer
    can run through the whole generator and put the sentinel before the
    consumer has taken a single item, so that all the minibatches are held in
    the queue at once. *)
Theorem generate_in_background_unbounded_queue
        (maxsize : Z) (src : list Batch) :
  (maxsize <= 0)%Z ->
  reachable maxsize src
    (mkState [] true (map (@Item Batch) src ++ [sentinel Batch]) [] false).
Proof.
  intros Hc.
  eapply rtn1_trans.
  - apply producer_end. unfold has_room.
    apply orb_true_iff. left. now apply Z.leb_le.
  - apply (@producer_runs_ahead maxsize src src []); [exact Hc | ].
    apply rtn1_refl.
Qed.

End Queue.

End PipelineFacts.

(** ** Progress reporting *)

Module ProgressFacts.
Import Progress.

Section Items.

Variable A : Type.

Lemma yields_app (evs1 evs2 : list (event A)) :
  yields (evs1 ++ evs2) = yields evs1 ++ yields evs2.
Proof.
  induction evs1 as [| e evs1 IH]; simpl; [reflexivity | ].
  destruct e; simpl; now rewrite IH.
Qed.

Lemma yields_report (desc : string) (total : Z) (t_start t_now : Q) (n : nat) :
  yields (report A desc total t_start t_now n) = [].
Proof.
  unfold report. cbn [yields]. rewrite yields_app.
  destruct (0 <? n); [ | reflexivity].
  destruct (divmod60 _); reflexivity.
Qed.

(** The loop passes every item on, whatever the clock says, as long as the
    percentage can be computed. *)
Lemma loop_yields (desc : string) (total : Z) (min_delay t_start : Q)
      (clock : nat -> Q) (items : list A) :
  total <> 0%Z \/ items = [] ->
  forall (n : nat) (t_last : Q),
    yields (fst (loop desc total min_delay t_start clock n t_last items)) = items /\
    snd (loop desc total min_delay t_start clock n t_last items) = None.
Proof.
  intros Htotal.
  induction items as [| item rest IH]; intros n t_last; cbn [loop].
  - destruct (divmod60 (clock (S n) - t_start)); auto.
  - assert (Hnz : total <> 0%Z) by (destruct Htotal; [assumption | discriminate]).
    assert (Hrest : total <> 0%Z \/ rest = []) by now left.
    specialize (IH Hrest).
    destruct (Qlt_le_dec min_delay (clock (S n) - t_last)).
    + apply Z.eqb_neq in Hnz. rewrite Hnz.
      destruct (IH (S n) (clock (S n))) as [Hy Hr].
      destruct (loop desc total min_delay t_start clock (S n) (clock (S n)) rest)
        as [evs raised]; cbn [fst snd] in *.
      split; [ | assumption].
      rewrite yields_app, yields_report. cbn [yields app]. now rewrite Hy.
    + destruct (IH (S n) t_last) as [Hy Hr].
      destruct (loop desc total min_delay t_start clock (S n) t_last rest)
        as [evs raised]; cbn [fst snd yields] in *.
      split; [now rewrite Hy | assumption].
Qed.

(** C9 (amended).  Whenever [total] is a non-zero count, or the wrapped
    sequence has a length, the wrapper yields exactly the items of the wrapped
    sequence, in order and unaltered, for every description, delay and clock,
    and ends without an exception. *)
Theorem progress_pass_through
        (items : iterable A) (desc : string) (total : option Z)
        (min_delay : Q) (clock : nat -> Q) :
  has_len items = true \/ (exists t, total = Some t /\ t <> 0%Z) ->
  yields (fst (progress items desc total min_delay clock)) = elems items /\
  snd (progress items desc total min_delay clock) = None.
Proof.
  intros Hlen. unfold progress.
  assert (Ht : exists t, total_or_len total items = Ok t /\
                         (t <> 0%Z \/ elems items = [])).
  { destruct Hlen as [Hlen | [t [-> Hnz]]].
    - assert (Hl : exists t, len items = Ok t /\ (t <> 0%Z \/ elems items = [])).
      { unfold len. rewrite Hlen. eexists; split; [reflexivity | ].
        destruct (elems items); [now right | left; simpl; lia]. }
      unfold total_or_len. destruct total as [t | ]; [ | exact Hl].
      destruct (Z.eqb_spec t 0); [exact Hl | eauto].
    - unfold total_or_len. apply Z.eqb_neq in Hnz as Hnz'. rewrite Hnz'. eauto. }
  destruct Ht as [t [-> Ht]].
  now apply loop_yields.
Qed.

Lemma report_not_took (desc : string) (total : Z) (t_start t_now : Q) (n : nat)
      (d : string) (t m sec : Z) :
  ~ In (PrintTook A d t m sec) (report A desc total t_start t_now n).
Proof.
  unfold report. intros [H | H]; [discriminate | ].
  apply in_app_or in H as [H | [H | []]]; [ | discriminate].
  destruct (0 <? n); [ | destruct H].
  destruct (divmod60 _) as [m' s']. destruct H as [H | []]; discriminate.
Qed.

Lemma loop_final_line (desc : string) (total : Z) (min_delay t_start : Q)
      (clock : nat -> Q) (items : list A) :
  forall (n : nat) (t_last : Q),
    snd (loop desc total min_delay t_start clock n t_last items) = None ->
    exists front,
      fst (loop desc total min_delay t_start clock n t_last items)
      = front ++
        [PrintTook A desc total
           (fst (divmod60 (clock (S (n + length items)) - t_start)))
           (snd (divmod60 (clock (S (n + length items)) - t_start)))] /\
      (forall d t m sec, ~ In (PrintTook A d t m sec) front).
Proof.
  induction items as [| item rest IH]; intros n t_last; cbn [loop length].
  - rewrite Nat.add_0_r. intros _. exists [].
    destruct (divmod60 _) as [m sec]. split; [reflexivity | ].
    intros d t m' sec' [].
  - replace (n + S (length rest)) with (S n + length rest) by lia.
    destruct (Qlt_le_dec min_delay (clock (S n) - t_last)) as [Hlt | Hle].
    + destruct (total =? 0)%Z; [discriminate | ].
      specialize (IH (S n) (clock (S n))).
      destruct (loop desc total min_delay t_start clock (S n) (clock (S n)) rest)
        as [evs raised]; cbn [fst snd] in *.
      intros Hr. destruct (IH Hr) as [front [-> Hfront]].
      exists (report A desc total t_start (clock (S n)) n ++ Yield item :: front).
      split; [now rewrite <- app_assoc | ].
      intros d t m sec Hin. apply in_app_or in Hin as [Hin | [Hin | Hin]].
      * now apply report_not_took in Hin.
      * discriminate.
      * now apply Hfront in Hin.
    + specialize (IH (S n) t_last).
      destruct (loop desc total min_delay t_start clock (S n) t_last rest)
        as [evs raised]; cbn [fst snd] in *.
      intros Hr. destruct (IH Hr) as [front [-> Hfront]].
      exists (Yield item :: front). split; [reflexivity | ].
      intros d t m sec [Hin | Hin]; [discriminate | now apply Hfront in Hin].
Qed.

Lemma loop_raised_not_took (desc : string) (total : Z) (min_delay t_start : Q)
      (clock : nat -> Q) (items : list A) :
  forall (n : nat) (t_last : Q),
    snd (loop desc total min_delay t_start clock n t_last items) <> None ->
    forall d t m sec,
      ~ In (PrintTook A d t m sec)
           (fst (loop desc total min_delay t_start clock n t_last items)).
Proof.
  induction items as [| item rest IH]; intros n t_last; cbn [loop].
  - destruct (divmod60 _) as [m sec]. intros H; now destruct H.
  - destruct (Qlt_le_dec min_delay (clock (S n) - t_last)) as [Hlt | Hle].
    + destruct (total =? 0)%Z; [intros _ d t m sec [] | ].
      specialize (IH (S n) (clock (S n))).
      destruct (loop desc total min_delay t_start clock (S n) (clock (S n)) rest)
        as [evs raised]; cbn [fst snd] in *.
      intros Hr d t m sec Hin. apply in_app_or in Hin as [Hin | [Hin | Hin]].
      * now apply report_not_took in Hin.
      * discriminate.
      * now apply (IH Hr) in Hin.
    + specialize (IH (S n) t_last).
      destruct (loop desc total min_delay t_start clock (S n) t_last rest)
        as [evs raised]; cbn [fst snd] in *.
      intros Hr d t m sec [Hin | Hin]; [discriminate | now apply (IH Hr) in Hin].
Qed.

(** The closing line.  A run that ends without an exception prints the
    [took] line exactly once, as its very last action; the line shows the
    resolved [total] twice, whatever the number of items that went through, and
    the time between the first reading of the clock and the reading taken after
    the last item.  A run that ends in an exception never prints it. *)
Theorem progress_closing_line
        (items : iterable A) (desc : string) (total : option Z)
        (min_delay : Q) (clock : nat -> Q) :
  (snd (progress items desc total min_delay clock) = None ->
   exists t front,
     total_or_len total items = Ok t /\
     fst (progress items desc total min_delay clock)
     = front ++
       [PrintTook A desc t
          (fst (divmod60 (clock (S (length (elems items))) - clock 0)))
          (snd (divmod60 (clock (S (length (elems items))) - clock 0)))] /\
     (forall d t' m sec, ~ In (PrintTook A d t' m sec) front)) /\
  (snd (progress items desc total min_delay clock) <> None ->
   forall d t' m sec,
     ~ In (PrintTook A d t' m sec)
          (fst (progress items desc total min_delay clock))).
Proof.
  unfold progress.
  destruct (total_or_len total items) as [t | e]; cbn [fst snd].
  - split.
    + intros Hr. exists t.
      destruct (loop_final_line desc t min_delay (clock 0) clock (elems items)
                  0 0%Q Hr) as [front [Hevs Hfront]].
      exists front. now rewrite Hevs.
    + apply loop_raised_not_took.
  - split; [discriminate | intros _ d t' m sec []].
Qed.

(** The only way [progress] fails: a run ends in an exception only when the
    wrapped sequence has no length and [total] is [None] or [0]; the exception
    is then the [TypeError] of [len], raised before anything is printed or
    yielded.  In particular the division by [total] never fails: a [total] of
    zero is replaced by the length, and a length of zero leaves the loop
    without a turn. *)
Theorem progress_raises_only_type_error
        (items : iterable A) (desc : string) (total : option Z)
        (min_delay : Q) (clock : nat -> Q) (e : exn) :
  snd (progress items desc total min_delay clock) = Some e ->
  has_len items = false /\
  (total = None \/ total = Some 0%Z) /\
  progress items desc total min_delay clock
  = ([], Some (TypeError "object of type 'generator' has no len()")).
Proof.
  unfold progress.
  assert (Hlen : has_len items = true ->
                 exists t, len items = Ok t /\ (t <> 0%Z \/ elems items = [])).
  { intros H. unfold len. rewrite H. eexists; split; [reflexivity | ].
    destruct (elems items); [now right | left; simpl; lia]. }
  assert (Hok : forall t, (t <> 0%Z \/ elems items = []) ->
                snd (loop desc t min_delay (clock 0) clock 0 0%Q (elems items))
                = Some e -> False).
  { intros t Ht Hr. destruct (loop_yields desc min_delay (clock 0) clock Ht 0 0%Q)
      as [_ Hn]. congruence. }
  assert (Hraise : has_len items = false ->
                   len items
                   = Raise (TypeError "object of type 'generator' has no len()")).
  { intros H. unfold len. now rewrite H. }
  unfold total_or_len.
  destruct (has_len items) eqn:Hl.
  - destruct (Hlen eq_refl) as [t [Ht Hnz]].
    destruct total as [t' | ].
    + destruct (Z.eqb_spec t' 0).
      * rewrite Ht. intros Hr. now destruct (Hok t Hnz).
      * intros Hr. destruct (Hok t'); auto.
    + rewrite Ht. intros Hr. now destruct (Hok t Hnz).
  - rewrite (Hraise eq_refl).
    destruct total as [t' | ].
    + destruct (Z.eqb_spec t' 0) as [-> | Hnz].
      * intros _. auto.
      * intros Hr. destruct (Hok t'); auto.
    + intros _. auto.
Qed.

End Items.

End ProgressFacts.

Lemma progress_pass_through_witness :
  Progress.yields
    (fst (Progress.progress (Progress.mkIterable [3; 1; 2] false) "Batch "
            (Some 3%Z) (1 # 10)%Q (fun k => inject_Z (Z.of_nat k))))
  = [3; 1; 2].
Proof.
  refine (proj1 (@ProgressFacts.progress_pass_through nat
     (Progress.mkIterable [3; 1; 2] false) "Batch " (Some 3%Z) (1 # 10)%Q
     (fun k => inject_Z (Z.of_nat k)) _)).
  right. exists 3%Z. split; [reflexivity | lia].
Defined.

(** C9 as stated fails when [total] is left out and the wrapped sequence is a
    generator: [len(items)] raises before anything is yielded. *)
Lemma progress_generator_without_total :
  Progress.progress (Progress.mkIterable [3; 1; 2] false) "" None (1 # 10)%Q
                    (fun k => inject_Z (Z.of_nat k))
  = ([], Some (TypeError "object of type 'generator' has no len()")) /\
  Progress.yields
    (fst (Progress.progress (Progress.mkIterable [3; 1; 2] false) "" None
            (1 # 10)%Q (fun k => inject_Z (Z.of_nat k))))
  <> [3; 1; 2].
Proof. split; [reflexivity | discriminate]. Qed.

(** ** Arrays *)

Module TensorFacts.
Import Tensor.

Lemma ravel_unravel (sh : list nat) (k : nat) :
  ravel sh (unravel sh k) = k mod size sh.
Proof.
  induction sh as [| d sh IH]; simpl.
  - reflexivity.
  - rewrite IH.
    change (fold_right Nat.mul 1 sh) with (size sh).
    rewrite (Nat.mul_comm d (size sh)), Nat.Div0.mod_mul_r. lia.
Qed.

Lemma clamp_unravel (sh : list nat) (k : nat) :
  clamp sh (unravel sh k) = unravel sh k.
Proof.
  induction sh as [| d sh IH]; simpl; [reflexivity | ].
  rewrite IH. destruct (Nat.eqb_spec d 1) as [-> | _]; [ | reflexivity].
  now rewrite Nat.mod_1_r.
Qed.

Lemma bshape_same (sh : list nat) : bshape sh sh = Some sh.
Proof.
  induction sh as [| d sh IH]; simpl; [reflexivity | ].
  rewrite Nat.eqb_refl, IH. simpl.
  destruct (Nat.eqb_spec d 1) as [-> | _]; reflexivity.
Qed.

Lemma pad_same (sh : list nat) : pad (length sh) sh = sh.
Proof. unfold pad. now rewrite Nat.sub_diag. Qed.

Lemma nth_tbuild (sh : list nat) (f : list nat -> R) (i : nat) :
  i < size sh -> nth i (data (tbuild sh f)) 0%R = f (unravel sh i).
Proof.
  intros Hi. unfold tbuild; simpl.
  rewrite nth_indep with (d' := f (unravel sh 0))
    by now rewrite length_map, length_seq.
  rewrite map_nth with (f := fun k => f (unravel sh k)).
  now rewrite seq_nth.
Qed.

Lemma tbuild_well_formed (sh : list nat) (f : list nat -> R) :
  well_formed (tbuild sh f).
Proof. unfold well_formed, tbuild; simpl. now rewrite length_map, length_seq. Qed.

(** An operation on two arrays of one shape acts entry by entry. *)
Lemma elemwise_same_shape (f : R -> R -> R) (a b : tensor) :
  shape a = shape b ->
  exists t,
    elemwise f a b = Ok t /\
    shape t = shape a /\
    well_formed t /\
    forall i, i < size (shape a) ->
              nth i (data t) 0%R = f (nth i (data a) 0%R) (nth i (data b) 0%R).
Proof.
  intros Hs. unfold elemwise, ndim. rewrite <- Hs, Nat.max_id, pad_same, bshape_same.
  eexists. split; [reflexivity | ]. split; [reflexivity | ].
  split; [apply tbuild_well_formed | ].
  intros i Hi. rewrite nth_tbuild by exact Hi.
  unfold bget. rewrite <- Hs, pad_same, clamp_unravel, ravel_unravel.
  now rewrite Nat.mod_small by exact Hi.
Qed.

Lemma nth_map_in (f : R -> R) (l : list R) (i : nat) :
  i < length l -> nth i (map f l) 0%R = f (nth i l 0%R).
Proof.
  intros Hi.
  rewrite nth_indep with (d' := f 0%R) by now rewrite length_map.
  apply map_nth.
Qed.

Lemma nth_scale (c : R) (l : list R) (i : nat) :
  nth i (map (Rmult c) l) 0%R = (c * nth i l 0)%R.
Proof.
  destruct (Nat.lt_ge_cases i (length l)) as [Hi | Hi].
  - now apply nth_map_in.
  - rewrite !nth_overflow; [ring | exact Hi | now rewrite length_map].
Qed.

Lemma expanded_dropped (axes : list nat) (sh : list nat) (i : nat) :
  expanded_shape axes i (length sh) (drop_axes axes i sh) = kept_shape axes i sh.
Proof.
  revert i. induction sh as [| d sh IH]; intros i; simpl; [reflexivity | ].
  destruct (mem i axes); simpl; now rewrite IH.
Qed.

Lemma kept_shape_length (axes : list nat) (sh : list nat) (i : nat) :
  length (kept_shape axes i sh) = length sh.
Proof.
  revert i. induction sh as [| d sh IH]; intros i; simpl; [reflexivity | ].
  now rewrite IH.
Qed.

Lemma kept_shape_idem (axes : list nat) (sh : list nat) (i : nat) :
  kept_shape axes i (kept_shape axes i sh) = kept_shape axes i sh.
Proof.
  revert i. induction sh as [| d sh IH]; intros i; simpl; [reflexivity | ].
  rewrite IH. destruct (mem i axes); reflexivity.
Qed.

Lemma mean_keep_shape (axes : list nat) (t : tensor) :
  shape (mean_keep axes t) = kept_shape axes 0 (shape t).
Proof. reflexivity. Qed.

Lemma bshape_kept (axes : list nat) (sh : list nat) (i : nat) :
  bshape sh (kept_shape axes i sh) = Some sh.
Proof.
  revert i. induction sh as [| d sh IH]; intros i; simpl; [reflexivity | ].
  rewrite IH. destruct (mem i axes).
  - rewrite Nat.eqb_refl, !orb_true_r. simpl.
    destruct (Nat.eqb_spec d 1) as [-> | _]; reflexivity.
  - rewrite Nat.eqb_refl. simpl.
    destruct (Nat.eqb_spec d 1) as [-> | _]; reflexivity.
Qed.

(** An operation between an array and a statistic that kept its axes has the
    shape of the array. *)
Lemma elemwise_kept_shape (f : R -> R -> R) (axes : list nat) (x k : tensor) :
  shape k = kept_shape axes 0 (shape x) ->
  exists t, elemwise f x k = Ok t /\ shape t = shape x.
Proof.
  intros Hk. unfold elemwise, ndim.
  rewrite Hk, kept_shape_length, Nat.max_id, pad_same.
  replace (pad (length (shape x)) (kept_shape axes 0 (shape x)))
    with (kept_shape axes 0 (shape x))
    by (unfold pad; now rewrite kept_shape_length, Nat.sub_diag).
  rewrite bshape_kept. eexists; split; reflexivity.
Qed.

Lemma var_keep_shape (axes : list nat) (x v : tensor) :
  var axes true x = Ok v -> shape v = kept_shape axes 0 (shape x).
Proof.
  unfold var. destruct (valid_axes axes (ndim x)) eqn:Hv; [ | discriminate].
  destruct (elemwise_kept_shape Rminus axes x (mean_keep axes x) eq_refl)
    as [c [Hc Hs]].
  unfold sub. rewrite Hc. cbn [bind]. unfold mean.
  replace (ndim (sqr c)) with (ndim x) by (unfold ndim, sqr; simpl; now rewrite Hs).
  rewrite Hv. intros H; inversion H; subst.
  rewrite mean_keep_shape. unfold sqr; simpl. now rewrite Hs.
Qed.

End TensorFacts.

(** ** The cast to [float32] *)

Module FloatFacts.
Import Float.

Lemma floor_frac (x : R) :
  (x = IZR (Int_part x) + frac_part x /\ 0 <= frac_part x < 1)%R.
Proof.
  split.
  - unfold frac_part. ring.
  - destruct (base_fp x) as [H1 H2]. split; lra.
Qed.

(** Rounding stays within a half of the number. *)
Lemma round_half_even_near (x : R) :
  (x - 1 / 2 <= IZR (round_half_even x) <= x + 1 / 2)%R.
Proof.
  destruct (floor_frac x) as [Hx [H0 H1]].
  unfold round_half_even.
  destruct (Rlt_dec (frac_part x) (1 / 2)) as [Hlt | Hge].
  - lra.
  - destruct (Rlt_dec (1 / 2) (frac_part x)) as [Hgt | Hle].
    + rewrite plus_IZR. lra.
    + destruct (Z.even (Int_part x)); [ | rewrite plus_IZR]; lra.
Qed.

(** Rounding does not cross an integer. *)
Lemma round_half_even_ge (n : Z) (x : R) :
  (IZR n <= x)%R -> (n <= round_half_even x)%Z.
Proof.
  intros Hn.
  assert (Hfloor : (n <= Int_part x)%Z).
  { destruct (floor_frac x) as [Hx [H0 H1]].
    apply Z.lt_succ_r. apply lt_IZR. rewrite succ_IZR. lra. }
  unfold round_half_even.
  repeat match goal with |- context [if ?c then _ else _] => destruct c end; lia.
Qed.

Lemma round_half_even_le (n : Z) (x : R) :
  (x <= IZR n)%R -> (round_half_even x <= n)%Z.
Proof.
  intros Hn.
  destruct (floor_frac x) as [Hx [H0 H1]].
  assert (Hfloor : (Int_part x <= n)%Z).
  { apply le_IZR. lra. }
  destruct (Z.eq_dec (Int_part x) n) as [He | Hne].
  - (* x is the integer n *)
    assert (Hf : frac_part x = 0%R) by (rewrite He in Hx; lra).
    unfold round_half_even. rewrite Hf.
    destruct (Rlt_dec 0 (1 / 2)) as [_ | H]; [lia | lra].
  - unfold round_half_even.
    repeat match goal with |- context [if ?c then _ else _] => destruct c end; lia.
Qed.

Lemma pow2_pos (e : Z) : (0 < powerRZ 2 e)%R.
Proof. apply powerRZ_lt. lra. Qed.

Lemma pow2_add (a b : Z) : (powerRZ 2 (a + b) = powerRZ 2 a * powerRZ 2 b)%R.
Proof. apply powerRZ_add. lra. Qed.

Lemma pow2_le (a b : Z) : (a <= b)%Z -> (powerRZ 2 a <= powerRZ 2 b)%R.
Proof.
  intros H. replace b with (a + Z.of_nat (Z.to_nat (b - a)))%Z by lia.
  rewrite pow2_add, <- pow_powerRZ.
  pose proof (pow2_pos a).
  assert (1 <= 2 ^ Z.to_nat (b - a))%R by (apply pow_R1_Rle; lra).
  nra.
Qed.

(** What the search for the exponent finds. *)
Lemma exponent_from_spec (fuel : nat) (s : Z) (x : R) :
  let e := exponent_from fuel s x in
  (s - Z.of_nat fuel <= e <= s)%Z /\
  ((s - Z.of_nat fuel < e)%Z -> (powerRZ 2 e <= x)%R) /\
  ((e < s)%Z -> (x < powerRZ 2 (e + 1))%R).
Proof.
  revert s. induction fuel as [| fuel IH]; intros s; cbn [exponent_from].
  - cbv zeta. repeat split; lia.
  - destruct (Rle_dec (powerRZ 2 s) x) as [Hle | Hnle].
    + cbv zeta. repeat split; try lia. intros _. exact Hle.
    + specialize (IH (s - 1)%Z). cbv zeta in IH |- *.
      destruct IH as [Hr [Hlow Hup]].
      split; [lia | ]. split.
      * intros H. apply Hlow. lia.
      * intros _.
        destruct (Z.eq_dec (exponent_from fuel (s - 1) x) (s - 1)) as [He | Hne].
        -- rewrite He. replace (s - 1 + 1)%Z with s by lia. lra.
        -- apply Hup. lia.
Qed.

Lemma exponent32_spec (x : R) :
  let e := exponent32 x in
  (-126 <= e <= 127)%Z /\
  ((-126 < e)%Z -> (powerRZ 2 e <= Rabs x)%R) /\
  ((e < 127)%Z -> (Rabs x < powerRZ 2 (e + 1))%R).
Proof.
  unfold exponent32.
  destruct (exponent_from_spec 253 127 (Rabs x)) as [Hr [Hlow Hup]].
  cbv zeta in *. repeat split; try lia; auto.
Qed.

(** The cast does not cross a power of two of the normal range. *)
Lemma float32_at_least (k : Z) (x : R) :
  (-126 <= k <= 127)%Z -> (powerRZ 2 k <= x)%R -> (powerRZ 2 k <= float32 x)%R.
Proof.
  intros Hk Hx.
  pose proof (pow2_pos k) as Hkpos.
  destruct (exponent32_spec x) as [Hr [Hlow _]]. cbv zeta in *.
  unfold float32.
  set (e := exponent32 x) in *.
  rewrite (Rabs_pos_eq x) in Hlow by lra.
  assert (Hke : (k <= e)%Z).
  { destruct (Z_lt_le_dec e k) as [Hlt | Hge]; [ | exact Hge].
    exfalso.
    (* the search passed k *)
    unfold e, exponent32 in Hlt.
    destruct (exponent_from_spec 253 127 (Rabs x)) as [_ [_ Hup]]. cbv zeta in Hup.
    rewrite (Rabs_pos_eq x) in Hup, Hlt by lra.
    assert (Hlt' : (exponent_from 253 127 x < 127)%Z) by lia.
    specialize (Hup Hlt').
    assert (powerRZ 2 (exponent_from 253 127 x + 1) <= powerRZ 2 k)%R
      by (apply pow2_le; lia).
    lra. }
  assert (Hex : (powerRZ 2 e <= x)%R).
  { destruct (Z.eq_dec e (-126)) as [He | Hne].
    - assert (k = e) by lia. subst k. exact Hx.
    - apply Hlow. lia. }
  set (ulp := powerRZ 2 (e - 23)).
  assert (Hulp : (0 < ulp)%R) by apply pow2_pos.
  assert (Hsplit : (powerRZ 2 e = IZR (2 ^ 23) * ulp)%R).
  { unfold ulp. replace (IZR (2 ^ 23)) with (powerRZ 2 23) by (simpl; lra).
    rewrite <- pow2_add. f_equal. lia. }
  assert (Hm : (2 ^ 23 <= round_half_even (x / ulp))%Z).
  { apply round_half_even_ge.
    apply Rmult_le_reg_r with ulp; [exact Hulp | ].
    unfold Rdiv. rewrite Rmult_assoc, Rinv_l, Rmult_1_r by lra.
    rewrite <- Hsplit. exact Hex. }
  apply IZR_le in Hm.
  assert (powerRZ 2 k <= powerRZ 2 e)%R by (apply pow2_le; exact Hke).
  rewrite Hsplit in H.
  apply Rle_trans with (IZR (2 ^ 23) * ulp)%R; [exact H | ].
  apply Rmult_le_compat_r; lra.
Qed.
(** A number that is not above 1/100000 is cast to a number below it: the
    binary32 numbers next to 1/100000 are [10995116 * 2 ^ -40] and
    [10995117 * 2 ^ -40], and 1/100000 is nearer to the first. *)
Lemma float32_below_minimum (x : R) :
  (x <= 1 / 100000)%R -> (float32 x < 1 / 100000)%R.
Proof.
  intros Hx. unfold float32.
  destruct (exponent32_spec x) as [Hr [Hlow Hup]]. cbv zeta in *.
  set (e := exponent32 x) in *.
  set (ulp := powerRZ 2 (e - 23)).
  assert (Hulp : (0 < ulp)%R) by apply pow2_pos.
  destruct (Rle_dec x 0) as [Hneg | Hpos].
  - (* nothing positive comes of a number that is not *)
    assert (Hm : (round_half_even (x / ulp) <= 0)%Z).
    { apply round_half_even_le. unfold Rdiv.
      assert (0 < / ulp)%R by now apply Rinv_0_lt_compat.
      nra. }
    apply IZR_le in Hm. nra.
  - assert (Hx0 : (0 < x)%R) by lra.
    rewrite (Rabs_pos_eq x) in Hlow, Hup by lra.
    assert (H16 : (powerRZ 2 (-16) = 1 / 65536)%R) by (simpl; lra).
    assert (He : (e <= -17)%Z).
    { destruct (Z_lt_le_dec (-17) e) as [Hgt | Hle]; [ | exact Hle].
      exfalso.
      assert (powerRZ 2 e <= x)%R by (apply Hlow; lia).
      assert (powerRZ 2 (-16) <= powerRZ 2 e)%R by (apply pow2_le; lia).
      lra. }
    assert (Hxe : (x < powerRZ 2 (e + 1))%R) by (apply Hup; lia).
    destruct (Z.eq_dec e (-17)) as [He17 | Hne].
    + assert (Hu : (ulp = / 1099511627776)%R).
      { unfold ulp. rewrite He17. simpl. f_equal. lra. }
      assert (Hm : (round_half_even (x / ulp) <= 10995116)%Z).
      { apply Z.lt_succ_r. apply lt_IZR.
        destruct (round_half_even_near (x / ulp)) as [_ Hnear].
        eapply Rle_lt_trans; [exact Hnear | ].
        rewrite Hu. unfold Rdiv. rewrite Rinv_inv.
        change (IZR (Z.succ 10995116)) with 10995117%R. lra. }
      apply IZR_le in Hm.
      apply Rle_lt_trans with (10995116 * ulp)%R; [ | rewrite Hu; lra].
      apply Rmult_le_compat_r; [lra | exact Hm].
    + assert (Hsplit : (powerRZ 2 (e + 1) = IZR (2 ^ 24) * ulp)%R).
      { unfold ulp. replace (IZR (2 ^ 24)) with (powerRZ 2 24) by (simpl; lra).
        rewrite <- pow2_add. f_equal. lia. }
      assert (Hm : (round_half_even (x / ulp) <= 2 ^ 24)%Z).
      { apply round_half_even_le.
        apply Rmult_le_reg_r with ulp; [exact Hulp | ].
        unfold Rdiv. rewrite Rmult_assoc, Rinv_l, Rmult_1_r by lra.
        rewrite <- Hsplit. lra. }
      apply IZR_le in Hm.
      assert (H17 : (powerRZ 2 (-17) = 1 / 131072)%R) by (simpl; lra).
      assert (powerRZ 2 (e + 1) <= powerRZ 2 (-17))%R by (apply pow2_le; lia).
      apply Rle_lt_trans with (IZR (2 ^ 24) * ulp)%R; [ | lra].
      apply Rmult_le_compat_r; lra.
Qed.

(** A number from 1/50000 on is cast to a number that Theano's check of
    [epsilon] accepts. *)
Lemma float32_accepted (x : R) :
  (1 / 50000 <= x)%R -> (1 / 100000 <= float32 x)%R.
Proof.
  intros Hx.
  assert (H16 : (powerRZ 2 (-16) = 1 / 65536)%R) by (simpl; lra).
  assert (powerRZ 2 (-16) <= float32 x)%R
    by (apply float32_at_least; [lia | lra]).
  lra.
Qed.

Local Open Scope Z_scope.

(** Rounding a quotient stays within half a divisor, and is exact on a
    multiple. *)
Lemma round_quotient_near (n d : Z) :
  0 < d -> 0 <= n ->
  let m := round_quotient n d in
  2 * Z.abs (n - m * d) <= d /\ n / d <= m <= n / d + 1 /\
  (n mod d = 0 -> m = n / d).
Proof.
  intros Hd Hn. cbv zeta. unfold round_quotient.
  pose proof (Z.div_mod n d ltac:(lia)) as Hdm.
  pose proof (Z.mod_pos_bound n d Hd) as Hr.
  destruct (Z.ltb_spec (2 * (n mod d)) d) as [H1 | H1].
  - repeat split; try lia.
  - destruct (Z.ltb_spec d (2 * (n mod d))) as [H2 | H2].
    + repeat split; try lia.
    + destruct (Z.even (n / d)); repeat split; try lia.
Qed.

Lemma log2_bounds (a : Z) : 0 < a -> 2 ^ Z.log2 a <= a < 2 ^ (Z.log2 a + 1).
Proof.
  intros H. pose proof (Z.log2_spec a H).
  replace (Z.log2 a + 1) with (Z.succ (Z.log2 a)) by lia. lia.
Qed.

(** Below [2 ^ 53] the rounded quotient of two integers is the floored one
    exactly when the division leaves no remainder. *)
Lemma true_divide_small (a b : Z) :
  b <> 0 -> Z.abs a < 2 ^ 53 -> Z.abs b < 2 ^ 53 ->
  exists f, true_divide a b = Ok f /\ eq_int f (a / b) = (a mod b =? 0).
Proof.
  intros Hb Ha53 Hb53. unfold true_divide.
  destruct (Z.eqb_spec b 0) as [| _]; [contradiction | ].
  destruct (Z.eqb_spec a 0) as [-> | Ha].
  - eexists. split; [reflexivity | ].
    unfold eq_int. cbn [exponent mantissa]. rewrite Z.div_0_l, Z.mod_0_l by exact Hb.
    reflexivity.
  - set (na := Z.abs a). set (nb := Z.abs b).
    assert (Hna : 0 < na) by (unfold na; lia).
    assert (Hnb : 0 < nb) by (unfold nb; lia).
    fold na in Ha53. fold nb in Hb53.
    destruct (log2_bounds Hna) as [Hla1 Hla2].
    destruct (log2_bounds Hnb) as [Hlb1 Hlb2].
    set (la := Z.log2 na) in *. set (lb := Z.log2 nb) in *.
    assert (Hla : 0 <= la < 53).
    { split; [apply Z.log2_nonneg | ].
      destruct (Z_lt_le_dec la 53) as [H | H]; [exact H | ].
      assert (2 ^ 53 <= 2 ^ la) by (apply Z.pow_le_mono_r; lia). lia. }
    assert (Hlb : 0 <= lb < 53).
    { split; [apply Z.log2_nonneg | ].
      destruct (Z_lt_le_dec lb 53) as [H | H]; [exact H | ].
      assert (2 ^ 53 <= 2 ^ lb) by (apply Z.pow_le_mono_r; lia). lia. }
    set (e0 := la - lb - 53).
    assert (He0 : e0 < 0) by (unfold e0; lia).
    unfold scaled at 1.
    destruct (Z.leb_spec 0 e0) as [H | _]; [lia | ].
    (* the quotient at e0 has at least 53 bits *)
    assert (Hq0 : 2 ^ 52 <= na * 2 ^ (- e0) / nb).
    { apply Z.div_le_lower_bound; [exact Hnb | ].
      replace (- e0) with ((53 + lb) - la) by (unfold e0; lia).
      assert (Hp : 2 ^ (53 + lb) = 2 ^ la * 2 ^ (53 + lb - la)).
      { rewrite <- Z.pow_add_r by lia. f_equal. lia. }
      assert (Hp2 : 2 ^ (53 + lb) = 2 * 2 ^ 52 * 2 ^ lb).
      { rewrite Z.pow_add_r by lia. change (2 ^ 53) with (2 * 2 ^ 52). ring. }
      assert (Hp3 : 2 ^ (lb + 1) = 2 * 2 ^ lb).
      { rewrite Z.pow_add_r by lia. change (2 ^ 1) with 2. ring. }
      assert (0 < 2 ^ (53 + lb - la)) by (apply Z.pow_pos_nonneg; lia).
      assert (0 < 2 ^ lb) by (apply Z.pow_pos_nonneg; lia).
      nia. }
    set (e1 := if na * 2 ^ (- e0) / nb <? 2 ^ 53 then e0 else e0 + 1).
    assert (He1 : e1 <= 0 /\ -1074 <= e1).
    { unfold e1. destruct (_ <? _); unfold e0; lia. }
    rewrite (Z.max_l e1 (-1074)) by lia.
    set (k := - e1).
    assert (Hk : 0 <= k) by (unfold k; lia).
    set (P := 2 ^ k).
    assert (HP : 0 < P) by (apply Z.pow_pos_nonneg; lia).
    assert (Hscaled :
      exists d, scaled na nb e1 = (na * P, d) /\ d = nb).
    { unfold scaled. destruct (Z.leb_spec 0 e1) as [H | H].
      - assert (e1 = 0) by lia. exists (nb * 2 ^ e1).
        split; [ | rewrite H0; cbn; lia].
        f_equal. unfold P, k. rewrite H0. cbn. lia.
      - exists nb. split; reflexivity. }
    destruct Hscaled as [d [-> Hd]].
    (* the quotient at e1 has at least 53 bits as well *)
    assert (Hq : 2 ^ 52 * nb <= na * P).
    { unfold P, k, e1.
      destruct (Z.ltb_spec (na * 2 ^ (- e0) / nb) (2 ^ 53)) as [H | H].
      - pose proof (Z.mul_div_le (na * 2 ^ (- e0)) nb Hnb). nia.
      - assert (Hh : 2 ^ (- e0) = 2 * 2 ^ (- (e0 + 1))).
        { replace (- e0) with (1 + - (e0 + 1)) by lia.
          rewrite Z.pow_add_r by lia. reflexivity. }
        pose proof (Z.mul_div_le (na * 2 ^ (- e0)) nb Hnb).
        assert (0 < 2 ^ (- (e0 + 1))) by (apply Z.pow_pos_nonneg; lia).
        nia. }
    destruct (@round_quotient_near (na * P) d) as [Hnear [Hm Hexact]];
      [lia | nia | ].
    set (m := round_quotient (na * P) d) in *.
    subst d.
    (* no overflow *)
    assert (Hsmall : Z.log2 m + e1 < 1024).
    { assert (Hmpos : 0 <= m).
      { pose proof (Z.div_pos (na * P) nb ltac:(nia) Hnb). lia. }
      assert (m <= 2 ^ 200).
      { assert (na * P / nb <= na * P) by (apply Z.div_le_upper_bound; nia).
        assert (P <= 2 ^ 106).
        { unfold P. apply Z.pow_le_mono_r; [lia | ]. unfold k, e1.
          destruct (_ <? _); unfold e0; lia. }
        assert (na * P <= 2 ^ 53 * 2 ^ 106) by nia.
        change (2 ^ 200) with (2 ^ 53 * 2 ^ 106 * 2 ^ 41).
        change (2 ^ 41) with 2199023255552. lia. }
      assert (Z.log2 m <= 200).
      { replace 200 with (Z.log2 (2 ^ 200)) by (apply Z.log2_pow2; lia).
        now apply Z.log2_le_mono. }
      lia. }
    destruct (Z.leb_spec 1024 (Z.log2 m + e1)) as [H | _]; [lia | ].
    eexists. split; [reflexivity | ].
    (* the comparison with the floored quotient *)
    assert (Heq : eq_int (mkFloat (Z.sgn a * Z.sgn b * m) e1) (a / b)
                  = (Z.sgn a * Z.sgn b * m =? a / b * P)).
    { unfold eq_int. cbn [exponent mantissa].
      destruct (Z.leb_spec 0 e1) as [H | H].
      - assert (He : e1 = 0) by lia.
        unfold P, k. rewrite He. cbn. now rewrite !Z.mul_1_r.
      - reflexivity. }
    rewrite Heq. clear Heq.
    destruct (Z.eqb_spec (a mod b) 0) as [Hdiv | Hndiv].
    + (* exact *)
      apply Z.eqb_eq.
      apply Z.div_exact in Hdiv; [ | exact Hb].
      set (K := a / b) in *.
      assert (HnaK : na = nb * Z.abs K).
      { unfold na, nb. rewrite Hdiv at 1. apply Z.abs_mul. }
      assert (Hmod : (na * P) mod nb = 0).
      { rewrite HnaK. replace (nb * Z.abs K * P) with (Z.abs K * P * nb) by ring.
        apply Z.mod_mul. lia. }
      rewrite (Hexact Hmod).
      replace (na * P / nb) with (Z.abs K * P).
      2:{ rewrite HnaK. replace (nb * Z.abs K * P) with (Z.abs K * P * nb) by ring.
          symmetry. apply Z.div_mul. lia. }
      assert (Hsgn : Z.sgn a * Z.sgn b * Z.abs K = K).
      { rewrite Hdiv at 1. rewrite Z.sgn_mul.
        replace (Z.sgn b * Z.sgn K * Z.sgn b * Z.abs K)
          with ((Z.sgn b * Z.sgn b) * (Z.sgn K * Z.abs K)) by ring.
        assert (Hk1 : Z.sgn K * Z.abs K = K) by lia.
        assert (Hb1 : Z.sgn b * Z.sgn b = 1) by lia.
        rewrite Hk1, Hb1. lia. }
      rewrite <- Hsgn at 2. ring.
    + (* never equal *)
      apply Z.eqb_neq. intros Heq.
      set (j := Z.abs (a / b)).
      assert (Hmj : m = j * P).
      { assert (Hs : Z.abs (Z.sgn a * Z.sgn b * m) = m).
        { rewrite !Z.abs_mul.
          assert (Z.abs (Z.sgn a) = 1) by lia.
          assert (Z.abs (Z.sgn b) = 1) by lia.
          pose proof (Z.div_pos (na * P) nb ltac:(nia) Hnb).
          rewrite H, H0. lia. }
        rewrite <- Hs, Heq, Z.abs_mul. unfold j. f_equal. lia. }
      assert (Hone : 1 <= Z.abs (na - j * nb)).
      { assert (na - j * nb <> 0); [ | lia].
        intros H0. apply Hndiv.
        assert (Hna' : na = j * nb) by lia.
        (* then b divides a *)
        apply Z.mod_divide; [exact Hb | ].
        apply Z.divide_abs_l. apply Z.divide_abs_r.
        fold na nb. exists j. exact Hna'. }
      rewrite Hmj in Hnear.
      replace (na * P - j * P * nb) with (P * (na - j * nb)) in Hnear by ring.
      rewrite Z.abs_mul, (Z.abs_eq P) in Hnear by lia.
      nia.
Qed.

End FloatFacts.

(** ** Theano's batch normalization *)

Module TheanoFacts.
Import Tensor.

(** A statistic placed among [n] axes has the shape of a reduction that keeps
    its axes, as soon as it has the shape the statistics are returned with. *)
Lemma place_shape (full : bool) (axes : list nat) (x stat p : tensor) :
  shape stat = kept_shape axes 0 (shape x) ->
  shape p = shape (Theano.unplace full axes stat) ->
  shape (Theano.place full axes (ndim x) p) = shape stat.
Proof.
  intros Hstat Hp. unfold Theano.place, Theano.unplace in *.
  destruct full; [exact Hp | ].
  simpl in *. rewrite Hp, Hstat.
  unfold ndim. rewrite <- (TensorFacts.kept_shape_length axes (shape x) 0).
  rewrite TensorFacts.expanded_dropped. apply TensorFacts.kept_shape_idem.
Qed.

Lemma place_data (full : bool) (axes : list nat) (n : nat) (p : tensor) :
  data (Theano.place full axes n p) = data p.
Proof. unfold Theano.place. now destruct full. Qed.

Lemma unplace_data (full : bool) (axes : list nat) (t : tensor) :
  data (Theano.unplace full axes t) = data t.
Proof. unfold Theano.unplace. now destruct full. Qed.

(** The running average, entry by entry: the running statistic moves towards
    the batch statistic by [factor] times their difference. *)
Lemma running_average_entries (factor : R) (running stat : tensor) :
  shape running = shape stat ->
  exists t,
    Theano.running_average factor running stat = Ok t /\
    shape t = shape stat /\
    forall i, i < size (shape stat) ->
      nth i (data t) 0%R
      = (nth i (data running) 0 + factor * (nth i (data stat) 0 - nth i (data running) 0))%R.
Proof.
  intros Hs. unfold Theano.running_average.
  destruct (TensorFacts.elemwise_same_shape Rplus
              (scale (1 - factor) running) (scale factor stat))
    as [t [Ht [Hsh [_ Hnth]]]]; [exact Hs | ].
  exists t. split; [exact Ht | ]. split; [now rewrite Hsh | ].
  intros i Hi. simpl in Hnth. rewrite Hnth by now rewrite Hs.
  rewrite !TensorFacts.nth_scale. ring.
Qed.

Lemma prepare_axes_given (axes a nb : list nat) (n : nat) :
  Theano.prepare_axes (Theano.Axes axes) n = Ok (a, nb) ->
  a = axes /\ valid_axes axes n = true.
Proof.
  unfold Theano.prepare_axes. destruct axes as [| a0 axes']; [discriminate | ].
  destruct (valid_axes (a0 :: axes') n); [ | discriminate].
  intros H; inversion H; auto.
Qed.

Lemma checked_given (inputs gamma beta : tensor) (others : list tensor)
      (axes a : list nat) (epsilon : R) (full : bool) :
  Theano.checked inputs gamma beta others (Theano.Axes axes) epsilon = Ok (a, full) ->
  a = axes /\ full = (ndim gamma =? ndim inputs) /\
  valid_axes axes (ndim inputs) = true.
Proof.
  unfold Theano.checked.
  destruct (Theano.prepare_axes (Theano.Axes axes) (ndim inputs))
    as [[a' nb] | e] eqn:Hp; cbn [bind]; [ | discriminate].
  apply prepare_axes_given in Hp as [-> Hv].
  destruct (negb _); [discriminate | ].
  destruct (negb _); [discriminate | ].
  destruct (Rlt_dec _ Theano.epsilon_min); [discriminate | ].
  intros H; inversion H; subst; auto.
Qed.

(** What a successful [batch_normalization_train] with running statistics
    has computed. *)
Lemma batch_normalization_train_running
      (inputs gamma beta : tensor) (axes : list nat) (epsilon factor : R)
      (rm rv out mean_ invstd_ : tensor) (updates : option (tensor * tensor)) :
  Theano.batch_normalization_train inputs gamma beta (Theano.Axes axes) epsilon
                                   factor (Some (rm, rv))
  = Ok (out, mean_, invstd_, updates) ->
  let n := ndim inputs in
  let full := ndim gamma =? n in
  let m := (INR (size (shape inputs))
            / INR (size (shape (mean_keep axes inputs))))%R in
  exists var new_rm new_rv,
    valid_axes axes n = true /\
    Tensor.var axes true inputs = Ok var /\
    Theano.normalize_train inputs (Theano.place full axes n gamma)
      (Theano.place full axes n beta) (mean_keep axes inputs)
      (inv (tsqrt (shift epsilon var))) = Ok out /\
    Theano.running_average factor (Theano.place full axes n rm)
                           (mean_keep axes inputs) = Ok new_rm /\
    Theano.running_average factor (Theano.place full axes n rv)
                           (scale (m / (m - 1)) var) = Ok new_rv /\
    (m - 1)%R <> 0%R /\
    updates = Some (Theano.unplace full axes new_rm, Theano.unplace full axes new_rv).
Proof.
  unfold Theano.batch_normalization_train.
  destruct (Theano.checked inputs gamma beta [rm; rv] (Theano.Axes axes) epsilon)
    as [[a full] | e] eqn:Hc; cbn [bind]; [ | discriminate].
  apply checked_given in Hc as [-> [-> Hv]].
  unfold Tensor.mean at 1. rewrite Hv. cbn [bind].
  destruct (Tensor.var axes true inputs) as [var | e]; cbn [bind]; [ | discriminate].
  destruct (Theano.normalize_train _ _ _ _ _) as [o | e] eqn:Ho; cbn [bind];
    [ | discriminate].
  destruct (Theano.running_average factor _ (mean_keep axes inputs))
    as [new_rm | e] eqn:Hm; cbn [bind]; [ | discriminate].
  unfold Float.div.
  destruct (Req_EM_T _ 0) as [Hone | Hone]; cbn [bind]; [discriminate | ].
  destruct (Theano.running_average factor _ (scale _ var))
    as [new_rv | e] eqn:Hvv; cbn [bind]; [ | discriminate].
  intros H; inversion H; subst.
  exists var, new_rm, new_rv. repeat split; auto.
Qed.

End TheanoFacts.

(** ** Construction of the layers *)

Module ConstructionFacts.

(** For numbers below [2 ^ 53] the assertion compares true: it holds exactly
    when [groups] divides the channels. *)
Lemma groups_divide_spec (channels groups : Z) :
  groups <> 0%Z ->
  (Z.abs channels < 2 ^ 53)%Z -> (Z.abs groups < 2 ^ 53)%Z ->
  GroupNormLayer.groups_divide channels groups
  = Ok (channels mod groups =? 0)%Z.
Proof.
  intros Hg Hc Hgs. unfold GroupNormLayer.groups_divide.
  destruct (@FloatFacts.true_divide_small channels groups Hg Hc Hgs)
    as [f [-> Hf]].
  cbn [bind]. now rewrite Hf.
Qed.

(** Beyond [2 ^ 53] it does not: the quotient of [2 ^ 53 + 1] by 2 is rounded
    to [2 ^ 52], the floored quotient, and the assertion holds although 2 does
    not divide the number. *)
Lemma groups_divide_rounds :
  GroupNormLayer.groups_divide (2 ^ 53 + 1) 2 = Ok true /\
  ((2 ^ 53 + 1) mod 2 =? 0)%Z = false.
Proof. split; vm_compute; reflexivity. Qed.

(** C6 (amended).  For a shape with a channel count, the channel count and
    the number of groups being below [2 ^ 53] in size: when the number of
    groups is zero or does not divide the channels, construction gives no
    layer (for a number other than zero it raises the assertion error); when
    it divides them, for a channel count that is not negative and an
    activation that is a callable or a key of [utils.function], construction
    gives a layer with that shape and that number of groups. *)
Theorem group_norm_init_divisibility
        (n channels : Z) (rest : list Z) (layer_name : string) (groups : Z)
        (epsilon : R) (activation : Utils.activation_arg) (kwargs : Utils.kwargs) :
  let construction :=
    GroupNormLayer.init (n :: channels :: rest) layer_name groups epsilon
                        activation kwargs in
  (Z.abs channels < 2 ^ 53)%Z -> (Z.abs groups < 2 ^ 53)%Z ->
  (groups = 0%Z \/ (channels mod groups)%Z <> 0%Z -> is_ok construction = false) /\
  (groups <> 0%Z -> (channels mod groups)%Z <> 0%Z ->
   construction
   = Raise (AssertionError "groups must divide the number of input channels.")) /\
  (groups <> 0%Z -> (channels mod groups)%Z = 0%Z -> (0 <= channels)%Z ->
   is_ok (Utils.resolve activation) = true ->
   exists l,
     construction = Ok l /\
     GroupNormLayer.input_shape l = n :: channels :: rest /\
     GroupNormLayer.groups l = groups).
Proof.
  intros construction Hcs Hgs.
  assert (Hfail : groups <> 0%Z -> (channels mod groups)%Z <> 0%Z ->
                  construction
                  = Raise (AssertionError
                             "groups must divide the number of input channels.")).
  { intros Hg Hm. unfold construction, GroupNormLayer.init.
    cbn [second nth_error bind].
    rewrite (@groups_divide_spec channels groups Hg Hcs Hgs). cbn [bind].
    apply Z.eqb_neq in Hm. now rewrite Hm. }
  split; [ | split; [exact Hfail | ]].
  - intros [-> | Hm].
    + reflexivity.
    + destruct (Z.eq_dec groups 0) as [-> | Hg]; [reflexivity | ].
      now rewrite (Hfail Hg Hm).
  - intros Hg Hm Hc Hact. unfold construction, GroupNormLayer.init.
    cbn [second nth_error bind].
    rewrite (@groups_divide_spec channels groups Hg Hcs Hgs). cbn [bind].
    apply Z.eqb_eq in Hm. rewrite Hm. cbn [negb].
    destruct (Utils.resolve activation) as [act | e]; [ | discriminate].
    cbn [bind]. unfold np_dims. cbn [forallb].
    apply Z.leb_le in Hc. rewrite Hc. cbn [andb bind].
    eexists. split; [reflexivity | ].
    unfold GroupNormLayer.input_shape. cbn.
    split; [ | reflexivity].
    destruct (Utils.names_prelu activation); reflexivity.
Qed.

End ConstructionFacts.

Lemma group_norm_init_divisibility_witness :
  GroupNormLayer.init [4; 6; 8; 8]%Z "GN" 4 (1 / 10000)%R (Utils.ByName "relu") []
  = Raise (AssertionError "groups must divide the number of input channels.") /\
  exists l,
    GroupNormLayer.init [4; 8; 8; 8]%Z "GN" 4 (1 / 10000)%R (Utils.ByName "relu") []
    = Ok l /\
    GroupNormLayer.input_shape l = [4; 8; 8; 8]%Z /\
    GroupNormLayer.groups l = 4%Z.
Proof.
  split.
  - refine (proj1 (proj2 (@ConstructionFacts.group_norm_init_divisibility
                            4 6 [8; 8]%Z "GN" 4 (1 / 10000)%R
                            (Utils.ByName "relu") [] _ _)) _ _);
      [reflexivity | reflexivity | lia | vm_compute; discriminate].
  - refine (proj2 (proj2 (@ConstructionFacts.group_norm_init_divisibility
                            4 8 [8; 8]%Z "GN" 4 (1 / 10000)%R
                            (Utils.ByName "relu") [] _ _)) _ _ _ _);
      [reflexivity | reflexivity | lia | reflexivity | lia | reflexivity].
Defined.

(** C6 as stated fails where the channels are divisible: eight channels in
    four groups with an activation that [utils.function] does not know give
    [KeyError], and no layer. *)
Lemma group_norm_init_unknown_activation :
  (8 mod 4 = 0)%Z /\
  GroupNormLayer.init [4; 8; 8; 8]%Z "GN" 4 (1 / 10000)%R (Utils.ByName "swish") []
  = Raise (KeyError "swish").
Proof. split; reflexivity. Qed.

(** ** The state of the layers *)

Module StateFacts.

(** In test mode a forward pass of a [BatchNormLayer] returns the layer it was
    given. *)
Lemma batch_norm_test_output (l : BatchNormLayer.t) (x : Tensor.tensor) :
  BatchNormLayer.training_flag l = false ->
  BatchNormLayer.get_output l x
  = (out <- BatchNormLayer.batch_normalization_test l x ;;
     y <- Utils.call (BatchNormLayer.activation l) (BatchNormLayer.call_kwargs l) out ;;
     Ok (y, l)).
Proof.
  intros Hflag. unfold BatchNormLayer.get_output. rewrite Hflag.
  destruct (BatchNormLayer.batch_normalization_test l x); reflexivity.
Qed.

(** C2.  In test mode a forward pass of a [BatchNormLayer] leaves the whole
    layer, the running mean and the running variance with it, as it was, so a
    second pass over the same input gives the same output. *)
Theorem batch_norm_test_mode_frame (l : BatchNormLayer.t) (x : Tensor.tensor) :
  BatchNormLayer.training_flag l = false ->
  layer_after l (BatchNormLayer.get_output l x) = l /\
  value_of (BatchNormLayer.get_output
              (layer_after l (BatchNormLayer.get_output l x)) x)
  = value_of (BatchNormLayer.get_output l x).
Proof.
  intros Hflag.
  assert (Hsame : layer_after l (BatchNormLayer.get_output l x) = l).
  { rewrite (batch_norm_test_output l x Hflag).
    destruct (BatchNormLayer.batch_normalization_test l x) as [out | e];
      [ | reflexivity].
    cbn [bind].
    destruct (Utils.call (BatchNormLayer.activation l)
                         (BatchNormLayer.call_kwargs l) out); reflexivity. }
  split; [exact Hsame | now rewrite Hsame].
Qed.

(** [utils.function] has no entry for ['prelu']. *)
Lemma function_has_no_prelu :
  Utils.getitem Utils.function "prelu" = Raise (KeyError "prelu").
Proof. reflexivity. Qed.

(** C8, on the code.  [reset], which [DecorrBatchNormLayer] and
    [BatchRenormLayer] inherit, assigns the initial values to [gamma] and to
    [beta], leaves the running statistics alone, and then raises [KeyError]
    when it looks up ['prelu'] in [utils.function]: the coefficient of the
    parametric activation is never assigned. *)
Theorem batch_norm_reset_raises (l : BatchNormLayer.t) (r_max d_max : R) :
  let l' := fst (BatchNormLayer.reset l) in
  snd (BatchNormLayer.reset l) = Raise (KeyError "prelu") /\
  BatchNormLayer.gamma l' = BatchNormLayer.gamma_values l /\
  BatchNormLayer.beta l' = BatchNormLayer.beta_values l /\
  BatchNormLayer.running_mean l' = BatchNormLayer.running_mean l /\
  BatchNormLayer.running_var l' = BatchNormLayer.running_var l /\
  BatchNormLayer.alpha l' = BatchNormLayer.alpha l /\
  BatchRenormLayer.reset (BatchRenormLayer.mk l r_max d_max)
  = (BatchRenormLayer.mk l' r_max d_max, Raise (KeyError "prelu")).
Proof.
  unfold BatchRenormLayer.reset, BatchNormLayer.reset.
  rewrite function_has_no_prelu.
  cbn. repeat split.
Qed.

(** The constructors cannot build a layer with the parametric activation:
    ['prelu'] is looked up in [utils.function] first. *)
Lemma init_prelu_raises
      (input_shape : list Z) (layer_name : string) (epsilon factor : R)
      (axes : string) (no_scale : bool) (kwargs : Utils.kwargs) :
  BatchNormLayer.init input_shape layer_name epsilon factor axes
                      (Utils.ByName "prelu") no_scale kwargs
  = Raise (KeyError "prelu").
Proof. reflexivity. Qed.

(** C1 (amended).  One forward pass of a [BatchNormLayer] in training mode,
    over an input [x] with batch mean [mean] and batch variance [var] along
    the layer's axes and more than one entry per statistic ([1 < m]):
    - the running mean moves by [factor * (mean - running_mean)], entry by
      entry;
    - the running variance moves by
      [factor * (m / (m - 1) * var - running_var)], the batch variance being
      corrected by [m / (m - 1)], where [m] is the number of input entries per
      statistic;
    - the output is the activation of [(x - mean) * gamma * invstd + beta]
      with [invstd = 1 / sqrt (var + epsilon)], which the running statistics
      do not enter;
    - nothing else of the layer changes. *)
Theorem batch_norm_train_update
        (l l' : BatchNormLayer.t) (x out : Tensor.tensor) :
  let axes := BatchNormLayer.axes l in
  let factor := BatchNormLayer.running_average_factor l in
  let n := Tensor.ndim x in
  let full := Tensor.ndim (BatchNormLayer.gamma l) =? n in
  let gamma := Theano.place full axes n (BatchNormLayer.gamma l) in
  let beta := Theano.place full axes n (BatchNormLayer.beta l) in
  let mean := Tensor.mean_keep axes x in
  let m := (INR (Tensor.size (Tensor.shape x))
            / INR (Tensor.size (Tensor.shape mean)))%R in
  BatchNormLayer.training_flag l = true ->
  (1 < m)%R ->
  BatchNormLayer.get_output l x = Ok (out, l') ->
  exists var normalized,
    Tensor.var axes true x = Ok var /\
    (Tensor.shape (BatchNormLayer.running_mean l)
     = Tensor.shape (Theano.unplace full axes mean) ->
     forall i, i < Tensor.size (Tensor.shape mean) ->
       nth i (Tensor.data (BatchNormLayer.running_mean l')) 0%R
       = (nth i (Tensor.data (BatchNormLayer.running_mean l)) 0
          + factor * (nth i (Tensor.data mean) 0
                      - nth i (Tensor.data (BatchNormLayer.running_mean l)) 0))%R) /\
    (Tensor.shape (BatchNormLayer.running_var l)
     = Tensor.shape (Theano.unplace full axes var) ->
     forall i, i < Tensor.size (Tensor.shape var) ->
       nth i (Tensor.data (BatchNormLayer.running_var l')) 0%R
       = (nth i (Tensor.data (BatchNormLayer.running_var l)) 0
          + factor * (m / (m - 1) * nth i (Tensor.data var) 0
                      - nth i (Tensor.data (BatchNormLayer.running_var l)) 0))%R) /\
    Theano.normalize_train x gamma beta mean
      (Tensor.inv (Tensor.tsqrt (Tensor.shift (BatchNormLayer.epsilon l) var)))
    = Ok normalized /\
    Utils.call (BatchNormLayer.activation l) (BatchNormLayer.call_kwargs l) normalized
    = Ok out /\
    l' = BatchNormLayer.set_running (BatchNormLayer.running_mean l')
                                    (BatchNormLayer.running_var l') l.
Proof.
  intros axes factor n full gamma beta mean m Hflag _ Hout.
  unfold BatchNormLayer.get_output in Hout. rewrite Hflag in Hout.
  unfold BatchNormLayer.batch_normalization_train in Hout.
  destruct (Theano.batch_normalization_train _ _ _ _ _ _ _)
    as [[[[o mean_] invstd_] updates] | e] eqn:Hbn; cbn [bind] in Hout;
    [ | discriminate].
  apply TheanoFacts.batch_normalization_train_running in Hbn.
  destruct Hbn as [var [new_rm [new_rv [Hv [Hvar [Hnorm [Hrm [Hrv [_ ->]]]]]]]]].
  cbn [bind] in Hout.
  destruct (Utils.call _ _ o) as [y | e] eqn:Hact; cbn [bind] in Hout;
    [ | discriminate].
  inversion Hout; subst out l'; clear Hout.
  exists var, o. split; [exact Hvar | ].
  pose proof (TensorFacts.var_keep_shape _ _ Hvar) as Hvs.
  split; [ | split; [ | split; [exact Hnorm | split; [exact Hact | reflexivity]]]].
  - intros Hshape i Hi. cbn.
    destruct (TheanoFacts.running_average_entries factor
                (Theano.place full axes n (BatchNormLayer.running_mean l)) mean)
      as [t [Ht [_ Hnth]]].
    { apply TheanoFacts.place_shape with (stat := mean); [reflexivity | exact Hshape]. }
    fold axes factor n full in Hrm. fold mean in Hrm.
    rewrite Ht in Hrm. inversion Hrm; subst new_rm.
    rewrite TheanoFacts.unplace_data, (Hnth i Hi), TheanoFacts.place_data.
    reflexivity.
  - intros Hshape i Hi. cbn.
    destruct (TheanoFacts.running_average_entries factor
                (Theano.place full axes n (BatchNormLayer.running_var l))
                (Tensor.scale (m / (m - 1)) var))
      as [t [Ht [_ Hnth]]].
    { apply TheanoFacts.place_shape with (stat := var); [exact Hvs | exact Hshape]. }
    fold axes factor n full in Hrv. fold mean in Hrv. fold m in Hrv.
    rewrite Ht in Hrv. inversion Hrv; subst new_rv.
    rewrite TheanoFacts.unplace_data, (Hnth i Hi), TheanoFacts.place_data.
    unfold Tensor.scale, Tensor.tmap; simpl. rewrite TensorFacts.nth_scale.
    reflexivity.
Qed.

Section Variants.

Variable eigh : Tensor.tensor -> result (Tensor.tensor * Tensor.tensor).
Variable Conv2DLayer : Type.
Variable Conv2DLayer_call : Conv2DLayer -> Tensor.tensor -> result Tensor.tensor.

Variable Conv2DLayer_init :
  Z -> Z -> Utils.activation_arg -> string -> result Conv2DLayer.
Variable Conv2DLayer_params : Conv2DLayer -> list string.

Lemma batch_norm_get_output_layer (l l' : BatchNormLayer.t)
      (x out : Tensor.tensor) :
  BatchNormLayer.get_output l x = Ok (out, l') ->
  BatchNormLayer.layer l' = BatchNormLayer.layer l.
Proof.
  unfold BatchNormLayer.get_output, BatchNormLayer.batch_normalization_train.
  destruct (BatchNormLayer.training_flag l).
  - destruct (Theano.batch_normalization_train _ _ _ _ _ _ _)
      as [[[[o m] i] [[mean_ var_] | ]] | e]; cbn [bind];
      try discriminate;
      match goal with |- context [Utils.call ?f ?k ?o] => destruct (Utils.call f k o) end;
      cbn [bind]; intros H; inversion H; reflexivity.
  - destruct (BatchNormLayer.batch_normalization_test l x); cbn [bind];
      try discriminate;
      match goal with |- context [Utils.call ?f ?k ?o] => destruct (Utils.call f k o) end;
      cbn [bind]; intros H; inversion H; reflexivity.
Qed.

Lemma decorr_get_output_layer (l l' : BatchNormLayer.t) (x out : Tensor.tensor) :
  DecorrBatchNormLayer.get_output eigh l x = Ok (out, l') ->
  BatchNormLayer.layer l' = BatchNormLayer.layer l.
Proof.
  unfold DecorrBatchNormLayer.get_output, BatchNormLayer.batch_normalization_train.
  destruct (DecorrBatchNormLayer.transform eigh x) as [[[X S] Z] | e];
    cbn [bind]; [ | discriminate].
  destruct (Tensor.dot Z X) as [X' | e]; cbn [bind]; [ | discriminate].
  destruct (Tensor.transpose X') as [X_T | e]; cbn [bind]; [ | discriminate].
  assert (Hstep :
    forall r : result (Tensor.tensor * BatchNormLayer.t),
      (forall o l1, r = Ok (o, l1) -> BatchNormLayer.layer l1 = BatchNormLayer.layer l) ->
      ('(out0, l1) <- r ;;
       out1 <- Utils.call (BatchNormLayer.activation l) (BatchNormLayer.call_kwargs l) out0 ;;
       out_T <- Tensor.transpose out1 ;;
       match Tensor.shape x with
       | [m; c; h; w] =>
           out2 <- Tensor.reshape [c; m; h; w] out_T ;;
           out3 <- Tensor.dimshuffle [Some 1; Some 0; Some 2; Some 3] out2 ;;
           Ok (out3, l1)
       | _ => Raise (ValueError "not enough values to unpack")
       end) = Ok (out, l') ->
      BatchNormLayer.layer l' = BatchNormLayer.layer l).
  { intros [[o l1] | e] Hr; cbn [bind]; [ | discriminate].
    destruct (Utils.call _ _ o); cbn [bind]; [ | discriminate].
    destruct (Tensor.transpose a); cbn [bind]; [ | discriminate].
    destruct (Tensor.shape x) as [| m [| c [| h [| w [| ? ?]]]]]; try discriminate.
    destruct (Tensor.reshape _ _); cbn [bind]; [ | discriminate].
    destruct (Tensor.dimshuffle _ _); cbn [bind]; [ | discriminate].
    intros H; inversion H; subst. now apply (Hr o). }
  apply Hstep.
  destruct (BatchNormLayer.training_flag l).
  - destruct (Theano.batch_normalization_train _ _ _ _ _ _ _)
      as [[[[o m] i] [[mean_ var_] | ]] | e]; cbn [bind];
      intros o' l1 H; inversion H; reflexivity.
  - destruct (BatchNormLayer.batch_normalization_test l X_T); cbn [bind];
      intros o' l1 H; inversion H; reflexivity.
Qed.

Lemma batch_renorm_get_output_layer (l l' : BatchRenormLayer.t)
      (x out : Tensor.tensor) :
  BatchRenormLayer.get_output l x = Ok (out, l') ->
  BatchRenormLayer.input_shape l' = BatchRenormLayer.input_shape l.
Proof.
  unfold BatchRenormLayer.get_output.
  destruct (BatchRenormLayer.adjusted_statistics l x) as [[[[bm bs] mn] vr] | e];
    cbn [bind]; [ | discriminate].
  destruct (Theano.batch_normalization_test _ _ _ _ _ _ _); cbn [bind];
    [ | discriminate].
  destruct (BatchRenormLayer.training_flag l).
  - destruct (Tensor.sub bm _); cbn [bind]; [ | discriminate].
    destruct (Tensor.add _ _); cbn [bind]; [ | discriminate].
    destruct (Tensor.add _ _); cbn [bind]; [ | discriminate].
    destruct (Utils.call _ _ _); cbn [bind]; [ | discriminate].
    intros H; inversion H; reflexivity.
  - cbn [bind]. destruct (Utils.call _ _ _); cbn [bind]; [ | discriminate].
    intros H; inversion H; reflexivity.
Qed.

Lemma group_norm_get_output_layer (l l' : GroupNormLayer.t) (x out : Tensor.tensor) :
  GroupNormLayer.get_output l x = Ok (out, l') -> l' = l.
Proof.
  unfold GroupNormLayer.get_output.
  destruct (Tensor.dimshuffle _ (GroupNormLayer.gamma l)); cbn [bind]; [ | discriminate].
  destruct (Tensor.dimshuffle _ (GroupNormLayer.beta l)); cbn [bind]; [ | discriminate].
  match goal with |- context [bind ?r _] => destruct r end; cbn [bind]; [ | discriminate].
  destruct (Utils.call _ _ _); cbn [bind]; [ | discriminate].
  intros H; inversion H; reflexivity.
Qed.

Lemma adain_get_output_layer (l l' : AdaptiveInstanceNorm2DLayer.t)
      (x aux out : Tensor.tensor) :
  AdaptiveInstanceNorm2DLayer.get_output l x aux = Ok (out, l') -> l' = l.
Proof.
  unfold AdaptiveInstanceNorm2DLayer.get_output.
  destruct (negb _); [discriminate | ].
  match goal with |- context [bind ?r _] => destruct r as [[sc bi] | e] end;
    cbn [bind]; [ | discriminate].
  destruct (Theano.batch_normalization_train _ _ _ _ _ _ _) as [[[[o m] i] u] | e];
    cbn [bind]; [ | discriminate].
  intros H; inversion H; reflexivity.
Qed.

Lemma cin_get_output_layer
      (l l' : ConditionalInstanceNorm2DLayer.t Conv2DLayer)
      (x aux out : Tensor.tensor) :
  ConditionalInstanceNorm2DLayer.get_output Conv2DLayer_call l x aux = Ok (out, l') ->
  l' = l.
Proof.
  unfold ConditionalInstanceNorm2DLayer.get_output.
  repeat (match goal with |- context [bind ?r _] => destruct r end;
          cbn [bind]; [ | discriminate]).
  intros H; inversion H; reflexivity.
Qed.

(** No operation on a layer changes the [input_shape] it holds: a forward
    pass (in either mode) and [reset] (however it ends) leave it as it is. *)
Lemma input_shape_kept (l : Normalization.layer Conv2DLayer) :
  (forall x aux out l',
      Normalization.get_output eigh Conv2DLayer_call l x aux = Ok (out, l') ->
      Normalization.input_shape l' = Normalization.input_shape l) /\
  (forall l' r,
      Normalization.reset l = Some (l', r) ->
      Normalization.input_shape l' = Normalization.input_shape l).
Proof.
  split.
  { intros x aux out l'.
    destruct l as [b | b | b | g | g | g | a | c];
      unfold Normalization.get_output, Normalization.lift;
      match goal with |- context [bind ?r _] => destruct r as [[o l1] | e] eqn:Hr end;
      cbn [bind]; try discriminate; intros H; inversion H; subst;
      cbn [Normalization.input_shape].
    - unfold BatchNormLayer.input_shape.
      now rewrite (batch_norm_get_output_layer _ _ Hr).
    - pose proof (batch_renorm_get_output_layer _ _ Hr) as Hs.
      unfold BatchRenormLayer.input_shape in *. now rewrite Hs.
    - unfold BatchNormLayer.input_shape.
      now rewrite (decorr_get_output_layer _ _ Hr).
    - now rewrite (group_norm_get_output_layer _ _ Hr).
    - now rewrite (group_norm_get_output_layer _ _ Hr).
    - now rewrite (group_norm_get_output_layer _ _ Hr).
    - now rewrite (adain_get_output_layer _ _ _ Hr).
    - now rewrite (cin_get_output_layer _ _ _ Hr). }
  intros l' r.
  destruct l as [b | b | b | g | g | g | a | c]; cbn [Normalization.reset];
    try discriminate;
    unfold BatchRenormLayer.reset, BatchNormLayer.reset, GroupNormLayer.reset;
    rewrite function_has_no_prelu; intros H; inversion H; subst;
    reflexivity.
Qed.

End Variants.

End StateFacts.

(** Evaluation of a closed term, up to the arithmetic of the reals. *)
Ltac tcompute :=
  cbv -[Rplus Rminus Rmult Rdiv Rinv Ropp sqrt Rabs IZR Rlt_dec Rle_dec
        Req_EM_T Req_dec_T Float.float32 Rmax Rmin exp sin cos tanh].

(** Theano's check of an [epsilon] from 1/50000 on. *)
Ltac epsilon_accepted :=
  match goal with
  | |- context [Rlt_dec (Float.float32 ?e) ?c] =>
      let H := fresh "H" in
      destruct (Rlt_dec (Float.float32 e) c) as [H | _];
      [exfalso;
       pose proof (@FloatFacts.float32_accepted e ltac:(lra)); lra | ]
  end.

(** A division of floats by a number that is not zero. *)
Ltac divisor_not_zero :=
  match goal with
  | |- context [Req_EM_T ?a ?b] =>
      let H := fresh "H" in
      destruct (Req_EM_T a b) as [H | _]; [exfalso; lra | ]
  | |- context [Req_dec_T ?a ?b] =>
      let H := fresh "H" in
      destruct (Req_dec_T a b) as [H | _]; [exfalso; lra | ]
  end.

Lemma bn_constructed :
  BatchNormLayer.init [2; 1]%Z "BN" (1 / 10000)%R (1 / 10)%R "spatial"
                      (Utils.ByName "relu") false []
  = Ok Examples.bn.
Proof. reflexivity. Qed.

Lemma batch_norm_test_mode_frame_witness :
  is_ok (BatchNormLayer.get_output Examples.bn Examples.batch_0_2) = true /\
  layer_after Examples.bn
              (BatchNormLayer.get_output Examples.bn Examples.batch_0_2)
  = Examples.bn.
Proof.
  split.
  - tcompute.
    epsilon_accepted. reflexivity.
  - exact (proj1 (@StateFacts.batch_norm_test_mode_frame
                    Examples.bn Examples.batch_0_2 eq_refl)).
Defined.

(** One training pass of the sample layer over the batch [0; 2]: the batch
    mean is 1 and the batch variance is 1; the running mean becomes 1/10 and
    the running variance 2/10. *)
Lemma bn_training_forward :
  exists out,
    BatchNormLayer.get_output Examples.bn_training Examples.batch_0_2
    = Ok (out, BatchNormLayer.set_running
                 (Tensor.mkTensor [1] [1 / 10]%R)
                 (Tensor.mkTensor [1] [2 / 10]%R) Examples.bn_training).
Proof.
  eexists. tcompute.
  epsilon_accepted. divisor_not_zero.
  apply f_equal. apply f_equal2; [reflexivity | ].
  repeat (f_equal; try reflexivity; try field).
Qed.

(** A batch with one entry per statistic: the pass ends in the division
    [m / (m - 1)], and the layer keeps its running statistics. *)
Lemma bn_training_single_entry :
  BatchNormLayer.get_output Examples.bn_training (Tensor.mkTensor [1; 1] [3%R])
  = Raise ZeroDivisionError.
Proof.
  tcompute. epsilon_accepted.
  destruct (Req_dec_T (1 / 1 - 1) 0) as [_ | H]; [reflexivity | ].
  exfalso. apply H. lra.
Qed.

Lemma batch_norm_train_update_witness :
  exists out l',
    BatchNormLayer.get_output Examples.bn_training Examples.batch_0_2 = Ok (out, l') /\
    nth 0 (Tensor.data (BatchNormLayer.running_mean l')) 0%R
    = (nth 0 (Tensor.data (BatchNormLayer.running_mean Examples.bn_training)) 0
       + 1 / 10 * (nth 0 (Tensor.data (Tensor.mean_keep [0%nat] Examples.batch_0_2)) 0
                   - nth 0 (Tensor.data (BatchNormLayer.running_mean
                                           Examples.bn_training)) 0))%R.
Proof.
  destruct bn_training_forward as [out Hout].
  exists out. eexists. split; [exact Hout | ].
  assert (Hm : (1 < INR (Tensor.size (Tensor.shape Examples.batch_0_2))
                    / INR (Tensor.size
                             (Tensor.shape
                                (Tensor.mean_keep
                                   (BatchNormLayer.axes Examples.bn_training)
                                   Examples.batch_0_2))))%R)
    by (cbn; lra).
  destruct (@StateFacts.batch_norm_train_update
              Examples.bn_training _ Examples.batch_0_2 out eq_refl Hm Hout)
    as [var [normalized [_ [Hmean _]]]].
  apply Hmean; [reflexivity | simpl; lia].
Defined.

(** C1 as stated fails for the running variance: after the pass over the
    batch [0; 2] it is 2/10, and not [0 + 1/10 * (1 - 0)], the batch variance
    being 1. *)
Lemma batch_norm_running_var_corrected :
  exists out l' var,
    BatchNormLayer.get_output Examples.bn_training Examples.batch_0_2 = Ok (out, l') /\
    Tensor.var [0] false Examples.batch_0_2 = Ok var /\
    nth 0 (Tensor.data var) 0%R = 1%R /\
    nth 0 (Tensor.data (BatchNormLayer.running_var l')) 0%R
    <> (nth 0 (Tensor.data (BatchNormLayer.running_var Examples.bn_training)) 0
        + 1 / 10 * (nth 0 (Tensor.data var) 0
                    - nth 0 (Tensor.data (BatchNormLayer.running_var
                                            Examples.bn_training)) 0))%R.
Proof.
  destruct bn_training_forward as [out Hout].
  exists out. eexists. eexists. split; [exact Hout | ].
  split; [reflexivity | ].
  split; [tcompute; field | ].
  tcompute. intros H.
  assert (Hv : (((0 - (0 + (2 + 0)) / (1 + 1)) * (0 - (0 + (2 + 0)) / (1 + 1))
                 + ((2 - (0 + (2 + 0)) / (1 + 1)) * (2 - (0 + (2 + 0)) / (1 + 1)) + 0))
                / (1 + 1) = 1)%R) by field.
  rewrite Hv in H. lra.
Qed.

Lemma brn_constructed :
  BatchRenormLayer.init [2; 1]%Z "BRN" (1 / 10000)%R 1%R 0%R (1 / 10)%R "spatial"
                        (Utils.ByName "relu") []
  = Ok Examples.brn.
Proof. reflexivity. Qed.

Lemma gn_constructed :
  GroupNormLayer.init [1; 2; 1; 4]%Z "GN" 2%Z (6 / 10000)%R (Utils.ByName "linear") []
  = Ok Examples.gn.
Proof. reflexivity. Qed.

Lemma dbn_constructed :
  DecorrBatchNormLayer.init [1; 2; 2; 1]%Z "DBN" (1 / 10000)%R (1 / 10)%R
                            (Utils.ByName "relu") false []
  = Ok (BatchNormLayer.with_layer
          (Layer.set_training_status false (BatchNormLayer.layer Examples.dbn))
          Examples.dbn).
Proof. reflexivity. Qed.

(** ** The forward passes on sample inputs *)

Module ForwardFacts.

Lemma clip1_zero (x : R) : Tensor.clip1 (- 0) 0 x = 0%R.
Proof.
  unfold Tensor.clip1.
  destruct (Rlt_dec x (- 0)); [lra | ].
  destruct (Rlt_dec 0 x); lra.
Qed.

Lemma relu1_zero : Utils.relu1 0 0 = 0%R.
Proof. unfold Utils.relu1. rewrite Rabs_R0. ring. Qed.

Lemma relu1_positive (x : R) : (0 <= x)%R -> Utils.relu1 0 x = x.
Proof. intros Hx. unfold Utils.relu1. rewrite Rabs_right by lra. field. Qed.

Lemma sqrt_hundredth : sqrt (0 + 1 / 10000) = (1 / 100)%R.
Proof.
  replace (0 + 1 / 10000)%R with ((1 / 100) * (1 / 100))%R by field.
  apply sqrt_square. lra.
Qed.

(** C3, on the code.  In test mode, with the running statistics as
    constructed, a [BatchRenormLayer] maps the constant batch [3; 3] to
    [0; 0]: it normalizes with the mean of the batch.  The formula with the
    frozen running statistics, which the inherited [batch_normalization_test]
    computes and [BatchNormLayer.get_output] uses, gives [300; 300]. *)
Theorem batch_renorm_test_mode_uses_batch
  : BatchRenormLayer.training_flag Examples.brn = false /\
    BatchRenormLayer.get_output Examples.brn Examples.batch_3_3
    = Ok (Tensor.mkTensor [2; 1] [0; 0]%R, Examples.brn) /\
    BatchNormLayer.get_output (BatchRenormLayer.base Examples.brn) Examples.batch_3_3
    = Ok (Tensor.mkTensor [2; 1] [300; 300]%R, BatchRenormLayer.base Examples.brn).
Proof.
  split; [reflexivity | split].
  - cbv -[Rplus Rminus Rmult Rdiv Rinv Ropp sqrt Rabs IZR Rlt_dec Rle_dec
          Req_EM_T Req_dec_T Float.float32 Rmax Rmin exp sin cos tanh
          Tensor.clip1 Utils.relu1].
    epsilon_accepted.
    rewrite !clip1_zero.
    apply f_equal. apply f_equal2; [ | reflexivity].
    apply f_equal.
    repeat match goal with
           | |- context [Utils.relu1 _ ?e] =>
               assert (He : e = 0%R)
                 by (replace ((3 + (3 + 0)) / (1 + 1))%R with 3%R by field;
                     unfold Rdiv; ring);
               rewrite He; clear He
           end.
    now rewrite !relu1_zero.
  - cbv -[Rplus Rminus Rmult Rdiv Rinv Ropp sqrt Rabs IZR Rlt_dec Rle_dec
          Req_EM_T Req_dec_T Float.float32 Rmax Rmin exp sin cos tanh
          Tensor.clip1 Utils.relu1].
    epsilon_accepted.
    apply f_equal. apply f_equal2; [ | reflexivity].
    apply f_equal.
    rewrite !sqrt_hundredth.
    replace ((3 - 0) * 1 / (1 / 100) + 0)%R with 300%R by field.
    rewrite !relu1_positive by lra. reflexivity.
Qed.

(** Evaluation of the square roots of a goal whose radicands are all the
    square of [root]. *)
Ltac sqrt_all root :=
  repeat match goal with
         | |- context [sqrt ?e] =>
             replace e with (root * root)%R by field;
             rewrite (sqrt_square root) by lra
         end.

(** C4, on the code.  A [GroupNormLayer] with as many groups as channels and
    [epsilon = 6/10000] takes the dedicated branch, which calls Theano without
    an [epsilon] and so normalizes with 1/10000: on the sample, whose channels
    have variance 3/10000, it divides by [sqrt (4/10000)], while the general
    grouped computation, with the layer's [epsilon], divides by
    [sqrt (9/10000)].  The two outputs differ by half of the larger one. *)
Theorem instance_norm_branch_ignores_epsilon
  : GroupNormLayer.groups Examples.gn = 2%Z /\
    GroupNormLayer.input_shape Examples.gn = [1; 2; 1; 4]%Z /\
    GroupNormLayer.epsilon Examples.gn = (6 / 10000)%R /\
    GroupNormLayer.get_output Examples.gn Examples.sample_2x4
    = Ok (Tensor.mkTensor [1; 2; 1; 4]
            [- (3 / 2); 1 / 2; 1 / 2; 1 / 2; - (3 / 2); 1 / 2; 1 / 2; 1 / 2]%R,
          Examples.gn) /\
    GroupNormLayer.grouped_output Examples.gn Examples.sample_2x4
    = Ok (Tensor.mkTensor [1; 2; 1; 4]
            [- 1; 1 / 3; 1 / 3; 1 / 3; - 1; 1 / 3; 1 / 3; 1 / 3]%R).
Proof.
  split; [reflexivity | ]. split; [reflexivity | ]. split; [reflexivity | ].
  split.
  - tcompute.
    epsilon_accepted.
    apply f_equal. apply f_equal2; [ | reflexivity].
    apply f_equal.
    sqrt_all (2 / 100)%R.
    repeat (f_equal; try field).
  - tcompute.
    apply f_equal. apply f_equal.
    sqrt_all (3 / 100)%R.
    repeat (f_equal; try field).
Qed.

(** The dedicated branch for one group passes the layer's [epsilon] on: on
    the sample it agrees with the general grouped computation. *)
Lemma layer_norm_branch_agrees_on_sample :
  LayerNormLayer.init [1; 2; 1; 4]%Z "LN" (6 / 10000)%R (Utils.ByName "linear") []
  = Ok Examples.ln /\
  value_of (GroupNormLayer.get_output Examples.ln Examples.sample_2x4)
  = Ok (Tensor.mkTensor [1; 2; 1; 4]
          [- 1; 1 / 3; 1 / 3; 1 / 3; - 1; 1 / 3; 1 / 3; 1 / 3]%R) /\
  GroupNormLayer.grouped_output Examples.ln Examples.sample_2x4
  = Ok (Tensor.mkTensor [1; 2; 1; 4]
          [- 1; 1 / 3; 1 / 3; 1 / 3; - 1; 1 / 3; 1 / 3; 1 / 3]%R).
Proof.
  split; [reflexivity | split].
  - tcompute.
    epsilon_accepted.
    apply f_equal. apply f_equal.
    sqrt_all (3 / 100)%R.
    repeat (f_equal; try field).
  - tcompute.
    apply f_equal. apply f_equal.
    sqrt_all (3 / 100)%R.
    repeat (f_equal; try field).
Qed.

Section Eigh.

Variable eigh : Tensor.tensor -> result (Tensor.tensor * Tensor.tensor).

(** C5, on the code.  For the sample whose matrix [Sigma] is four times the
    identity, and an eigendecomposition that returns the eigenvalues [4; 4]
    with the identity as eigenvectors, the matrix [Z] that [get_output]
    applies to the flattened input is twice the identity: [Z * Z] is [Sigma],
    so [Z] is the square root of [Sigma] and not its inverse ([Z * Z * Sigma]
    is sixteen times the identity).  The pass itself then raises: the layer
    was built with ['per-activation'] axes from a 4-d shape, its [gamma] has
    three axes, and the flattened input has two. *)
Theorem decorr_transform_is_square_root :
  eigh Examples.sigma_2x2 = Ok (Examples.eigenvalues_2x2, Examples.identity_2x2) ->
  DecorrBatchNormLayer.transform eigh Examples.sample_2x2
  = Ok (Tensor.mkTensor [2; 2] [4; 0; 2; - 2]%R,
        Examples.sigma_2x2,
        Tensor.mkTensor [2; 2] [2; 0; 0; 2]%R) /\
  Tensor.dot (Tensor.mkTensor [2; 2] [2; 0; 0; 2]%R)
             (Tensor.mkTensor [2; 2] [2; 0; 0; 2]%R)
  = Ok Examples.sigma_2x2 /\
  Tensor.dot Examples.sigma_2x2 Examples.sigma_2x2
  = Ok (Tensor.mkTensor [2; 2] [16; 0; 0; 16]%R) /\
  DecorrBatchNormLayer.get_output eigh Examples.dbn Examples.sample_2x2
  = Raise (ValueError
             "gamma and beta dimensionality must match the normalization axes").
Proof.
  intros Heigh.
  assert (Htransform :
            DecorrBatchNormLayer.transform eigh Examples.sample_2x2
            = Ok (Tensor.mkTensor [2; 2] [4; 0; 2; - 2]%R,
                  Examples.sigma_2x2,
                  Tensor.mkTensor [2; 2] [2; 0; 0; 2]%R)).
  { unfold DecorrBatchNormLayer.transform.
    tcompute.
    match goal with
    | |- context [eigh ?t] =>
        replace t with Examples.sigma_2x2
          by (unfold Examples.sigma_2x2; repeat (f_equal; try field))
    end.
    rewrite Heigh.
    tcompute.
    replace 4%R with (2 * 2)%R by ring.
    rewrite (sqrt_square 2) by lra.
    repeat (f_equal; try field). }
  split; [exact Htransform | ].
  split; [tcompute; repeat (f_equal; try ring) | ].
  split; [tcompute; repeat (f_equal; try ring) | ].
  unfold DecorrBatchNormLayer.get_output. rewrite Htransform.
  reflexivity.
Qed.

End Eigh.

End ForwardFacts.

Lemma decorr_transform_is_square_root_witness :
  DecorrBatchNormLayer.transform Examples.eigh_2x2 Examples.sample_2x2
  = Ok (Tensor.mkTensor [2; 2] [4; 0; 2; - 2]%R,
        Examples.sigma_2x2,
        Tensor.mkTensor [2; 2] [2; 0; 0; 2]%R).
Proof.
  exact (proj1 (@ForwardFacts.decorr_transform_is_square_root
                  Examples.eigh_2x2 eq_refl)).
Defined.

(** A complete run of the pipeline over two items with a queue of one slot. *)
Lemma run_two_items :
  Pipeline.reachable 1 [10; 20]
    (Pipeline.mkState [] true []
       [Pipeline.Item 10; Pipeline.Item 20] true).
Proof.
  unfold Pipeline.reachable, Pipeline.init.
  eapply rtn1_trans;
    [apply (@Pipeline.consumer_stop nat 1 [] true (Pipeline.sentinel nat) []); reflexivity | ].
  eapply rtn1_trans;
    [apply (@Pipeline.producer_end nat 1 [] [Pipeline.Item 10; Pipeline.Item 20] false); reflexivity | ].
  eapply rtn1_trans;
    [apply (@Pipeline.consumer_yield nat 1 [] false (Pipeline.Item 20) [] [Pipeline.Item 10]); reflexivity | ].
  eapply rtn1_trans;
    [apply (@Pipeline.producer_put nat 1 20 [] false [] [Pipeline.Item 10] false); reflexivity | ].
  eapply rtn1_trans;
    [apply (@Pipeline.consumer_yield nat 1 [20] false (Pipeline.Item 10) [] []); reflexivity | ].
  eapply rtn1_trans;
    [apply (@Pipeline.producer_put nat 1 10 [20] false [] [] false); reflexivity | ].
  apply rtn1_refl.
Qed.

Lemma generate_in_background_fifo_witness :
  Pipeline.yielded
    (Pipeline.mkState [] true [] [Pipeline.Item 10; Pipeline.Item 20] true)
  = map (@Pipeline.Item nat) [10; 20].
Proof.
  refine (proj1 (proj1 (proj2 (proj2 (proj2
    (@PipelineFacts.generate_in_background_fifo nat 1 [10; 20] _ _ _ run_two_items))))
    eq_refl)).
  - lia.
  - simpl; lia.
Defined.

(** C7 as stated fails for a capacity of zero: [Queue(maxsize=0)] is unbounded,
    so the producer can queue an item although the capacity is zero. *)
Lemma generate_in_background_capacity_zero :
  ~ (forall (maxsize : Z) (src : list nat) (s : Pipeline.state nat),
        (maxsize < Z.of_nat (length src))%Z ->
        Pipeline.reachable maxsize src s ->
        (Z.of_nat (length (Pipeline.queue s)) <= maxsize)%Z).
Proof.
  intros H.
  specialize (H 0%Z [10] (Pipeline.mkState [] false [Pipeline.Item 10] [] false)).
  simpl in H.
  assert (Hbad : (1 <= 0)%Z); [ | lia].
  apply H; [lia | ].
  unfold Pipeline.reachable, Pipeline.init.
  eapply rtn1_trans; [ | apply rtn1_refl].
  apply (@Pipeline.producer_put nat 0 10 [] false [] [] false). reflexivity.
Qed.

(** ** Minibatches *)

Module BatchFacts.
Import Batches.

Section Data.

Variables X Y : Type.

Lemma firstn_more {A : Type} (a b : nat) (l : list A) :
  firstn a l ++ firstn b (skipn a l) = firstn (a + b) l.
Proof.
  revert l. induction a as [| a IH]; intros l; [reflexivity | ].
  destruct l as [| v l]; simpl.
  - now rewrite firstn_nil.
  - now rewrite IH.
Qed.

(** A slice with bounds that are not negative is a window of the sequence. *)
Lemma slice_window {A : Type} (lo hi : Z) (a : list A) :
  (0 <= lo <= hi)%Z ->
  slice lo hi a = firstn (Z.to_nat hi - Z.to_nat lo) (skipn (Z.to_nat lo) a).
Proof.
  intros H. unfold slice, slice_bound.
  destruct (Z.ltb_spec lo 0); [lia | ].
  destruct (Z.ltb_spec hi 0); [lia | ].
  destruct (Nat.le_gt_cases (length a) (Z.to_nat lo)) as [Hout | Hin].
  - rewrite Nat.min_r by lia.
    rewrite !skipn_all2 by lia. now rewrite !firstn_nil.
  - rewrite (Nat.min_l (Z.to_nat lo)) by lia.
    destruct (Nat.le_gt_cases (Z.to_nat hi) (length a)) as [Hh | Hh].
    + now rewrite Nat.min_l by lia.
    + rewrite Nat.min_r by lia.
      rewrite !firstn_all2; try reflexivity; rewrite length_skipn; lia.
Qed.

(** The [i]-th window of [k] entries. *)
Local Abbreviation window k i a := (firstn k (skipn (i * k) a)).

Lemma slice_batch {A : Type} (batch_size : Z) (i : nat) (a : list A) :
  (0 < batch_size)%Z ->
  slice (Z.of_nat i * batch_size) ((Z.of_nat i + 1) * batch_size) a
  = window (Z.to_nat batch_size) i a.
Proof.
  intros Hb. rewrite slice_window by nia.
  f_equal; [ | f_equal]; nia.
Qed.

Lemma concat_windows {A : Type} (k n : nat) (a : list A) :
  concat (map (fun i => window k i a) (seq 0 n)) = firstn (n * k) a.
Proof.
  induction n as [| n IH]; [reflexivity | ].
  rewrite seq_S, map_app, concat_app, IH. simpl.
  rewrite app_nil_r.
  rewrite firstn_more. f_equal. lia.
Qed.

Lemma length_window {A : Type} (k i : nat) (a : list A) :
  (i + 1) * k <= length a -> length (window k i a) = k.
Proof.
  intros H. rewrite length_firstn, length_skipn. lia.
Qed.

Lemma inputs_yield_batches (x : list X) (y : list Y) (no_target : bool)
      (batch_size num_batches : Z) :
  (0 < batch_size)%Z ->
  map (@inputs X Y) (yield_batches x y no_target batch_size num_batches)
  = map (fun i => window (Z.to_nat batch_size) i x)
        (seq 0 (Z.to_nat num_batches)).
Proof.
  intros Hb. unfold yield_batches. rewrite map_map.
  apply map_ext. intros i. rewrite <- (slice_batch i x Hb).
  now destruct no_target.
Qed.

Lemma targets_yield_batches (x : list X) (y : list Y)
      (batch_size num_batches : Z) :
  (0 < batch_size)%Z ->
  map (@targets X Y) (yield_batches x y false batch_size num_batches)
  = map (fun i => window (Z.to_nat batch_size) i y)
        (seq 0 (Z.to_nat num_batches)).
Proof.
  intros Hb. unfold yield_batches. rewrite map_map.
  apply map_ext. intros i. now rewrite <- (slice_batch i y Hb).
Qed.

Lemma nth_yield_batches (x : list X) (y : list Y) (no_target : bool)
      (batch_size num_batches : Z) (i : nat) (b : minibatch X Y) :
  (0 < batch_size)%Z ->
  nth_error (yield_batches x y no_target batch_size num_batches) i = Some b ->
  i < Z.to_nat num_batches /\
  inputs b = window (Z.to_nat batch_size) i x /\
  (no_target = false -> targets b = window (Z.to_nat batch_size) i y) /\
  (no_target = true -> b = Single Y (inputs b)).
Proof.
  intros Hb Hnth. unfold yield_batches in Hnth.
  assert (Hi : i < Z.to_nat num_batches).
  { destruct (Nat.lt_ge_cases i (Z.to_nat num_batches)) as [Hlt | Hge];
      [exact Hlt | ].
    rewrite (proj2 (nth_error_None _ i)) in Hnth; [discriminate | ].
    now rewrite length_map, length_seq. }
  split; [exact Hi | ].
  rewrite nth_error_map, nth_error_seq in Hnth.
  destruct (Nat.ltb_spec i (Z.to_nat num_batches)); [ | lia].
  simpl in Hnth. rewrite !slice_batch in Hnth by exact Hb.
  destruct no_target; injection Hnth as <-; simpl; repeat split; auto; discriminate.
Qed.

(** [generator] of [src/utils.py] with a positive batch size never raises.
    It yields [len(x) / batch_size] minibatches (rounded down); the [i]-th one
    is the window of [batch_size] consecutive samples from position
    [i * batch_size] on, of [x] and, with targets, of [y] at the same
    positions; every minibatch is full; put end to end they give the data in
    its order up to the last full minibatch, so that the [len(x) mod
    batch_size] samples at the end are never yielded. *)
Theorem generator_windows (x : list X) (y : list Y) (batch_size : Z)
        (no_response : bool) :
  (0 < batch_size)%Z ->
  exists l,
    generator x y batch_size no_response = Ok l /\
    length l = length x / Z.to_nat batch_size /\
    (forall i b, nth_error l i = Some b ->
       inputs b = window (Z.to_nat batch_size) i x /\
       length (inputs b) = Z.to_nat batch_size /\
       (no_response = false ->
        targets b = window (Z.to_nat batch_size) i y)) /\
    concat (map (@inputs X Y) l)
    = firstn (length x / Z.to_nat batch_size * Z.to_nat batch_size) x.
Proof.
  intros Hb. unfold generator, floordiv.
  destruct (Z.eqb_spec batch_size 0) as [H0 | _]; [lia | ].
  cbn [bind]. eexists. split; [reflexivity | ].
  assert (Hn : Z.to_nat (Z.of_nat (length x) / batch_size)
               = length x / Z.to_nat batch_size).
  { rewrite Z2Nat.inj_div by lia. now rewrite Nat2Z.id. }
  split; [ | split].
  - unfold yield_batches. now rewrite length_map, length_seq.
  - intros i b Hnth.
    apply nth_yield_batches in Hnth as [Hi [Hx [Hy _]]]; [ | exact Hb].
    split; [exact Hx | split; [ | exact Hy]].
    rewrite Hx. apply length_window.
    rewrite Hn in Hi.
    assert (Hk : 0 < Z.to_nat batch_size) by lia.
    pose proof (Nat.Div0.mul_div_le (length x) (Z.to_nat batch_size)).
    nia.
  - rewrite inputs_yield_batches by exact Hb.
    now rewrite concat_windows, Hn.
Qed.

(** The degenerate batch sizes: zero is a division by zero; a negative batch
    size, or one above the number of samples, gives a generator that ends at
    once, without an error and without a single minibatch. *)
Theorem generator_degenerate (x : list X) (y : list Y) (batch_size : Z)
        (no_response : bool) :
  (batch_size = 0%Z ->
   generator x y batch_size no_response = Raise ZeroDivisionError) /\
  ((batch_size < 0 \/ Z.of_nat (length x) < batch_size)%Z ->
   generator x y batch_size no_response = Ok []).
Proof.
  unfold generator, floordiv. split.
  - intros ->. reflexivity.
  - intros H. destruct (Z.eqb_spec batch_size 0) as [H0 | H0]; [lia | ].
    cbn [bind]. unfold yield_batches.
    replace (Z.to_nat (Z.of_nat (length x) / batch_size)) with 0; [reflexivity | ].
    destruct H as [H | H].
    + assert (Z.of_nat (length x) / batch_size <= 0)%Z; [ | lia].
      pose proof (Z.div_mod (Z.of_nat (length x)) batch_size H0) as Hdm.
      pose proof (Z.mod_neg_bound (Z.of_nat (length x)) batch_size H) as Hm.
      nia.
    + rewrite Z.div_small by lia. reflexivity.
Qed.

Lemma take_flat_map {A : Type} (a : list A) (index : list nat) (l : list A) :
  take a index = Ok l ->
  l = flat_map (fun i => match nth_error a i with
                         | Some v => [v]
                         | None => []
                         end) index.
Proof.
  revert l. induction index as [| i rest IH]; intros l; simpl.
  - now intros [= <-].
  - destruct (nth_error a i) as [v | ]; [ | discriminate].
    destruct (take a rest) as [vs | e]; [ | discriminate].
    cbn [bind]. intros [= <-]. now rewrite <- (IH vs eq_refl).
Qed.

Lemma take_in_range {A : Type} (a : list A) (index : list nat) :
  Forall (fun i => i < length a) index -> exists l, take a index = Ok l.
Proof.
  induction 1 as [| i rest Hi _ [vs IH]]; simpl; [eauto | ].
  destruct (nth_error a i) as [v | ] eqn:Hv.
  - rewrite IH. cbn [bind]. eauto.
  - apply nth_error_None in Hv. lia.
Qed.

Lemma flat_map_seq_all {A : Type} (a : list A) (s : nat) :
  flat_map (fun i => match nth_error a (i - s) with
                     | Some v => [v]
                     | None => []
                     end) (seq s (length a)) = a.
Proof.
  revert s. induction a as [| v a IH]; intros s; [reflexivity | ].
  cbn [length seq flat_map]. rewrite Nat.sub_diag. cbn [nth_error app].
  f_equal. rewrite <- (IH (S s)) at 2.
  rewrite !flat_map_concat_map. f_equal.
  apply map_ext_in. intros i Hi. apply in_seq in Hi.
  replace (i - s) with (S (i - S s)) by lia. reflexivity.
Qed.

(** Indexing with a rearrangement of all the positions rearranges the array. *)
Lemma take_permutation {A : Type} (a : list A) (index : list nat) :
  Permutation index (seq 0 (length a)) ->
  exists l, take a index = Ok l /\ Permutation l a.
Proof.
  intros Hp.
  destruct (@take_in_range A a index) as [l Hl].
  { apply Forall_forall. intros i Hi.
    apply (Permutation_in _ Hp) in Hi. apply in_seq in Hi. lia. }
  exists l. split; [exact Hl | ].
  rewrite (take_flat_map _ _ Hl).
  eapply Permutation_trans; [apply Permutation_flat_map; exact Hp | ].
  rewrite (flat_map_ext _ (fun i => match nth_error a (i - 0) with
                                    | Some v => [v]
                                    | None => []
                                    end)).
  - now rewrite (flat_map_seq_all a 0).
  - intros i. now rewrite Nat.sub_0_r.
Qed.

Lemma nth_error_combine {A B : Type} (a : list A) (b : list B) (i : nat)
      (u : A) (v : B) :
  nth_error a i = Some u -> nth_error b i = Some v ->
  nth_error (combine a b) i = Some (u, v).
Proof.
  revert b i. induction a as [| a0 a IH]; intros b i; destruct i, b; simpl;
    try discriminate.
  - now intros [= ->] [= ->].
  - apply IH.
Qed.

(** Indexing the features and the targets with the same positions keeps every
    sample with its target. *)
Lemma take_combine {A B : Type} (a : list A) (b : list B) (index : list nat)
      (la : list A) (lb : list B) :
  take a index = Ok la -> take b index = Ok lb ->
  take (combine a b) index = Ok (combine la lb).
Proof.
  revert la lb. induction index as [| i rest IH]; intros la lb; simpl.
  - now intros [= <-] [= <-].
  - destruct (nth_error a i) as [u | ] eqn:Hu; [ | discriminate].
    destruct (nth_error b i) as [v | ] eqn:Hv; [ | discriminate].
    destruct (take a rest) as [ua | ]; [ | discriminate].
    destruct (take b rest) as [vb | ]; [ | discriminate].
    cbn [bind]. intros [= <-] [= <-].
    rewrite (nth_error_combine _ _ _ Hu Hv), (IH ua vb eq_refl eq_refl).
    reflexivity.
Qed.

End Data.

End BatchFacts.

Module DataManagerFacts.
Import Batches DataManager BatchFacts.

Section Data.

Variables X Y : Type.

Local Abbreviation window k i a := (firstn k (skipn (i * k) a)).

Lemma generator_unshuffled_count
        (dm : t X Y) (stage : string) (index : list nat)
        (d : dataset X Y) (n : Z) :
  is_train stage && shuffle dm = false ->
  (if is_train stage then training_set dm else testing_set dm) = Some d ->
  (if is_train stage then num_train_data dm else num_test_data dm) = Some n ->
  (0 < batch_size dm)%Z ->
  exists l,
    generator dm stage index = Ok l /\
    length l = Z.to_nat (n / batch_size dm).
Proof.
  intros Hs Hd Hn Hb. unfold generator.
  rewrite Hd, Hn. unfold num_batches_of, floordiv.
  destruct (Z.eqb_spec (batch_size dm) 0) as [H0 | _]; [lia | ].
  cbn [bind].
  assert (Hsh : (if is_train stage then shuffle dm else false) = false).
  { destruct (is_train stage); [exact Hs | reflexivity]. }
  rewrite Hsh. cbn [andb bind].
  eexists. split; [reflexivity | ].
  unfold yield_batches. now rewrite length_map, length_seq.
Qed.

(** Without shuffling (any stage but ['train'], or [shuffle] off), on a loaded
    data set and with a positive batch size, [generator] yields
    [shape // batch_size] minibatches; the [i]-th one is the window of
    [batch_size] consecutive samples from position [i * batch_size] on, with
    the targets of the same positions, and together they are the data up to
    the last minibatch, in order.  The batch size is [batch_size] in every
    stage: [test_batch_size] plays no part. *)
Theorem generator_in_order
        (dm : t X Y) (stage : string) (index : list nat)
        (d : dataset X Y) (n : Z) :
  is_train stage && shuffle dm = false ->
  (if is_train stage then training_set dm else testing_set dm) = Some d ->
  (if is_train stage then num_train_data dm else num_test_data dm) = Some n ->
  (0 < batch_size dm)%Z ->
  exists l,
    generator dm stage index = Ok l /\
    length l = Z.to_nat (n / batch_size dm) /\
    (forall i b, nth_error l i = Some b ->
       inputs b = window (Z.to_nat (batch_size dm)) i (xs d) /\
       (no_target dm = false ->
        targets b = window (Z.to_nat (batch_size dm)) i (ys d)) /\
       (no_target dm = true -> b = Single Y (inputs b))) /\
    concat (map (@inputs X Y) l)
    = firstn (Z.to_nat (n / batch_size dm) * Z.to_nat (batch_size dm)) (xs d).
Proof.
  intros Hs Hd Hn Hb. unfold generator.
  rewrite Hd, Hn. unfold num_batches_of, floordiv.
  destruct (Z.eqb_spec (batch_size dm) 0) as [H0 | _]; [lia | ].
  cbn [bind].
  assert (Hsh : (if is_train stage then shuffle dm else false) = false).
  { destruct (is_train stage); [exact Hs | reflexivity]. }
  rewrite Hsh. cbn [andb bind].
  eexists. split; [reflexivity | ].
  split; [ | split].
  - unfold yield_batches. now rewrite length_map, length_seq.
  - intros i b Hnth.
    apply nth_yield_batches in Hnth as [_ [Hx [Hy Hsingle]]]; auto.
  - rewrite inputs_yield_batches by exact Hb.
    now rewrite concat_windows.
Qed.

(** A shuffled training epoch.  When the shuffled index is a rearrangement of
    all the positions and every sample has a target, [generator] succeeds,
    and the sample-target pairs it yields, minibatch after minibatch, are the
    first [shape // batch_size * batch_size] pairs of one rearrangement of
    the data set: every sample comes with its own target, and none comes
    twice.  When these are at least as many as the samples, the epoch is a
    rearrangement of the whole data set. *)
Theorem generator_shuffled_epoch
        (dm : t X Y) (index : list nat) (d : dataset X Y) (n : Z) :
  shuffle dm = true ->
  no_target dm = false ->
  training_set dm = Some d ->
  num_train_data dm = Some n ->
  (0 < batch_size dm)%Z ->
  length (ys d) = length (xs d) ->
  Permutation index (seq 0 (length (xs d))) ->
  exists l p,
    generator dm "train" index = Ok l /\
    Permutation p (combine (xs d) (ys d)) /\
    combine (concat (map (@inputs X Y) l)) (concat (map (@targets X Y) l))
    = firstn (Z.to_nat (n / batch_size dm) * Z.to_nat (batch_size dm)) p /\
    (length (xs d) <= Z.to_nat (n / batch_size dm) * Z.to_nat (batch_size dm) ->
     Permutation
       (combine (concat (map (@inputs X Y) l)) (concat (map (@targets X Y) l)))
       (combine (xs d) (ys d))).
Proof.
  intros Hs Hnt Hd Hn Hb Hlen Hp. unfold generator.
  change (is_train "train") with true. cbv iota.
  rewrite Hd, Hn, Hs, Hnt. unfold num_batches_of, floordiv.
  destruct (Z.eqb_spec (batch_size dm) 0) as [H0 | _]; [lia | ].
  cbn [bind andb negb].
  destruct (take_permutation (xs d) Hp) as [lx [Hx Hpx]].
  assert (Hp' : Permutation index (seq 0 (length (ys d)))) by now rewrite Hlen.
  destruct (take_permutation (ys d) Hp') as [ly [Hy Hpy]].
  rewrite Hx, Hy. cbn [bind].
  assert (Hc : take (combine (xs d) (ys d)) index = Ok (combine lx ly))
    by now apply take_combine.
  assert (Hpc : Permutation (combine lx ly) (combine (xs d) (ys d))).
  { assert (Hpz : Permutation index
                    (seq 0 (length (combine (xs d) (ys d))))).
    { rewrite length_combine, Hlen, Nat.min_id. exact Hp. }
    destruct (take_permutation (combine (xs d) (ys d)) Hpz) as [lz [Hz Hpz']].
    congruence. }
  assert (Heq : combine
                  (concat (map (@inputs X Y)
                     (yield_batches lx ly false (batch_size dm)
                        (n / batch_size dm))))
                  (concat (map (@targets X Y)
                     (yield_batches lx ly false (batch_size dm)
                        (n / batch_size dm))))
                = firstn (Z.to_nat (n / batch_size dm)
                          * Z.to_nat (batch_size dm)) (combine lx ly)).
  { rewrite inputs_yield_batches, targets_yield_batches by exact Hb.
    rewrite !concat_windows. now rewrite combine_firstn. }
  eexists. exists (combine lx ly).
  split; [reflexivity | ].
  split; [exact Hpc | ].
  split; [exact Heq | ].
  intros Hall. rewrite Heq, firstn_all2; [exact Hpc | ].
  rewrite (Permutation_length Hpc), length_combine, Hlen, Nat.min_id.
  exact Hall.
Qed.

(** What [generator] raises before it yields anything: a [TypeError] while
    the number of samples is still [None], and a [ZeroDivisionError] when the
    batch size is zero. *)
Theorem generator_raises
        (dm : t X Y) (stage : string) (index : list nat) :
  ((if is_train stage then num_train_data dm else num_test_data dm) = None ->
   generator dm stage index
   = Raise (TypeError
              "unsupported operand type(s) for //: 'NoneType' and 'int'")) /\
  ((if is_train stage then num_train_data dm else num_test_data dm) <> None ->
   batch_size dm = 0%Z ->
   generator dm stage index = Raise ZeroDivisionError).
Proof.
  unfold generator. split.
  - intros ->. reflexivity.
  - intros Hn Hb.
    destruct (if is_train stage then num_train_data dm else num_test_data dm)
      as [n | ]; [ | now destruct Hn].
    unfold num_batches_of, floordiv. now rewrite Hb.
Qed.

End Data.

End DataManagerFacts.

(** ** Iterating over a model *)

Module ModelFacts.
Import Model.

Section Layers.

Variable Layer : Type.

Lemma next_in_range (ls : list Layer) (i : nat) (l : Layer) :
  nth_error ls i = Some l ->
  next (mk ls (Z.of_nat i)) = (mk ls (Z.of_nat (S i)), Return l).
Proof.
  intros Hl. unfold next. cbn [layers index].
  assert (Hi : i < length ls) by (apply nth_error_Some; congruence).
  destruct (Nat.eqb_spec (length ls) 0) as [H0 | _]; [lia | ].
  destruct (Z.eqb_spec (Z.of_nat i) (Z.of_nat (length ls))) as [He | _]; [lia | ].
  cbn [orb]. replace (Z.of_nat i + 1)%Z with (Z.of_nat (S i)) by lia.
  f_equal. unfold getitem.
  replace (Z.of_nat (S i) - 1)%Z with (Z.of_nat i) by lia.
  destruct (Z.ltb_spec (Z.of_nat i) 0); [lia | ].
  destruct (Z.ltb_spec (Z.of_nat i) 0); [lia | ].
  now rewrite Nat2Z.id, Hl.
Qed.

Lemma next_at_end (ls : list Layer) :
  next (mk ls (Z.of_nat (length ls)))
  = (mk ls (Z.of_nat (length ls)), StopIteration Layer).
Proof.
  unfold next. cbn [layers index]. rewrite Z.eqb_refl.
  now rewrite orb_true_r.
Qed.

Lemma iterate_from (ls : list Layer) (fuel i : nat) :
  i <= length ls -> length ls - i < fuel ->
  iterate fuel (mk ls (Z.of_nat i))
  = Some (mk ls (Z.of_nat (length ls)), skipn i ls, None).
Proof.
  revert i. induction fuel as [| fuel IH]; intros i Hi Hf; [lia | ].
  cbn [iterate].
  destruct (nth_error ls i) as [l | ] eqn:Hl.
  - rewrite (next_in_range _ _ Hl).
    assert (Hlt : i < length ls) by (apply nth_error_Some; congruence).
    rewrite IH by lia.
    f_equal. f_equal. f_equal.
    clear - Hl. revert i Hl.
    induction ls as [| a ls IHl]; intros [| i] Hl; simpl in *;
      try discriminate.
    + now injection Hl as ->.
    + now apply IHl.
  - apply nth_error_None in Hl. assert (i = length ls) as -> by lia.
    rewrite next_at_end. now rewrite skipn_all.
Qed.

(** A model is an iterator that can be used once.  From a position within
    the list of layers, a loop over the model sees the layers from this
    position on, in order, ends without an error and leaves the position at
    the end of the list; since nothing in the protocol sets the position back,
    every later loop over the same model sees no layer at all. *)
Theorem model_iterates_once (ls : list Layer) (i fuel fuel' : nat) :
  i <= length ls -> length ls - i < fuel -> 0 < fuel' ->
  exists m',
    iterate fuel (mk ls (Z.of_nat i)) = Some (m', skipn i ls, None) /\
    index m' = Z.of_nat (length ls) /\
    layers m' = ls /\
    iterate fuel' m' = Some (m', [], None).
Proof.
  intros Hi Hf Hf'. exists (mk ls (Z.of_nat (length ls))).
  split; [now apply iterate_from | ].
  split; [reflexivity | split; [reflexivity | ]].
  rewrite (@iterate_from ls fuel' (length ls)) by lia.
  now rewrite skipn_all.
Qed.

(** A position beyond the end of the list is not taken for the end: the call
    of [next] moves the position on by one and raises [IndexError], and so
    does every later call. *)
Theorem model_next_beyond_end (ls : list Layer) (k : Z) :
  (Z.of_nat (length ls) < k)%Z -> ls <> [] ->
  next (mk ls k)
  = (mk ls (k + 1), Error Layer (IndexError "list index out of range")).
Proof.
  intros Hk Hne. unfold next. cbn [layers index].
  destruct (Nat.eqb_spec (length ls) 0) as [H0 | _].
  { destruct ls; [now destruct Hne | discriminate]. }
  destruct (Z.eqb_spec k (Z.of_nat (length ls))) as [He | _]; [lia | ].
  cbn [orb]. f_equal. unfold getitem.
  replace (k + 1 - 1)%Z with k by lia.
  destruct (Z.ltb_spec k 0); [lia | ].
  destruct (Z.ltb_spec k 0); [lia | ].
  destruct (nth_error ls (Z.to_nat k)) eqn:Hn; [ | reflexivity].
  assert (Z.to_nat k < length ls) by (apply nth_error_Some; congruence). lia.
Qed.

End Layers.

End ModelFacts.

(** ** The learning-rate schedule *)

Module ScheduleFacts.
Import Schedule.

Local Open Scope R_scope.

(** Up to [tau] the schedule is the straight line from [epsilon_zero] (at
    iteration 0) to [epsilon_tau] (at iteration [tau]): for a positive [tau]
    and [epsilon_tau <= epsilon_zero], the rate never leaves the interval
    between the two and never increases from one iteration to a later one. *)
Theorem decrease_learning_rate_anneals
        (i j epsilon_zero epsilon_tau tau : R) :
  0 < tau -> epsilon_tau <= epsilon_zero -> 0 <= i <= j -> j <= tau ->
  exists vi vj,
    decrease_learning_rate i epsilon_zero epsilon_tau tau = Ok vi /\
    decrease_learning_rate j epsilon_zero epsilon_tau tau = Ok vj /\
    epsilon_tau <= vj <= vi /\ vi <= epsilon_zero /\
    (i = 0 -> vi = epsilon_zero) /\ (j = tau -> vj = epsilon_tau).
Proof.
  intros Ht He [Hi Hij] Hj. unfold decrease_learning_rate.
  destruct (Req_EM_T tau 0) as [H0 | _]; [lra | ].
  destruct (Rle_dec i tau) as [_ | H]; [ | lra].
  destruct (Rle_dec j tau) as [_ | H]; [ | lra].
  do 2 eexists. split; [reflexivity | split; [reflexivity | ]].
  assert (Hinv : 0 < / tau) by now apply Rinv_0_lt_compat.
  assert (Hri : 0 <= i / tau) by (unfold Rdiv; nra).
  assert (Hrj : j / tau <= 1).
  { unfold Rdiv. apply Rmult_le_reg_r with tau; [exact Ht | ].
    rewrite Rmult_assoc, Rinv_l by lra. lra. }
  assert (Hrij : i / tau <= j / tau) by (unfold Rdiv; nra).
  repeat split; try nra.
  all: intros Heq; subst; unfold Rdiv; try rewrite Rinv_r by lra; lra.
Qed.

(** After [tau] the rate is not held at [epsilon_tau]: [epsilon_zero] is
    replaced by zero and the rate is [iter / tau * epsilon_tau], which is
    above [epsilon_tau] and keeps growing with the iteration. *)
Theorem decrease_learning_rate_after_tau
        (i j epsilon_zero epsilon_tau tau : R) :
  0 < tau -> 0 < epsilon_tau -> tau < i < j ->
  decrease_learning_rate i epsilon_zero epsilon_tau tau
  = Ok (i / tau * epsilon_tau) /\
  decrease_learning_rate j epsilon_zero epsilon_tau tau
  = Ok (j / tau * epsilon_tau) /\
  epsilon_tau < i / tau * epsilon_tau < j / tau * epsilon_tau.
Proof.
  intros Ht He [Hi Hij]. unfold decrease_learning_rate.
  destruct (Req_EM_T tau 0) as [H0 | _]; [lra | ].
  destruct (Rle_dec i tau) as [H | _]; [lra | ].
  destruct (Rle_dec j tau) as [H | _]; [lra | ].
  split; [f_equal; lra | split; [f_equal; lra | ]].
  assert (Hinv : 0 < / tau) by now apply Rinv_0_lt_compat.
  assert (H1 : 1 < i / tau).
  { unfold Rdiv. apply Rmult_lt_reg_r with tau; [exact Ht | ].
    rewrite Rmult_assoc, Rinv_l by lra. lra. }
  assert (H2 : i / tau < j / tau) by (unfold Rdiv; nra).
  split; nra.
Qed.

End ScheduleFacts.

(** ** Activations *)

Module ActivationFacts.
Import Tensor Utils.

Local Open Scope R_scope.

(** [f1 * x + f2 * abs(x)] is the leaky rectifier. *)
Lemma relu1_piecewise (alpha x : R) :
  relu1 alpha x = if Rle_dec 0 x then x else alpha * x.
Proof.
  unfold relu1. destruct (Rle_dec 0 x) as [Hx | Hx].
  - rewrite Rabs_right by lra. field.
  - rewrite Rabs_left by lra. field.
Qed.

Lemma tmap_ext (f g : R -> R) (t : tensor) :
  (forall v, f v = g v) -> tmap f t = tmap g t.
Proof. intros H. unfold tmap. f_equal. now apply map_ext. Qed.

(** The rectifiers, as functions of the entries.  [T.nnet.relu],
    [utils.lrelu] and [utils.prelu] compute [0.5 * (1 + alpha) * x +
    0.5 * (1 - alpha) * abs(x)]; this is [x] for [x >= 0] and [alpha * x]
    below, with [alpha] zero for [relu], [0.2] for [lrelu] unless given, and
    the required argument of [prelu]. *)
Theorem rectifiers_piecewise (x : tensor) (alpha : R) :
  call theano_relu [] x = Ok (tmap (fun v => Rmax 0 v) x) /\
  call lrelu [] x
  = Ok (tmap (fun v => if Rle_dec 0 v then v else 2 / 10 * v) x) /\
  call lrelu [("alpha"%string, PyFloat alpha)] x
  = Ok (tmap (fun v => if Rle_dec 0 v then v else alpha * v) x) /\
  call prelu [("alpha"%string, PyFloat alpha)] x
  = Ok (tmap (fun v => if Rle_dec 0 v then v else alpha * v) x) /\
  call prelu [] x
  = Raise (TypeError "prelu() missing 1 required positional argument").
Proof.
  repeat split; cbn; try reflexivity; f_equal; apply tmap_ext; intros v;
    rewrite relu1_piecewise; try reflexivity.
  destruct (Rle_dec 0 v) as [Hv | Hv].
  - now rewrite Rmax_right.
  - rewrite Rmax_left by lra. ring.
Qed.

Lemma ramp1_range (v : R) : 0 <= ramp1 v <= 1.
Proof.
  unfold ramp1. destruct (Rlt_dec v 0); destruct (Rlt_dec 1 _); lra.
Qed.

Lemma ramp1_fixed (v : R) : 0 <= v <= 1 -> ramp1 v = v.
Proof.
  intros Hv. unfold ramp1. destruct (Rlt_dec v 0); destruct (Rlt_dec 1 _); lra.
Qed.

(** [ramp] clamps every entry to the interval from 0 to 1: the result has the
    shape of the input, every entry lies in the interval, an entry that was
    inside is unchanged, one below becomes 0 and one above becomes 1; applying
    [ramp] again changes nothing. *)
Theorem ramp_clamps (x : tensor) :
  exists y,
    call ramp [] x = Ok y /\
    shape y = shape x /\
    length (data y) = length (data x) /\
    (forall i, (i < length (data x))%nat ->
       0 <= nth i (data y) 0 <= 1 /\
       (0 <= nth i (data x) 0 <= 1 -> nth i (data y) 0 = nth i (data x) 0) /\
       (nth i (data x) 0 < 0 -> nth i (data y) 0 = 0) /\
       (1 < nth i (data x) 0 -> nth i (data y) 0 = 1)) /\
    call ramp [] y = Ok y.
Proof.
  exists (tmap ramp1 x). cbn.
  split; [reflexivity | split; [reflexivity | split; [apply length_map | ]]].
  split.
  - intros i Hi. rewrite TensorFacts.nth_map_in by exact Hi.
    split; [apply ramp1_range | ].
    split; [apply ramp1_fixed | ].
    unfold ramp1. split; intros Hv.
    + destruct (Rlt_dec (nth i (data x) 0) 0); [ | lra].
      destruct (Rlt_dec 1 0); lra.
    + destruct (Rlt_dec (nth i (data x) 0) 0); [lra | ].
      destruct (Rlt_dec 1 (nth i (data x) 0)); lra.
  - f_equal. unfold tmap; cbn. f_equal. rewrite map_map.
    apply map_ext. intros v. apply ramp1_fixed, ramp1_range.
Qed.

Lemma stride_axis1_group (x : tensor) (n c g k j : nat) (rest : list nat) :
  shape x = n :: c :: rest -> (j < k)%nat -> c = (k * g)%nat ->
  exists piece,
    stride_axis1 j k x = Ok piece /\
    shape piece = n :: g :: rest /\
    well_formed piece /\
    forall i, (i < size (n :: g :: rest))%nat ->
      nth i (data piece) 0
      = tget x (match unravel (n :: g :: rest) i with
                | a :: b :: idx' => a :: (j + k * b)%nat :: idx'
                | idx => idx
                end).
Proof.
  intros Hsh Hj Hc. unfold stride_axis1. rewrite Hsh.
  assert (Hg : ((c - j + k - 1) / k = g)%nat).
  { subst c. destruct g as [| g'].
    - rewrite Nat.mul_0_r. apply Nat.div_small. lia.
    - symmetry. apply Nat.div_unique with (r := (k - 1 - j)%nat); nia. }
  rewrite Hg. eexists. split; [reflexivity | ].
  split; [reflexivity | ].
  split; [apply TensorFacts.tbuild_well_formed | ].
  intros i Hi. now rewrite TensorFacts.nth_tbuild.
Qed.

Lemma maxout_from_spec (x : tensor) (n c g k : nat) (rest : list nat)
      (slices : list nat) :
  shape x = n :: c :: rest -> c = (k * g)%nat ->
  (forall j, In j slices -> (j < k)%nat) ->
  forall acc,
    shape acc = n :: g :: rest -> well_formed acc ->
    exists y,
      maxout_from k acc slices x = Ok y /\
      shape y = n :: g :: rest /\
      well_formed y /\
      forall i, (i < size (n :: g :: rest))%nat ->
        nth i (data y) 0
        = fold_left Rmax
            (map (fun j =>
                    tget x (match unravel (n :: g :: rest) i with
                            | a :: b :: idx' => a :: (j + k * b)%nat :: idx'
                            | idx => idx
                            end)) slices)
            (nth i (data acc) 0).
Proof.
  intros Hsh Hc. induction slices as [| j slices IH]; intros Hin acc Ha Hwf.
  - exists acc. cbn. auto.
  - cbn [maxout_from].
    destruct (@stride_axis1_group x n c g k j rest Hsh) as [piece [-> [Hp [Hpw Hpe]]]];
      [apply Hin; now left | exact Hc | ].
    cbn [bind].
    destruct (@TensorFacts.elemwise_same_shape Rmax acc piece)
      as [t [-> [Ht [Htw Hte]]]]; [congruence | ].
    cbn [bind].
    destruct (IH (fun j' H => Hin j' (or_intror H)) t) as [y [-> [Hy [Hyw Hye]]]];
      [congruence | exact Htw | ].
    exists y. split; [reflexivity | split; [exact Hy | split; [exact Hyw | ]]].
    intros i Hi. rewrite (Hye i Hi). cbn [map fold_left].
    rewrite Hte by (rewrite Ha; exact Hi).
    now rewrite (Hpe i Hi).
Qed.

(** [maxout] takes the maximum over groups of [maxout_size] neighbouring
    channels.  When the size divides the number of channels, the call
    succeeds, the second axis shrinks by the factor [maxout_size], and the
    entry at [(a, b, ...)] of the result is the greatest of the entries
    [(a, maxout_size * b + j, ...)] of the input, [j] below [maxout_size]. *)
Theorem maxout_groups (x : tensor) (n c g k : nat) (rest : list nat) :
  shape x = n :: c :: rest -> (0 < k)%nat -> c = (k * g)%nat ->
  exists y,
    call maxout [("maxout_size"%string, PyInt (Z.of_nat k))] x = Ok y /\
    shape y = n :: g :: rest /\
    well_formed y /\
    forall i, (i < size (n :: g :: rest))%nat ->
      nth i (data y) 0
      = fold_left Rmax
          (map (fun j =>
                  tget x (match unravel (n :: g :: rest) i with
                          | a :: b :: idx' => a :: (j + k * b)%nat :: idx'
                          | idx => idx
                          end)) (seq 1 (k - 1)))
          (tget x (match unravel (n :: g :: rest) i with
                   | a :: b :: idx' => a :: (0 + k * b)%nat :: idx'
                   | idx => idx
                   end)).
Proof.
  intros Hsh Hk Hc.
  unfold maxout. cbn [call]. unfold only_keywords. cbn [forallb fst existsb].
  rewrite String.eqb_refl. cbn [orb andb bind kw_get].
  rewrite String.eqb_refl. rewrite Nat2Z.id.
  destruct k as [| k']; [lia | ].
  destruct (@stride_axis1_group x n c g (S k') 0%nat rest Hsh)
    as [first [-> [Hf [Hfw Hfe]]]]; [lia | exact Hc | ].
  cbn [bind].
  destruct (@maxout_from_spec x n c g (S k') rest (seq 1 k') Hsh Hc) with
    (acc := first) as [y [-> [Hy [Hyw Hye]]]]; auto.
  { intros j Hj. apply in_seq in Hj. lia. }
  exists y. split; [reflexivity | split; [exact Hy | split; [exact Hyw | ]]].
  intros i Hi. rewrite (Hye i Hi), (Hfe i Hi).
  now replace (S k' - 1)%nat with k' by lia.
Qed.

End ActivationFacts.

(** ** The background pipeline over a generator that raises *)

Module FailingPipelineFacts.
Import Pipeline FailingPipeline.

Section Queue.

Variable Batch : Type.

Lemma failing_invariant (maxsize : Z) (src : list Batch) (s : state Batch) :
  reachable maxsize src s ->
  exists taken pending,
    src = taken ++ pending ++ source s /\
    queue s = map (@Item Batch) pending /\
    yielded s = map (@Item Batch) taken /\
    stopped s = false /\
    (dead s = true -> source s = []).
Proof.
  unfold reachable.
  induction 1 as [| s s' Hstep _ [taken [pending [Hsrc [Hq [Hout [Hstp Hd]]]]]]].
  - exists [], []. cbn. repeat split; auto. discriminate.
  - destruct Hstep as [b rest q out stp Hroom | q out stp
                      | rest d o q out Ho | rest d o q out Ho]; cbn in *; subst.
    + exists taken, (pending ++ [b]). rewrite map_app, <- app_assoc. cbn.
      repeat split; auto. discriminate.
    + exists taken, pending. repeat split; auto.
    + destruct pending as [| b pending]; [discriminate | ].
      injection Hq as -> ->.
      exists (taken ++ [b]), pending. rewrite map_app, <- app_assoc. cbn.
      repeat split; auto.
    + destruct pending as [| b pending]; [discriminate | ].
      injection Hq as -> ->. discriminate.
Qed.

(** When the wrapped generator raises, the exception never reaches the
    consumer.  Under every schedule and for every capacity the consumer's loop
    never ends; what it has yielded is a prefix of the items given before the
    exception; every action brings nearer the one state without a next action,
    in which the producer is dead, the queue is empty, every item has been
    yielded and the consumer waits in [queue.get()] for a sentinel that is
    never put. *)
Theorem generate_in_background_producer_error
        (maxsize : Z) (src : list Batch) (s : state Batch) :
  reachable maxsize src s ->
  stopped s = false /\
  (exists rest, map (@Item Batch) src = yielded s ++ rest) /\
  (forall s', step maxsize s s' -> remaining s = S (remaining s')) /\
  ((forall s', ~ step maxsize s s') <->
   s = mkState [] true [] (map (@Item Batch) src) false).
Proof.
  intros Hreach.
  destruct (failing_invariant Hreach)
    as [taken [pending [Hsrc [Hq [Hout [Hstp Hd]]]]]].
  split; [exact Hstp | ].
  split.
  { exists (map (@Item Batch) (pending ++ source s)).
    now rewrite Hout, <- map_app, <- Hsrc. }
  split.
  { intros s' Hstep. destruct Hstep; unfold remaining; cbn;
      try rewrite length_app; cbn;
      repeat match goal with |- context [if ?b then _ else _] => destruct b end;
      lia. }
  split.
  - intros Hstuck.
    destruct s as [rest d q out stp]; cbn in *. subst.
    destruct pending as [| b pending].
    + destruct d.
      * rewrite (Hd eq_refl). cbn. now rewrite app_nil_r.
      * exfalso. destruct rest as [| b rest].
        -- eapply Hstuck. apply producer_raise.
        -- eapply Hstuck. apply producer_put.
           unfold has_room. cbn.
           destruct (Z.leb_spec maxsize 0); cbn; [reflexivity | ].
           apply Z.ltb_lt. lia.
    + exfalso. eapply Hstuck. cbn. apply consumer_yield. reflexivity.
  - intros -> s' Hstep. inversion Hstep.
Qed.

End Queue.

End FailingPipelineFacts.

(** ** Forward passes and modes *)

Module ModeFacts.

(** The output of a [BatchRenormLayer] does not depend on the mode: whenever
    a forward pass in training mode succeeds, the pass of the same layer in
    test mode over the same input succeeds with the same output (and leaves
    the layer as it is).  The running statistics enter both in the same way,
    through the clipped corrections [r] and [d]. *)
Theorem batch_renorm_mode_independent
        (l l' : BatchRenormLayer.t) (x y : Tensor.tensor) :
  BatchRenormLayer.training_flag l = true ->
  BatchRenormLayer.get_output l x = Ok (y, l') ->
  let test :=
    BatchRenormLayer.mk
      (BatchNormLayer.with_layer
         (Layer.set_training_status false
            (BatchNormLayer.layer (BatchRenormLayer.base l)))
         (BatchRenormLayer.base l))
      (BatchRenormLayer.r_max l) (BatchRenormLayer.d_max l) in
  BatchRenormLayer.training_flag test = false /\
  BatchRenormLayer.get_output test x = Ok (y, test).
Proof.
  intros Hflag Hout test. split; [reflexivity | ].
  revert Hout. subst test.
  unfold BatchRenormLayer.get_output. rewrite Hflag.
  destruct l as [b r d]. destruct b. 
  unfold BatchRenormLayer.training_flag, BatchRenormLayer.adjusted_statistics,
    BatchNormLayer.with_layer, BatchNormLayer.training_flag.
  cbn [BatchRenormLayer.base BatchRenormLayer.r_max BatchRenormLayer.d_max
       BatchNormLayer.layer BatchNormLayer.epsilon
       BatchNormLayer.running_average_factor BatchNormLayer.activation
       BatchNormLayer.no_scale BatchNormLayer.axes BatchNormLayer.shape
       BatchNormLayer.kwargs BatchNormLayer.gamma_values BatchNormLayer.gamma
       BatchNormLayer.beta_values BatchNormLayer.beta
       BatchNormLayer.running_mean BatchNormLayer.running_var
       BatchNormLayer.alpha Layer.set_training_status Layer.training_flag].
  match goal with |- context [bind ?r _] => destruct r as [[[[bm bs] mn] vr] | e] end;
    cbn [bind]; [ | discriminate].
  destruct (Theano.batch_normalization_test _ _ _ _ _ _ _) as [out | e];
    cbn [bind]; [ | discriminate].
  destruct (Tensor.sub bm _); cbn [bind]; [ | discriminate].
  destruct (Tensor.add _ _); cbn [bind]; [ | discriminate].
  destruct (Tensor.add _ _); cbn [bind]; [ | discriminate].
  destruct (Utils.call _ _ _); cbn [bind]; [ | discriminate].
  intros H. injection H as -> _. reflexivity.
Qed.

Section Variants.

Variable eigh : Tensor.tensor -> result (Tensor.tensor * Tensor.tensor).
Variable Conv2DLayer : Type.
Variable Conv2DLayer_call : Conv2DLayer -> Tensor.tensor -> result Tensor.tensor.

(** A forward pass changes a layer only through the running statistics of
    training mode.  For every variant of the module: in test mode the pass
    returns the very layer it was given; the group, instance and layer
    normalizations and the adaptive and conditional instance normalizations,
    which keep no statistics, do so in training mode as well. *)
Theorem forward_pass_frame
        (l l' : Normalization.layer Conv2DLayer) (x aux out : Tensor.tensor) :
  match l with
  | Normalization.BatchNorm _ b | Normalization.DecorrBatchNorm _ b =>
      BatchNormLayer.training_flag b = false
  | Normalization.BatchRenorm _ b => BatchRenormLayer.training_flag b = false
  | _ => True
  end ->
  Normalization.get_output eigh Conv2DLayer_call l x aux = Ok (out, l') ->
  l' = l.
Proof.
  destruct l as [b | b | b | g | g | g | a | c]; intros Hmode;
    unfold Normalization.get_output, Normalization.lift.
  - rewrite (StateFacts.batch_norm_test_output b x Hmode).
    destruct (BatchNormLayer.batch_normalization_test b x); cbn [bind];
      [ | discriminate].
    destruct (Utils.call _ _ _); cbn [bind]; [ | discriminate].
    now intros [= _ <-].
  - unfold BatchRenormLayer.get_output. rewrite Hmode.
    destruct (BatchRenormLayer.adjusted_statistics b x) as [[[[bm bs] mn] vr] | e];
      cbn [bind]; [ | discriminate].
    destruct (Theano.batch_normalization_test _ _ _ _ _ _ _); cbn [bind];
      [ | discriminate].
    destruct (Utils.call _ _ _); cbn [bind]; [ | discriminate].
    now intros [= _ <-].
  - unfold DecorrBatchNormLayer.get_output. rewrite Hmode.
    destruct (DecorrBatchNormLayer.transform eigh x) as [[[X S] Z] | e];
      cbn [bind]; [ | discriminate].
    destruct (Tensor.dot Z X) as [X' | e]; cbn [bind]; [ | discriminate].
    destruct (Tensor.transpose X') as [X_T | e]; cbn [bind]; [ | discriminate].
    destruct (BatchNormLayer.batch_normalization_test b X_T); cbn [bind];
      [ | discriminate].
    destruct (Utils.call _ _ _); cbn [bind]; [ | discriminate].
    destruct (Tensor.transpose _); cbn [bind]; [ | discriminate].
    destruct (Tensor.shape x) as [| m [| ch [| h [| w [| ? ?]]]]];
      try discriminate.
    destruct (Tensor.reshape _ _); cbn [bind]; [ | discriminate].
    destruct (Tensor.dimshuffle _ _); cbn [bind]; [ | discriminate].
    now intros [= _ <-].
  - destruct (GroupNormLayer.get_output g x) as [[o g'] | e] eqn:Hg;
      cbn [bind]; [ | discriminate].
    apply StateFacts.group_norm_get_output_layer in Hg. now intros [= _ <-]; subst.
  - destruct (GroupNormLayer.get_output g x) as [[o g'] | e] eqn:Hg;
      cbn [bind]; [ | discriminate].
    apply StateFacts.group_norm_get_output_layer in Hg. now intros [= _ <-]; subst.
  - destruct (GroupNormLayer.get_output g x) as [[o g'] | e] eqn:Hg;
      cbn [bind]; [ | discriminate].
    apply StateFacts.group_norm_get_output_layer in Hg. now intros [= _ <-]; subst.
  - destruct (AdaptiveInstanceNorm2DLayer.get_output a x aux) as [[o a'] | e] eqn:Ha;
      cbn [bind]; [ | discriminate].
    apply StateFacts.adain_get_output_layer in Ha. now intros [= _ <-]; subst.
  - destruct (ConditionalInstanceNorm2DLayer.get_output Conv2DLayer_call c x aux)
      as [[o c'] | e] eqn:Hc; cbn [bind]; [ | discriminate].
    apply StateFacts.cin_get_output_layer in Hc. now intros [= _ <-]; subst.
Qed.

End Variants.

(** The constructors take an activation by name only if the name is a key of
    [utils.function]: for every other name, ['prelu'] among them, the
    constructors of the batch-normalization family raise [KeyError] for this
    name, whatever the other arguments are, and those of the group
    normalization do so as soon as the number of groups is accepted. *)
Theorem init_unknown_activation
        (name : string) (sh : list Z) (layer_name : string)
        (epsilon factor r_max d_max : R) (axes : string) (no_scale : bool)
        (kwargs : Utils.kwargs) (groups channels : Z) :
  ~ In name (map fst Utils.function) ->
  BatchNormLayer.init sh layer_name epsilon factor axes (Utils.ByName name)
                      no_scale kwargs
  = Raise (KeyError name) /\
  DecorrBatchNormLayer.init sh layer_name epsilon factor (Utils.ByName name)
                            no_scale kwargs
  = Raise (KeyError name) /\
  BatchRenormLayer.init sh layer_name epsilon r_max d_max factor axes
                        (Utils.ByName name) kwargs
  = Raise (KeyError name) /\
  (second sh = Ok channels ->
   GroupNormLayer.groups_divide channels groups = Ok true ->
   GroupNormLayer.init sh layer_name groups epsilon (Utils.ByName name) kwargs
   = Raise (KeyError name)).
Proof.
  intros Hname.
  assert (Hres : Utils.resolve (Utils.ByName name) = Raise (KeyError name)).
  { cbn [Utils.resolve]. revert Hname.
    generalize Utils.function as d.
    induction d as [| [k f] d IH]; intros Hin; [reflexivity | ].
    cbn [Utils.getitem]. destruct (String.eqb_spec k name) as [-> | Hk].
    - exfalso. apply Hin. now left.
    - apply IH. intros H. apply Hin. now right. }
  unfold BatchRenormLayer.init, DecorrBatchNormLayer.init, BatchNormLayer.init,
    GroupNormLayer.init.
  rewrite Hres. cbn [bind].
  repeat split.
  intros Hc Hg. rewrite Hc. cbn [bind]. rewrite Hg. reflexivity.
Qed.

End ModeFacts.

(** ** Feeding an epoch: [get_batches] *)

Module FeedFacts.
Import Batches DataManager Feed.

Section Data.

Variables X Y : Type.

Lemma progress_generator_run (items : list (minibatch X Y)) (desc : string)
      (total : Z) (min_delay : Q) (clock : nat -> Q) :
  total <> 0%Z ->
  exists front m sec,
    Progress.progress (Progress.mkIterable items false) desc (Some total)
                      min_delay clock
    = (front ++ [Progress.PrintTook _ desc total m sec], None) /\
    Progress.yields (front ++ [Progress.PrintTook _ desc total m sec]) = items.
Proof.
  intros Ht. unfold Progress.progress, Progress.total_or_len.
  destruct (Z.eqb_spec total 0) as [H0 | _]; [contradiction | ].
  cbn [Progress.elems].
  destruct (@ProgressFacts.loop_yields _ desc total min_delay (clock 0) clock
              items (or_introl Ht) 0 0%Q) as [Hy Hr].
  destruct (@ProgressFacts.loop_final_line _ desc total min_delay (clock 0)
              clock items 0 0%Q Hr) as [front [Hevs _]].
  destruct (Progress.loop desc total min_delay (clock 0) clock 0 0%Q items)
    as [evs r]; cbn [fst snd] in *.
  rewrite Hr. do 3 eexists.
  split; [f_equal; exact Hevs | rewrite <- Hevs; exact Hy].
Qed.

Lemma map_item_injective (a b : list (minibatch X Y)) :
  map (@Pipeline.Item _) a = map (@Pipeline.Item _) b -> a = b.
Proof.
  revert b. induction a as [| x a IH]; intros [| y b] H; try discriminate.
  - reflexivity.
  - cbn in H. injection H as -> H. f_equal. now apply IH.
Qed.

(** Whatever the capacity and the schedule so far, the two threads can run on
    until the consumer's loop has ended. *)
Lemma pipeline_ends (maxsize : Z) (src : list (minibatch X Y))
      (s : Pipeline.state (minibatch X Y)) :
  Pipeline.reachable maxsize src s ->
  exists s', Pipeline.reachable maxsize src s' /\ Pipeline.stopped s' = true.
Proof.
  remember (Pipeline.remaining s) as k eqn:Hk.
  revert s Hk. induction k as [| k IH]; intros s Hk Hreach.
  - destruct (Pipeline.stopped s) eqn:Hstop; [now exists s | ].
    destruct (@PipelineFacts.inv_progress _ maxsize src s
                (PipelineFacts.reachable_inv Hreach) Hstop) as [s' Hstep].
    apply PipelineFacts.step_remaining in Hstep. lia.
  - destruct (Pipeline.stopped s) eqn:Hstop; [now exists s | ].
    destruct (@PipelineFacts.inv_progress _ maxsize src s
                (PipelineFacts.reachable_inv Hreach) Hstop) as [s' Hstep].
    apply (IH s').
    + apply PipelineFacts.step_remaining in Hstep. lia.
    + eapply rtn1_trans; eauto.
Qed.

(** Over a generator that ends, the pipeline hands on its minibatches, all of
    them and in order, and ends: under every schedule and for every capacity,
    and some schedule there is. *)
Lemma background_hands_on (maxsize : Z) (items handed : list (minibatch X Y))
      (ended : bool) :
  generate_in_background maxsize (Ok items) handed ended
  <-> handed = items /\ ended = true.
Proof.
  split.
  - intros H. inversion H as [items' s handed' Hreach Hstop Hy | ]; subst.
    split; [ | reflexivity].
    destruct (PipelineFacts.inv_all_yielded
                (PipelineFacts.reachable_inv Hreach) Hstop) as [Hall _].
    rewrite Hall in Hy. symmetry. now apply map_item_injective.
  - intros [-> ->].
    destruct (@pipeline_ends maxsize items (Pipeline.init items))
      as [s [Hreach Hstop]]; [apply rtn1_refl | ].
    apply consumer_ends with (s := s); auto.
    now destruct (PipelineFacts.inv_all_yielded
                    (PipelineFacts.reachable_inv Hreach) Hstop).
Qed.

(** Over a generator that raises, the consumer is handed nothing and waits
    for ever. *)
Lemma background_waits (maxsize : Z) (e : exn) (handed : list (minibatch X Y))
      (ended : bool) :
  generate_in_background maxsize (Raise e) handed ended
  <-> handed = [] /\ ended = false.
Proof.
  split.
  - intros H. inversion H as [ | e' s handed' Hreach Hstuck Hy]; subst.
    split; [ | reflexivity].
    destruct (FailingPipelineFacts.failing_invariant Hreach)
      as [taken [pending [Hsrc [_ [Hout _]]]]].
    destruct taken; [ | discriminate].
    rewrite Hout in Hy. destruct handed; [reflexivity | discriminate].
  - intros [-> ->].
    apply consumer_waits
      with (s := FailingPipeline.mkState (@nil (minibatch X Y)) true [] [] false).
    + eapply rtn1_trans; [ | apply rtn1_refl].
      apply FailingPipeline.producer_raise.
    + intros s' Hstep. inversion Hstep.
    + reflexivity.
Qed.

(** An epoch with a progress line, over a generator that ends: every run of
    [get_batches] is the run of [progress] over the minibatches of the
    generator. *)
Lemma get_batches_with_progress
        (dm : t X Y) (epoch num_epochs n : Z) (stage : string)
        (index : list nat) (clock : nat -> Q)
        (items : list (minibatch X Y)) :
  is_train stage && augmentation dm = false ->
  (if is_train stage then num_train_data dm else num_test_data dm) = Some n ->
  generator dm stage index = Ok items ->
  let size := if is_train stage then batch_size dm else test_batch_size dm in
  size <> 0%Z -> (n / size <> 0)%Z ->
  forall o,
    get_batches dm (Some epoch) (Some num_epochs) stage index clock o
    <-> o = reported (description epoch num_epochs) (n / size) clock items true.
Proof.
  intros Haug Hn Hgen size Hs Hq o.
  assert (Hnum : num_batches_of
                   (if is_train stage then num_train_data dm
                    else num_test_data dm) size = Ok (n / size)%Z).
  { rewrite Hn. unfold num_batches_of, floordiv.
    destruct (Z.eqb_spec size 0) as [H0 | _]; [contradiction | reflexivity]. }
  assert (Htotal : Progress.total_or_len (Some (n / size)%Z)
                     (Progress.mkIterable (@nil (minibatch X Y)) false)
                   = Ok (n / size)%Z).
  { unfold Progress.total_or_len.
    destruct (Z.eqb_spec (n / size) 0) as [H0 | _]; [contradiction | reflexivity]. }
  split.
  - intros H.
    inversion H as [Ha | handed ended Ha [He | He] Hb
                    | e m ex Ha He Hm Hr | e m nb ex Ha He Hm Hr Ht
                    | e m nb total handed ended Ha He Hm Hr Ht Hb];
      subst; try congruence.
    + fold size in Hr. congruence.
    + fold size in Hr. rewrite Hnum in Hr. injection Hr as <-. congruence.
    + fold size in Hr. rewrite Hnum in Hr. injection Hr as <-.
      injection He as <-. injection Hm as <-.
      rewrite Hgen in Hb. apply background_hands_on in Hb as [-> ->].
      reflexivity.
  - intros ->.
    eapply with_progress; try reflexivity; eauto.
    rewrite Hgen. now apply background_hands_on.
Qed.

(** An epoch with a progress line.  When [epoch] and [num_epochs] are given,
    no augmentation is asked for, and the number of batches computed for the
    progress line is not zero, then under every schedule of the background
    pipeline, whatever [num_cached] is, the caller receives exactly the
    minibatches of [generator], in order, and the run ends with the closing
    line for this number of batches; and such a run there is. *)
Theorem get_batches_passes_batches
        (dm : t X Y) (epoch num_epochs n : Z) (stage : string)
        (index : list nat) (clock : nat -> Q)
        (items : list (minibatch X Y)) :
  is_train stage && augmentation dm = false ->
  (if is_train stage then num_train_data dm else num_test_data dm) = Some n ->
  generator dm stage index = Ok items ->
  let size := if is_train stage then batch_size dm else test_batch_size dm in
  size <> 0%Z -> (n / size <> 0)%Z ->
  exists front m sec,
    Progress.yields (front ++ [Progress.PrintTook _ (description epoch num_epochs)
                                 (n / size) m sec]) = items /\
    forall o,
      get_batches dm (Some epoch) (Some num_epochs) stage index clock o
      <-> o = Completes (front ++ [Progress.PrintTook _
                                     (description epoch num_epochs)
                                     (n / size) m sec]).
Proof.
  intros Haug Hn Hgen size Hs Hq.
  destruct (@progress_generator_run items (description epoch num_epochs)
              (n / size)%Z (1 # 10)%Q clock Hq) as [front [m [sec [Hrun Hy]]]].
  exists front, m, sec. split; [exact Hy | ].
  intros o.
  rewrite (@get_batches_with_progress dm epoch num_epochs n stage index clock
             items Haug Hn Hgen Hs Hq o).
  fold size. unfold reported. rewrite Hrun. reflexivity.
Qed.

(** In every stage but ['train'] the progress line and the generator disagree
    on the batch size: the minibatches are cut with [batch_size], the total of
    the progress line is computed with [test_batch_size].  On a loaded test
    set, under every schedule of the background pipeline, the caller receives
    [num_test_data // batch_size] minibatches, while the closing line reports
    [num_test_data // test_batch_size]. *)
Theorem get_batches_test_stage_total
        (dm : t X Y) (epoch num_epochs n : Z) (stage : string)
        (index : list nat) (clock : nat -> Q) (d : dataset X Y) :
  is_train stage = false ->
  testing_set dm = Some d ->
  num_test_data dm = Some n ->
  (0 < batch_size dm)%Z ->
  (0 < test_batch_size dm <= n)%Z ->
  exists front m sec,
    length (Progress.yields
              (front ++ [Progress.PrintTook _ (description epoch num_epochs)
                           (n / test_batch_size dm) m sec]))
    = Z.to_nat (n / batch_size dm) /\
    forall o,
      get_batches dm (Some epoch) (Some num_epochs) stage index clock o
      <-> o = Completes (front ++ [Progress.PrintTook _
                                     (description epoch num_epochs)
                                     (n / test_batch_size dm) m sec]).
Proof.
  intros Hst Hd Hn Hb [Ht Htn].
  destruct (@DataManagerFacts.generator_unshuffled_count X Y dm stage index d n)
    as [items [Hgen Hlen]]; try rewrite Hst; auto.
  assert (Hq : (n / test_batch_size dm <> 0)%Z).
  { assert (1 <= n / test_batch_size dm)%Z; [ | lia].
    apply Z.div_le_lower_bound; lia. }
  destruct (@progress_generator_run items (description epoch num_epochs)
              (n / test_batch_size dm)%Z (1 # 10)%Q clock Hq)
    as [front [m [sec [Hrun Hy]]]].
  exists front, m, sec. split; [now rewrite Hy | ].
  intros o.
  rewrite (@get_batches_with_progress dm epoch num_epochs n stage index clock
             items); try rewrite Hst; auto; try lia.
  unfold reported. rewrite Hrun. reflexivity.
Qed.

(** A data set of less than one batch.  When [epoch] and [num_epochs] are
    given and the stage holds fewer samples than one batch, the total handed
    to [progress] is zero, [progress] falls back on [len] of the generator it
    wraps, and the first request for a minibatch raises [TypeError] instead
    of ending an empty epoch: this is the one outcome of [get_batches]. *)
Theorem get_batches_less_than_a_batch
        (dm : t X Y) (epoch num_epochs n : Z) (stage : string)
        (index : list nat) (clock : nat -> Q) :
  is_train stage && augmentation dm = false ->
  (if is_train stage then num_train_data dm else num_test_data dm) = Some n ->
  let size := if is_train stage then batch_size dm else test_batch_size dm in
  (0 <= n < size)%Z ->
  forall o,
    get_batches dm (Some epoch) (Some num_epochs) stage index clock o
    <-> o = Fails [] (Exn (TypeError "object of type 'generator' has no len()")).
Proof.
  intros Haug Hn size Hs o.
  assert (Hnum : num_batches_of
                   (if is_train stage then num_train_data dm
                    else num_test_data dm) size = Ok 0%Z).
  { rewrite Hn. unfold num_batches_of, floordiv.
    destruct (Z.eqb_spec size 0) as [H0 | _]; [lia | ].
    now rewrite Z.div_small by exact Hs. }
  split.
  - intros H.
    inversion H as [Ha | handed ended Ha [He | He] Hb
                    | e m ex Ha He Hm Hr | e m nb ex Ha He Hm Hr Ht
                    | e m nb total handed ended Ha He Hm Hr Ht Hb];
      subst; try congruence.
    + fold size in Hr. congruence.
    + fold size in Hr. rewrite Hnum in Hr. injection Hr as <-.
      cbn in Ht. injection Ht as <-. reflexivity.
    + fold size in Hr. rewrite Hnum in Hr. injection Hr as <-.
      discriminate.
  - intros ->.
    eapply total_raises; try reflexivity; eauto.
Qed.

End Data.

End FeedFacts.

(** ** Converting weights *)

Module WeightFacts.
Import Tensor Numpy Weights.

Lemma np_reshape_filters (weight : tensor) (rows : nat) (rest : list nat)
      (c k : Z) :
  shape weight = rows :: rest -> (0 < c)%Z -> (0 < k)%Z ->
  Z.of_nat rows = (c * k * k)%Z ->
  np_reshape [(-1)%Z; c; k; k] weight
  = Ok (mkTensor [size rest; Z.to_nat c; Z.to_nat k; Z.to_nat k] (data weight)).
Proof.
  intros Hsh Hc Hk Hrows. unfold np_reshape. rewrite Hsh.
  cbn [existsb filter].
  destruct (Z.ltb_spec c (-1)); [lia | ].
  destruct (Z.ltb_spec k (-1)); [lia | ].
  destruct (Z.eqb_spec c (-1)); [lia | ].
  destruct (Z.eqb_spec k (-1)); [lia | ].
  cbn -[size Nat.modulo Nat.div Nat.eqb Z.to_nat].
  assert (Hknown : size [Z.to_nat c; Z.to_nat k; Z.to_nat k] = rows).
  { cbn [size fold_right]. nia. }
  rewrite Hknown.
  assert (Hpos : 0 < rows) by nia.
  destruct (Nat.eqb_spec rows 0) as [Hz | _]; [lia | ].
  destruct (Z.eqb_spec c (-1)); [lia | ].
  destruct (Z.eqb_spec k (-1)); [lia | ].
  change (size (rows :: rest)) with (rows * size rest).
  rewrite Nat.mul_comm, Nat.Div0.mod_mul, Nat.div_mul by lia.
  reflexivity.
Qed.

Lemma sqrt_is_integer (rows : nat) (c : Z) :
  (0 < c)%Z ->
  let root := sqrt (INR rows / IZR c) in
  (forall k, (0 <= k)%Z -> Z.of_nat rows = (c * k * k)%Z ->
             root = IZR k /\ Int_part root = k) /\
  (root = IZR (Int_part root) ->
   Z.of_nat rows = (c * Int_part root * Int_part root)%Z).
Proof.
  intros Hc root.
  assert (Hc' : (0 < IZR c)%R) by now apply IZR_lt.
  assert (Hq : (0 <= INR rows / IZR c)%R).
  { apply Rmult_le_pos; [apply pos_INR | ].
    left. now apply Rinv_0_lt_compat. }
  split.
  - intros k Hk Hrows.
    assert (Hroot : root = IZR k).
    { unfold root. rewrite INR_IZR_INZ, Hrows, !mult_IZR.
      replace (IZR c * IZR k * IZR k / IZR c)%R with (IZR k * IZR k)%R
        by (field; lra).
      apply sqrt_square. now apply IZR_le. }
    split; [exact Hroot | ].
    rewrite Hroot. symmetry. apply Int_part_spec. lra.
  - intros Hroot.
    apply eq_IZR. rewrite !mult_IZR, <- Hroot, <- INR_IZR_INZ.
    rewrite Rmult_assoc. unfold root. rewrite sqrt_sqrt by exact Hq.
    field. lra.
Qed.

(** [fully_connected_to_convolution] turns a weight array of [rows] rows into
    filters exactly when [rows] is [C * k * k] for the [C] channels of the
    previous layer and a filter size [k]: the result is then the array
    reshaped to [(-1, C, k, k)], its entries in the order they had, and [None]
    when no such [k] exists. *)
Theorem fully_connected_to_convolution_square
        (weight : tensor) (rows : nat) (rest : list nat)
        (prev_layer_shape : list Z) (c : Z) :
  shape weight = rows :: rest ->
  second prev_layer_shape = Ok c ->
  (0 < c)%Z ->
  (forall k, (0 < k)%Z -> Z.of_nat rows = (c * k * k)%Z ->
     fully_connected_to_convolution weight prev_layer_shape
     = Ok (Some (mkTensor [size rest; Z.to_nat c; Z.to_nat k; Z.to_nat k]
                          (data weight)))) /\
  ((forall k, Z.of_nat rows <> (c * k * k)%Z) ->
   fully_connected_to_convolution weight prev_layer_shape = Ok None).
Proof.
  intros Hsh Hsecond Hc.
  destruct (sqrt_is_integer rows Hc) as [Hyes Hno].
  assert (Hq : ~ (INR rows / IZR c < 0)%R).
  { apply Rle_not_lt. apply Rmult_le_pos; [apply pos_INR | ].
    left. apply Rinv_0_lt_compat. now apply IZR_lt. }
  unfold fully_connected_to_convolution. rewrite Hsh, Hsecond. cbn [bind].
  destruct (Z.eqb_spec c 0) as [H0 | _]; [lia | ].
  destruct (Rlt_dec (INR rows / IZR c) 0) as [Hneg | _]; [contradiction | ].
  split.
  - intros k Hk Hrows.
    destruct (Hyes k (Z.lt_le_incl _ _ Hk) Hrows) as [Hroot Hint].
    rewrite Hint.
    destruct (Req_EM_T (sqrt (INR rows / IZR c)) (IZR k)) as [_ | Hne];
      [ | contradiction].
    now rewrite (np_reshape_filters weight Hsh Hc Hk Hrows).
  - intros Hnone.
    destruct (Req_EM_T (sqrt (INR rows / IZR c))
                       (IZR (Int_part (sqrt (INR rows / IZR c)))))
      as [Hroot | _]; [ | reflexivity].
    exfalso. exact (Hnone _ (Hno Hroot)).
Qed.

End WeightFacts.

(** ** Feeding the shared variables *)

Module PlaceholderFacts.
Import Tensor Numpy.

Lemma np_reshape_own_shape (sh : list nat) (t : tensor) :
  np_reshape (map Z.of_nat sh) t
  = if size sh =? size (shape t) then Ok (mkTensor sh (data t))
    else Raise (ValueError "cannot reshape array into the given shape").
Proof.
  unfold np_reshape.
  assert (Hneg : existsb (fun d => (d <? -1)%Z) (map Z.of_nat sh) = false).
  { induction sh as [| d sh IH]; [reflexivity | ]. cbn [map existsb].
    rewrite IH. destruct (Z.ltb_spec (Z.of_nat d) (-1)); [lia | reflexivity]. }
  assert (Hnone : filter (fun d => (d =? -1)%Z) (map Z.of_nat sh) = []).
  { clear Hneg. induction sh as [| d sh IH]; [reflexivity | ]. cbn [map filter].
    rewrite IH. destruct (Z.eqb_spec (Z.of_nat d) (-1)); [lia | reflexivity]. }
  rewrite Hneg, Hnone. cbn [length].
  assert (Hid : map Z.to_nat (map Z.of_nat sh) = sh).
  { rewrite map_map. rewrite <- (map_id sh) at 2.
    apply map_ext. intros d. apply Nat2Z.id. }
  now rewrite Hid.
Qed.

(** [update_input] of [src/utils.py], called without [shape_x] and [shape_y],
    never changes the shape of a shared variable, and it updates both
    variables or none: when [x] and [y] have as many entries as the variables
    they are meant for, each variable takes the entries of its array and keeps
    its shape; otherwise the call raises [ValueError] and both variables are
    as they were. *)
Theorem update_input_keeps_shapes (x y vx vy : tensor) :
  let '((vx', vy'), raised) :=
    Placeholders.update_input x y (vx, vy) None None in
  shape vx' = shape vx /\ shape vy' = shape vy /\
  (size (shape x) = size (shape vx) -> size (shape y) = size (shape vy) ->
   raised = None /\ data vx' = data x /\ data vy' = data y) /\
  (size (shape x) <> size (shape vx) \/ size (shape y) <> size (shape vy) ->
   raised = Some (ValueError
     "Input of the shared variable must have the same shape with the shared variable")
   /\ vx' = vx /\ vy' = vy).
Proof.
  unfold Placeholders.update_input.
  rewrite !np_reshape_own_shape.
  destruct (Nat.eqb_spec (size (shape vx)) (size (shape x))) as [Hx | Hx];
    cbn [bind].
  - destruct (Nat.eqb_spec (size (shape vy)) (size (shape y))) as [Hy | Hy];
      cbn [bind].
    + unfold set_value, ndim. cbn [shape]. rewrite !Nat.eqb_refl.
      cbn [shape data]. repeat split; auto;
        match goal with H : _ \/ _ |- _ => destruct H; congruence end.
    + repeat split; auto; congruence.
  - repeat split; auto; congruence.
Qed.

(** [DataManager.update_input] of [neuralnet/utils.py] compares no shapes
    and is not all-or-nothing.  An array with the right number of axes is
    assigned whatever its lengths are, so that the placeholders end with the
    shapes of [x] and [y], not the ones they had; and when only [y] has the
    wrong number of axes, the call raises [TypeError] after the first
    placeholder has been overwritten with [x]. *)
Theorem update_input_takes_any_shape (x y vx vy : tensor) :
  (ndim x = ndim vx -> ndim y = ndim vy ->
   DataManagerInput.update_input x y (vx, vy) = ((x, y), None)) /\
  (ndim x = ndim vx -> ndim y <> ndim vy ->
   DataManagerInput.update_input x y (vx, vy)
   = ((x, vy), Some (TypeError "Wrong number of dimensions"))) /\
  (ndim x <> ndim vx ->
   DataManagerInput.update_input x y (vx, vy)
   = ((vx, vy), Some (TypeError "Wrong number of dimensions"))).
Proof.
  unfold DataManagerInput.update_input, set_value.
  repeat split.
  - intros Hx Hy. now rewrite Hx, Hy, !Nat.eqb_refl.
  - intros Hx Hy. rewrite Hx, Nat.eqb_refl.
    now destruct (Nat.eqb_spec (ndim y) (ndim vy)).
  - intros Hx. now destruct (Nat.eqb_spec (ndim x) (ndim vx)).
Qed.

End PlaceholderFacts.

(** ** Loading weights *)

Module LoadWeightsFacts.
Import Tensor LoadWeights.






Lemma transpose_4d (w : tensor) :
  ndim w = 4 ->
  exists t, dimshuffle [Some 3; Some 2; Some 0; Some 1] w = Ok t.
Proof.
  unfold ndim, dimshuffle, pattern_ok.
  destruct (shape w) as [| a [| b [| c [| d [| ? ?]]]]]; try discriminate.
  intros _. cbn. eauto.
Qed.

Lemma first_block_with_params (weights : list tensor) (j : nat) (l : layer)
      (w : tensor) :
  nth_error weights j = Some w -> params l <> [] ->
  exists l', first_block weights j l = Ok l' /\ params l' <> [].
Proof.
  intros Hw Hp. unfold first_block. rewrite Hw.
  assert (exists W_, (if ndim w =? 4
                      then dimshuffle [Some 3; Some 2; Some 0; Some 1] w
                      else Ok w) = Ok W_) as [W_ ->].
  { destruct (Nat.eqb_spec (ndim w) 4) as [H4 | _]; [ | eauto].
    now apply transpose_4d. }
  cbn [bind]. destruct (params l) as [| p0 ps] eqn:Hpl; [now destruct Hp | ].
  destruct (shape_eqb (shape W_) (shape p0)); eexists; split;
    try reflexivity; cbn; try rewrite Hpl; discriminate.
Qed.

Lemma second_block_outcome (weights : list tensor) (j : nat) (l : layer) :
  (length weights <= j + 1 ->
   second_block weights j l = Raise (IndexError "list index out of range")) /\
  (j + 1 < length weights -> params l <> [] ->
   exists l', second_block weights j l = Ok l' /\ params l' <> []).
Proof.
  unfold second_block. split.
  - intros H. apply nth_error_None in H. now rewrite H.
  - intros H Hp.
    destruct (nth_error weights (j + 1)) as [b | ] eqn:Hb.
    + destruct (params l) as [| p0 [| p1 ps]] eqn:Hpl; [now destruct Hp | | ].
      * eexists; split; [reflexivity | now rewrite Hpl].
      * destruct (shape_eqb (shape b) (shape p1)); eexists; split;
          try reflexivity; cbn; try rewrite Hpl; discriminate.
    + apply nth_error_None in Hb. lia.
Qed.

Lemma loop_odd_count (weights : list tensor) (m : nat) (model : list layer) :
  length weights = 2 * m + 1 ->
  forall i,
    Forall (fun l => params l <> []) model ->
    i <= m -> m - i < length model ->
    loop weights (2 * i) model = Raise (IndexError "list index out of range").
Proof.
  intros Hlen. induction model as [| l rest IH]; intros i Hall Hi Hm.
  - cbn in Hm. lia.
  - cbn [loop].
    destruct (Z.ltb_spec (Z.of_nat (length weights) - 1) (Z.of_nat (2 * i)));
      [lia | ].
    inversion Hall as [| l0 rest0 Hl Hrest]; subst.
    destruct (nth_error weights (2 * i)) as [w | ] eqn:Hw.
    2: { apply nth_error_None in Hw. lia. }
    destruct (first_block_with_params weights (2 * i) l Hw Hl) as [l1 [-> Hl1]].
    cbn [bind].
    destruct (second_block_outcome weights (2 * i) l1) as [Hout Hin].
    destruct (Nat.eq_dec i m) as [-> | Hne].
    + rewrite Hout by lia. reflexivity.
    + destruct Hin as [l2 [-> Hl2]]; [lia | exact Hl1 | ].
      cbn [bind].
      replace (2 * i + 2) with (2 * (i + 1)) by lia.
      rewrite IH; [reflexivity | exact Hrest | lia | cbn in Hm; lia].
Qed.

(** A file with an odd number of arrays.  The loop takes the arrays two by
    two; when their number is odd and the model has a layer for the last one,
    the lookup of its missing partner fails inside the second [try], and the
    handler, which prints the same key, raises the [IndexError] again: the
    call ends with this exception instead of leaving the last bias as it is
    (every layer is taken to have parameters). *)
Theorem load_weights_odd_count
        (weights : list tensor) (model : list layer) :
  Forall (fun l => params l <> []) model ->
  Nat.odd (length weights) = true ->
  length weights < 2 * length model ->
  load_weights weights model = Raise (IndexError "list index out of range").
Proof.
  intros Hall Hodd Hlen. unfold load_weights.
  apply Nat.odd_spec in Hodd as [m Hm].
  apply (@loop_odd_count weights m model Hm 0 Hall); lia.
Qed.

Lemma loop_even_count (weights : list tensor) (model : list layer) :
  forall i,
    Forall (fun l => params l <> []) model ->
    (exists m, length weights = 2 * m) \/ 2 * (i + length model) <= length weights ->
    exists model', loop weights (2 * i) model = Ok model'.
Proof.
  induction model as [| l rest IH]; intros i Hall Hlen; cbn [loop]; [eauto | ].
  destruct (Z.ltb_spec (Z.of_nat (length weights) - 1) (Z.of_nat (2 * i)));
    [eauto | ].
  inversion Hall as [| l0 rest0 Hl Hrest]; subst.
  destruct (nth_error weights (2 * i)) as [w | ] eqn:Hw.
  2: { apply nth_error_None in Hw. lia. }
  destruct (first_block_with_params weights (2 * i) l Hw Hl) as [l1 [-> Hl1]].
  cbn [bind].
  destruct (second_block_outcome weights (2 * i) l1) as [_ Hin].
  destruct Hin as [l2 [-> Hl2]]; [ | exact Hl1 | ].
  { destruct Hlen as [[m Hm] | Hlen]; [lia | cbn in Hlen; lia]. }
  cbn [bind]. replace (2 * i + 2) with (2 * (i + 1)) by lia.
  destruct (IH (i + 1) Hrest) as [rest' ->].
  { destruct Hlen as [Hm | Hlen]; [now left | right; cbn in Hlen; lia]. }
  cbn [bind]. eauto.
Qed.

(** With an even number of arrays, or with fewer layers than pairs of
    arrays, the call returns, whether the shapes fit or not (every layer is
    taken to have parameters). *)
Theorem load_weights_returns
        (weights : list tensor) (model : list layer) :
  Forall (fun l => params l <> []) model ->
  Nat.even (length weights) = true \/ 2 * length model <= length weights ->
  exists model', load_weights weights model = Ok model'.
Proof.
  intros Hall Hlen. unfold load_weights.
  apply (@loop_even_count weights model 0 Hall).
  destruct Hlen as [He | Hl]; [left | right; lia].
  apply Nat.even_spec in He as [m Hm]. now exists m.
Qed.

End LoadWeightsFacts.

(** ** Shapes through a forward pass *)

Module ShapeFacts.
Import Tensor.

Lemma length_drop_axes (axes : list nat) (sh : list nat) (i : nat) :
  length (drop_axes axes i sh)
  = length (filter (fun k => negb (mem k axes)) (seq i (length sh))).
Proof.
  revert i. induction sh as [| d sh IH]; intros i; [reflexivity | ].
  cbn [drop_axes length seq filter].
  destruct (mem i axes); cbn [negb length]; now rewrite IH.
Qed.

Lemma drop_axes_le (axes : list nat) (sh : list nat) (i : nat) :
  length (drop_axes axes i sh) <= length sh.
Proof.
  revert i. induction sh as [| d sh IH]; intros i; [reflexivity | ].
  cbn [drop_axes length]. specialize (IH (S i)).
  destruct (mem i axes); cbn [length]; lia.
Qed.

Lemma drop_axes_lt (axes : list nat) (sh : list nat) (i a : nat) :
  mem a axes = true -> i <= a < i + length sh ->
  length (drop_axes axes i sh) < length sh.
Proof.
  intros Ha. revert i. induction sh as [| d sh IH]; intros i Hi;
    [cbn in Hi; lia | ].
  cbn [drop_axes length] in *.
  destruct (mem i axes) eqn:Hm.
  - pose proof (drop_axes_le axes sh (S i)). lia.
  - cbn [length]. assert (a <> i) by (intros ->; congruence).
    specialize (IH (S i)). lia.
Qed.

Lemma drop_axes_shorter (axes : list nat) (sh : list nat) :
  axes <> [] -> valid_axes axes (length sh) = true ->
  length (drop_axes axes 0 sh) < length sh.
Proof.
  intros Hne Hv. destruct axes as [| a axes]; [now destruct Hne | ].
  cbn [valid_axes forallb] in Hv. apply andb_true_iff in Hv as [Ha _].
  apply Nat.ltb_lt in Ha.
  apply drop_axes_lt with (a := a); [ | lia].
  unfold mem. cbn [existsb]. now rewrite Nat.eqb_refl.
Qed.

Lemma drop_axes_kept (axes : list nat) (sh : list nat) (i : nat) :
  drop_axes axes i (kept_shape axes i sh) = drop_axes axes i sh.
Proof.
  revert i. induction sh as [| d sh IH]; intros i; [reflexivity | ].
  cbn [kept_shape drop_axes]. destruct (mem i axes); now rewrite IH.
Qed.

(** A statistic with the reduced axes dropped, put back among the axes of
    the input, has the shape of a statistic that kept them. *)
Lemma expand_dims_shape (axes : list nat) (x p : tensor) :
  shape p = drop_axes axes 0 (shape x) ->
  shape (expand_dims axes (ndim x) p) = kept_shape axes 0 (shape x).
Proof.
  intros Hp. unfold expand_dims, ndim. cbn [shape]. rewrite Hp.
  apply TensorFacts.expanded_dropped.
Qed.

Lemma elemwise_with_statistic (f : R -> R -> R) (axes : list nat)
      (sh : list nat) (x k : tensor) :
  shape x = sh -> shape k = kept_shape axes 0 sh ->
  exists t, elemwise f x k = Ok t /\ shape t = sh.
Proof.
  intros Hx Hk. subst sh.
  exact (TensorFacts.elemwise_kept_shape f axes x k Hk).
Qed.

Lemma var_succeeds (axes : list nat) (x : tensor) :
  valid_axes axes (ndim x) = true ->
  exists v, var axes true x = Ok v /\ shape v = kept_shape axes 0 (shape x).
Proof.
  intros Hv. unfold var. rewrite Hv.
  destruct (TensorFacts.elemwise_kept_shape Rminus axes x (mean_keep axes x)
              eq_refl) as [c [Hc Hs]].
  unfold sub. rewrite Hc. cbn [bind]. unfold mean.
  replace (ndim (sqr c)) with (ndim x)
    by (unfold ndim, sqr; cbn; now rewrite Hs).
  rewrite Hv. eexists. split; [reflexivity | ].
  rewrite TensorFacts.mean_keep_shape. unfold sqr; cbn. now rewrite Hs.
Qed.

Lemma prepare_axes_succeeds (axes : list nat) (n : nat) :
  axes <> [] -> valid_axes axes n = true ->
  Theano.prepare_axes (Theano.Axes axes) n
  = Ok (axes, filter (fun i => negb (mem i axes)) (seq 0 n)).
Proof.
  intros Hne Hv. unfold Theano.prepare_axes.
  destruct axes as [| a axes']; [now destruct Hne | ].
  now rewrite Hv.
Qed.

Lemma checked_succeeds (x gamma beta : tensor) (others : list tensor)
      (axes : list nat) (epsilon : R) :
  axes <> [] -> valid_axes axes (ndim x) = true ->
  shape gamma = drop_axes axes 0 (shape x) ->
  shape beta = drop_axes axes 0 (shape x) ->
  Forall (fun t => shape t = drop_axes axes 0 (shape x)) others ->
  (Theano.epsilon_min <= Float.float32 epsilon)%R ->
  Theano.checked x gamma beta others (Theano.Axes axes) epsilon
  = Ok (axes, false).
Proof.
  intros Hne Hv Hg Hb Ho He. unfold Theano.checked.
  rewrite (@prepare_axes_succeeds axes (ndim x) Hne Hv). cbn [bind].
  assert (Hshort : length (drop_axes axes 0 (shape x)) < ndim x)
    by now apply drop_axes_shorter.
  assert (Hfull : (ndim gamma =? ndim x) = false).
  { apply Nat.eqb_neq. unfold ndim at 1. rewrite Hg. lia. }
  rewrite Hfull.
  assert (Hnd : forall t, shape t = drop_axes axes 0 (shape x) ->
                (ndim t =? length (filter (fun i => negb (mem i axes))
                                          (seq 0 (ndim x)))) = true).
  { intros t Ht. apply Nat.eqb_eq. unfold ndim at 1.
    rewrite Ht. apply length_drop_axes. }
  rewrite (Hnd gamma Hg), (Hnd beta Hb). cbn [andb negb].
  assert (Hothers : forallb (fun t => ndim t =?
                      length (filter (fun i => negb (mem i axes))
                                     (seq 0 (ndim x)))) others = true).
  { apply forallb_forall. intros t Ht.
    apply Hnd. rewrite Forall_forall in Ho. now apply Ho. }
  rewrite Hothers. cbn [negb].
  destruct (Rlt_dec _ Theano.epsilon_min); [lra | reflexivity].
Qed.

Lemma size_kept_dropped (axes : list nat) (sh : list nat) (i : nat) :
  size (kept_shape axes i sh) = size (drop_axes axes i sh).
Proof.
  revert i. induction sh as [| d sh IH]; intros i; [reflexivity | ].
  cbn [drop_axes kept_shape]. destruct (mem i axes); cbn [size fold_right];
    change (fold_right Nat.mul 1) with size; rewrite IH; lia.
Qed.

Section Forward.

Variables (x gamma beta rm rv : tensor) (axes : list nat) (epsilon factor : R).

Hypothesis Haxes : axes <> [].
Hypothesis Hvalid : valid_axes axes (ndim x) = true.
Hypothesis Hgamma : shape gamma = drop_axes axes 0 (shape x).
Hypothesis Hbeta : shape beta = drop_axes axes 0 (shape x).
Hypothesis Hrm : shape rm = drop_axes axes 0 (shape x).
Hypothesis Hrv : shape rv = drop_axes axes 0 (shape x).
Hypothesis Hepsilon : (Theano.epsilon_min <= Float.float32 epsilon)%R.

Lemma theano_train_succeeds :
  (INR (size (shape x)) / INR (size (drop_axes axes 0 (shape x))) <> 1)%R ->
  exists out mean_ invstd_ new_rm new_rv,
    Theano.batch_normalization_train x gamma beta (Theano.Axes axes) epsilon
                                     factor (Some (rm, rv))
    = Ok (out, mean_, invstd_, Some (new_rm, new_rv)) /\
    shape out = shape x /\
    shape new_rm = drop_axes axes 0 (shape x) /\
    shape new_rv = drop_axes axes 0 (shape x).
Proof.
  intros Hone.
  unfold Theano.batch_normalization_train.
  rewrite (@checked_succeeds x gamma beta [rm; rv] axes epsilon); auto.
  cbn [bind]. unfold Theano.place, Theano.unplace.
  unfold mean at 1. rewrite Hvalid. cbn [bind].
  destruct (var_succeeds axes x Hvalid) as [v [-> Hvs]]. cbn [bind].
  unfold Theano.normalize_train, sub, mul, add.
  destruct (@elemwise_with_statistic Rminus axes (shape x) x (mean_keep axes x))
    as [c [-> Hc]]; auto.
  cbn [bind].
  destruct (@elemwise_with_statistic Rmult axes (shape x) c
              (expand_dims axes (ndim x) gamma)) as [w [-> Hw]];
    auto using expand_dims_shape.
  cbn [bind].
  destruct (@elemwise_with_statistic Rmult axes (shape x) w
              (inv (tsqrt (shift epsilon v)))) as [sc [-> Hsc]]; auto.
  cbn [bind].
  destruct (@elemwise_with_statistic Rplus axes (shape x) sc
              (expand_dims axes (ndim x) beta)) as [out [-> Hout]];
    auto using expand_dims_shape.
  cbn [bind].
  destruct (@TheanoFacts.running_average_entries factor
              (expand_dims axes (ndim x) rm) (mean_keep axes x))
    as [nm [-> [Hnm _]]].
  { rewrite expand_dims_shape by exact Hrm. reflexivity. }
  cbn [bind]. unfold Float.div.
  destruct (Req_EM_T _ 0) as [Hzero | _].
  { exfalso. apply Hone.
    rewrite TensorFacts.mean_keep_shape, size_kept_dropped in Hzero. lra. }
  cbn [bind].
  destruct (@TheanoFacts.running_average_entries factor
              (expand_dims axes (ndim x) rv)
              (scale (INR (size (shape x))
                      / INR (size (shape (mean_keep axes x)))
                      / (INR (size (shape x))
                         / INR (size (shape (mean_keep axes x))) - 1)) v))
    as [nv [-> [Hnv _]]].
  { rewrite expand_dims_shape by exact Hrv. cbn. now rewrite Hvs. }
  cbn [bind]. do 5 eexists. split; [reflexivity | ].
  split; [exact Hout | ].
  unfold squeeze. cbn [shape]. rewrite Hnm, Hnv. cbn [scale tmap shape].
  rewrite Hvs, TensorFacts.mean_keep_shape, !drop_axes_kept. auto.
Qed.

Lemma theano_test_succeeds :
  exists out,
    Theano.batch_normalization_test x gamma beta rm rv (Theano.Axes axes)
                                    epsilon = Ok out /\
    shape out = shape x.
Proof.
  unfold Theano.batch_normalization_test.
  rewrite (@checked_succeeds x gamma beta [rm; rv] axes epsilon); auto.
  cbn [bind]. unfold Theano.place, sub, mul, div, add.
  destruct (@elemwise_with_statistic Rminus axes (shape x) x
              (expand_dims axes (ndim x) rm)) as [c [-> Hc]];
    auto using expand_dims_shape.
  cbn [bind].
  destruct (@elemwise_with_statistic Rmult axes (shape x) c
              (expand_dims axes (ndim x) gamma)) as [w [-> Hw]];
    auto using expand_dims_shape.
  cbn [bind].
  destruct (@elemwise_with_statistic Rdiv axes (shape x) w
              (tsqrt (shift epsilon (expand_dims axes (ndim x) rv))))
    as [sc [-> Hsc]]; auto.
  { cbn. now apply expand_dims_shape. }
  cbn [bind].
  destruct (@elemwise_with_statistic Rplus axes (shape x) sc
              (expand_dims axes (ndim x) beta)) as [out [-> Hout]];
    auto using expand_dims_shape.
  eauto.
Qed.

End Forward.

(** A [BatchNormLayer] whose parameters and running statistics fit an input
    never fails on it, and stays fit.  When the normalization axes exist in
    the input, [gamma], [beta] and the running statistics have the shape of
    the input without these axes, [epsilon] as cast to [float32] is at least
    [1e-5], in training mode the batch does not have exactly one entry per
    statistic, and the activation is one that keeps shapes, then the forward
    pass succeeds, the output has the shape of the input, and the layer left
    behind holds parameters and running statistics of the same shapes, so that
    the next pass over an input of this shape succeeds as well. *)
Theorem batch_norm_forward_succeeds (l : BatchNormLayer.t) (x : tensor) :
  let stat := drop_axes (BatchNormLayer.axes l) 0 (shape x) in
  BatchNormLayer.axes l <> [] ->
  valid_axes (BatchNormLayer.axes l) (ndim x) = true ->
  shape (BatchNormLayer.gamma l) = stat ->
  shape (BatchNormLayer.beta l) = stat ->
  shape (BatchNormLayer.running_mean l) = stat ->
  shape (BatchNormLayer.running_var l) = stat ->
  (Theano.epsilon_min <= Float.float32 (BatchNormLayer.epsilon l))%R ->
  (BatchNormLayer.training_flag l = true ->
   (INR (size (shape x)) / INR (size stat) <> 1)%R) ->
  (forall t, exists y,
      Utils.call (BatchNormLayer.activation l) (BatchNormLayer.call_kwargs l) t
      = Ok y /\ shape y = shape t) ->
  exists y l',
    BatchNormLayer.get_output l x = Ok (y, l') /\
    shape y = shape x /\
    BatchNormLayer.axes l' = BatchNormLayer.axes l /\
    BatchNormLayer.epsilon l' = BatchNormLayer.epsilon l /\
    BatchNormLayer.activation l' = BatchNormLayer.activation l /\
    BatchNormLayer.call_kwargs l' = BatchNormLayer.call_kwargs l /\
    shape (BatchNormLayer.gamma l') = stat /\
    shape (BatchNormLayer.beta l') = stat /\
    shape (BatchNormLayer.running_mean l') = stat /\
    shape (BatchNormLayer.running_var l') = stat.
Proof.
  intros stat Hax Hv Hg Hb Hrm Hrv He Hone Hact.
  unfold BatchNormLayer.get_output.
  destruct (BatchNormLayer.training_flag l).
  - specialize (Hone eq_refl).
    unfold BatchNormLayer.batch_normalization_train.
    destruct (@theano_train_succeeds x (BatchNormLayer.gamma l)
                (BatchNormLayer.beta l) (BatchNormLayer.running_mean l)
                (BatchNormLayer.running_var l) (BatchNormLayer.axes l)
                (BatchNormLayer.epsilon l)
                (BatchNormLayer.running_average_factor l))
      as [out [m [i [nm [nv [-> [Hout [Hnm Hnv]]]]]]]]; auto.
    cbn [bind].
    destruct (Hact out) as [y [-> Hy]]. cbn [bind].
    do 2 eexists. split; [reflexivity | ].
    cbn. repeat split; auto; congruence.
  - destruct (@theano_test_succeeds x (BatchNormLayer.gamma l)
                (BatchNormLayer.beta l) (BatchNormLayer.running_mean l)
                (BatchNormLayer.running_var l) (BatchNormLayer.axes l)
                (BatchNormLayer.epsilon l))
      as [out [Ho Hout]]; auto.
    unfold BatchNormLayer.batch_normalization_test. rewrite Ho. cbn [bind].
    destruct (Hact out) as [y [-> Hy]]. cbn [bind].
    do 2 eexists. split; [reflexivity | ].
    repeat split; auto; congruence.
Qed.

End ShapeFacts.

(** ** The smallest [epsilon] *)

Module EpsilonFacts.
Import Tensor.

(** An [epsilon] below the bound stays below it when cast. *)
Lemma cast_below_minimum (epsilon : R) :
  (epsilon < Theano.epsilon_min)%R ->
  (Float.float32 epsilon < Theano.epsilon_min)%R.
Proof.
  unfold Theano.epsilon_min. intros He.
  apply FloatFacts.float32_below_minimum. lra.
Qed.

Lemma checked_small_epsilon (x gamma beta : tensor) (others : list tensor)
      (spec : Theano.axes_spec) (epsilon : R) :
  (epsilon < Theano.epsilon_min)%R ->
  exists e, Theano.checked x gamma beta others spec epsilon = Raise e.
Proof.
  intros He. unfold Theano.checked.
  destruct (Theano.prepare_axes spec (ndim x)) as [[a nb] | e]; cbn [bind];
    [ | eauto].
  destruct (negb _); [eauto | ].
  destruct (negb _); [eauto | ].
  destruct (Rlt_dec _ Theano.epsilon_min) as [_ | Hn]; [eauto | ].
  destruct Hn. now apply cast_below_minimum.
Qed.

(** The constructors take any [epsilon], but Theano refuses one below [1e-5]:
    a [BatchNormLayer] or a [BatchRenormLayer] built with a smaller [epsilon]
    fails on every input, in training mode and in test mode; when axes and
    parameters fit the input, the exception is the [ValueError] of this
    check. *)
Theorem epsilon_below_minimum
        (l : BatchNormLayer.t) (r_max d_max : R) (x : tensor) :
  (BatchNormLayer.epsilon l < Theano.epsilon_min)%R ->
  is_ok (BatchNormLayer.get_output l x) = false /\
  is_ok (BatchRenormLayer.get_output (BatchRenormLayer.mk l r_max d_max) x)
  = false /\
  (BatchNormLayer.axes l <> [] ->
   valid_axes (BatchNormLayer.axes l) (ndim x) = true ->
   shape (BatchNormLayer.gamma l) = drop_axes (BatchNormLayer.axes l) 0 (shape x) ->
   shape (BatchNormLayer.beta l) = drop_axes (BatchNormLayer.axes l) 0 (shape x) ->
   shape (BatchNormLayer.running_mean l)
   = drop_axes (BatchNormLayer.axes l) 0 (shape x) ->
   shape (BatchNormLayer.running_var l)
   = drop_axes (BatchNormLayer.axes l) 0 (shape x) ->
   BatchNormLayer.get_output l x
   = Raise (ValueError "epsilon must be at least 1e-5")).
Proof.
  intros He. split; [ | split].
  - unfold BatchNormLayer.get_output,
      BatchNormLayer.batch_normalization_train,
      BatchNormLayer.batch_normalization_test,
      Theano.batch_normalization_train, Theano.batch_normalization_test.
    destruct (BatchNormLayer.training_flag l).
    + destruct (@checked_small_epsilon x (BatchNormLayer.gamma l)
                  (BatchNormLayer.beta l)
                  [BatchNormLayer.running_mean l; BatchNormLayer.running_var l]
                  (Theano.Axes (BatchNormLayer.axes l))
                  (BatchNormLayer.epsilon l) He) as [e ->].
      reflexivity.
    + destruct (@checked_small_epsilon x (BatchNormLayer.gamma l)
                  (BatchNormLayer.beta l)
                  [BatchNormLayer.running_mean l; BatchNormLayer.running_var l]
                  (Theano.Axes (BatchNormLayer.axes l))
                  (BatchNormLayer.epsilon l) He) as [e ->].
      reflexivity.
  - unfold BatchRenormLayer.get_output. cbn [BatchRenormLayer.base].
    destruct (BatchRenormLayer.adjusted_statistics _ x)
      as [[[[bm bs] mn] vr] | e]; cbn [bind]; [ | reflexivity].
    unfold Theano.batch_normalization_test.
    destruct (@checked_small_epsilon x (BatchNormLayer.gamma l)
                (BatchNormLayer.beta l) [mn; vr]
                (Theano.Axes (BatchNormLayer.axes l))
                (BatchNormLayer.epsilon l) He) as [e ->].
    reflexivity.
  - intros Hne Hvalid Hg Hb Hrm Hrv.
    pose proof (@ShapeFacts.prepare_axes_succeeds (BatchNormLayer.axes l)
                  (ndim x) Hne Hvalid) as Hax.
    assert (Hchecked :
      Theano.checked x (BatchNormLayer.gamma l) (BatchNormLayer.beta l)
        [BatchNormLayer.running_mean l; BatchNormLayer.running_var l]
        (Theano.Axes (BatchNormLayer.axes l)) (BatchNormLayer.epsilon l)
      = Raise (ValueError "epsilon must be at least 1e-5")).
    { unfold Theano.checked. rewrite Hax. cbn [bind].
      assert (Hnd : forall t,
                shape t = drop_axes (BatchNormLayer.axes l) 0 (shape x) ->
                ndim t = length (filter
                           (fun i => negb (mem i (BatchNormLayer.axes l)))
                           (seq 0 (ndim x)))).
      { intros t Ht. unfold ndim at 1. rewrite Ht.
        apply ShapeFacts.length_drop_axes. }
      destruct (ndim (BatchNormLayer.gamma l) =? ndim x) eqn:Hfull.
      - apply Nat.eqb_eq in Hfull.
        rewrite <- Hfull.
        assert (Hsame : forall t,
                  shape t = drop_axes (BatchNormLayer.axes l) 0 (shape x) ->
                  (ndim t =? ndim (BatchNormLayer.gamma l)) = true).
        { intros t Ht. apply Nat.eqb_eq.
          now rewrite (Hnd t Ht), (Hnd _ Hg). }
        cbn [forallb].
        rewrite Nat.eqb_refl, (Hsame _ Hb), (Hsame _ Hrm), (Hsame _ Hrv).
        cbn [andb negb].
        destruct (Rlt_dec _ Theano.epsilon_min) as [_ | Hn]; [reflexivity | ].
        destruct Hn. now apply cast_below_minimum.
      - assert (Hsame : forall t,
                  shape t = drop_axes (BatchNormLayer.axes l) 0 (shape x) ->
                  (ndim t =? length (filter
                             (fun i => negb (mem i (BatchNormLayer.axes l)))
                             (seq 0 (ndim x)))) = true).
        { intros t Ht. apply Nat.eqb_eq. now apply Hnd. }
        cbn [forallb].
        rewrite (Hsame _ Hg), (Hsame _ Hb), (Hsame _ Hrm), (Hsame _ Hrv).
        cbn [andb negb].
        destruct (Rlt_dec _ Theano.epsilon_min) as [_ | Hn]; [reflexivity | ].
        destruct Hn. now apply cast_below_minimum. }
    unfold BatchNormLayer.get_output,
      BatchNormLayer.batch_normalization_train,
      BatchNormLayer.batch_normalization_test,
      Theano.batch_normalization_train, Theano.batch_normalization_test.
    rewrite Hchecked. now destruct (BatchNormLayer.training_flag l).
Qed.

(** [AdaptiveInstanceNorm2DLayer] stores an [epsilon] and never uses it: the
    output of a forward pass is the same whatever [epsilon] the layer was
    built with (Theano's default applies). *)
Theorem adaptive_instance_norm_ignores_epsilon
        (base : Layer.t) (epsilon epsilon' : R) (x params : tensor) :
  value_of (AdaptiveInstanceNorm2DLayer.get_output
              (AdaptiveInstanceNorm2DLayer.mk base epsilon) x params)
  = value_of (AdaptiveInstanceNorm2DLayer.get_output
                (AdaptiveInstanceNorm2DLayer.mk base epsilon') x params).
Proof.
  unfold AdaptiveInstanceNorm2DLayer.get_output,
    AdaptiveInstanceNorm2DLayer.input_shape.
  cbn [AdaptiveInstanceNorm2DLayer.layer].
  destruct (negb _); [reflexivity | ].
  match goal with |- context [bind ?r _] => destruct r as [[sc bi] | e] end;
    cbn [bind]; [ | reflexivity].
  destruct (Theano.batch_normalization_train _ _ _ _ _ _ _)
    as [[[[o m] i] u] | e]; reflexivity.
Qed.

(** [GroupNormLayer.reset], which the instance and the layer normalization
    inherit, ends like the one of the batch normalization: [gamma] and [beta]
    are given their initial values, and the lookup of ['prelu'] in
    [utils.function] raises [KeyError] before the coefficient of a parametric
    activation is touched. *)
Theorem group_norm_reset_raises (l : GroupNormLayer.t) :
  snd (GroupNormLayer.reset l) = Raise (KeyError "prelu") /\
  GroupNormLayer.gamma (fst (GroupNormLayer.reset l))
  = GroupNormLayer.gamma_values l /\
  GroupNormLayer.beta (fst (GroupNormLayer.reset l))
  = GroupNormLayer.beta_values l /\
  GroupNormLayer.alpha (fst (GroupNormLayer.reset l)) = GroupNormLayer.alpha l /\
  GroupNormLayer.groups (fst (GroupNormLayer.reset l)) = GroupNormLayer.groups l /\
  GroupNormLayer.epsilon (fst (GroupNormLayer.reset l))
  = GroupNormLayer.epsilon l.
Proof.
  unfold GroupNormLayer.reset. rewrite StateFacts.function_has_no_prelu.
  cbn. repeat split.
Qed.

End EpsilonFacts.

(** ** The mean of a normalized batch *)

Module MeanFacts.
Import Tensor.

Lemma size_positive (sh : list nat) : size sh <> 0 -> Forall (lt 0) sh.
Proof.
  induction sh as [| d sh IH]; intros H; constructor.
  - cbn in H. destruct d; [now cbn in H | lia].
  - apply IH. cbn in H. intros H0. change (fold_right Nat.mul 1 sh) with (size sh) in H.
    rewrite H0 in H. lia.
Qed.

Lemma positive_size (sh : list nat) : Forall (lt 0) sh -> size sh <> 0.
Proof.
  induction 1 as [| d sh Hd _ IH]; cbn; [lia | ].
  change (fold_right Nat.mul 1 sh) with (size sh). nia.
Qed.

Lemma unravel_in_range (sh : list nat) (k : nat) :
  Forall (lt 0) sh -> Forall2 lt (unravel sh k) sh.
Proof.
  induction 1 as [| d sh Hd _ IH]; cbn; constructor; [ | exact IH].
  apply Nat.mod_upper_bound. lia.
Qed.

Lemma ravel_lt (sh idx : list nat) :
  Forall2 lt idx sh -> ravel sh idx < size sh.
Proof.
  induction 1 as [| i d idx sh Hi _ IH]; cbn; [lia | ].
  change (fold_right Nat.mul 1 sh) with (size sh). nia.
Qed.

Lemma unravel_shift (sh : list nat) (a r : nat) :
  unravel sh (a * size sh + r) = unravel sh r.
Proof.
  revert a. induction sh as [| d sh IH]; intros a; [reflexivity | ].
  cbn [unravel size fold_right].
  change (fold_right Nat.mul 1 sh) with (size sh).
  replace (a * (d * size sh) + r) with (a * d * size sh + r) by lia.
  rewrite IH. f_equal.
  destruct (Nat.eq_dec (size sh) 0) as [H0 | H0].
  - rewrite H0. cbn. reflexivity.
  - rewrite Nat.div_add_l by exact H0.
    rewrite Nat.add_comm, Nat.Div0.mod_add. reflexivity.
Qed.

Lemma unravel_ravel (sh idx : list nat) :
  Forall2 lt idx sh -> unravel sh (ravel sh idx) = idx.
Proof.
  induction 1 as [| i d idx sh Hi Hrest IH]; [reflexivity | ].
  cbn [unravel ravel].
  rewrite unravel_shift, IH. f_equal.
  pose proof (ravel_lt Hrest) as Hr.
  rewrite Nat.div_add_l by lia.
  rewrite Nat.div_small by exact Hr.
  rewrite Nat.add_0_r. now apply Nat.mod_small.
Qed.

Lemma clamp_in_range (sh idx : list nat) :
  Forall2 lt idx sh -> clamp sh idx = idx.
Proof.
  induction 1 as [| i d idx sh Hi _ IH]; [reflexivity | ].
  cbn [clamp]. rewrite IH.
  destruct (Nat.eqb_spec d 1) as [-> | _]; [f_equal; lia | reflexivity].
Qed.

(** A position of a statistic and a position within its block add up to a
    position of the array, and the statistic that takes part there is the one
    at the first of the two. *)
Lemma block_position (axes : list nat) (sh : list nat) :
  forall (i : nat) (idx b : list nat),
    Forall2 lt idx (kept_shape axes i sh) ->
    Forall2 lt b (block_shape axes i sh) ->
    Forall2 lt (idx_add idx b) sh /\
    clamp (kept_shape axes i sh) (idx_add idx b) = idx.
Proof.
  induction sh as [| d sh IH]; intros i idx b Hidx Hb; cbn in *.
  - inversion Hidx; subst. inversion Hb; subst. cbn. split; constructor.
  - inversion Hidx as [| i0 k0 idx' ksh' Hi Hidx']; subst.
    inversion Hb as [| b0 k1 b' blk' Hb0 Hb']; subst.
    destruct (IH (S i) idx' b' Hidx' Hb') as [Hr Hc].
    cbn [idx_add clamp]. rewrite Hc.
    destruct (mem i axes).
    + split; [constructor; [lia | exact Hr] | ].
      cbn. f_equal. lia.
    + split; [constructor; [lia | exact Hr] | ].
      destruct (Nat.eqb_spec d 1) as [-> | _]; f_equal; lia.
Qed.

Lemma kept_positive (axes : list nat) (sh : list nat) (i : nat) :
  Forall (lt 0) sh -> Forall (lt 0) (kept_shape axes i sh).
Proof.
  intros H. revert i. induction H as [| d sh Hd _ IH]; intros i; cbn;
    constructor; [destruct (mem i axes); lia | apply IH].
Qed.

Lemma block_positive (axes : list nat) (sh : list nat) (i : nat) :
  Forall (lt 0) sh -> Forall (lt 0) (block_shape axes i sh).
Proof.
  intros H. revert i. induction H as [| d sh Hd _ IH]; intros i; cbn;
    constructor; [destruct (mem i axes); lia | apply IH].
Qed.

Lemma tget_tbuild (sh : list nat) (F : list nat -> R) (idx : list nat) :
  Forall2 lt idx sh -> tget (tbuild sh F) idx = F idx.
Proof.
  intros H. unfold tget. cbn [shape].
  rewrite TensorFacts.nth_tbuild by now apply ravel_lt.
  now rewrite unravel_ravel.
Qed.

Lemma bget_full (t : tensor) (idx : list nat) :
  Forall2 lt idx (shape t) -> bget t (ndim t) idx = tget t idx.
Proof.
  intros H. unfold bget, tget, ndim.
  now rewrite TensorFacts.pad_same, clamp_in_range.
Qed.

Lemma bget_statistic (axes : list nat) (sh : list nat) (k : tensor)
      (idx b : list nat) :
  shape k = kept_shape axes 0 sh ->
  Forall2 lt idx (kept_shape axes 0 sh) ->
  Forall2 lt b (block_shape axes 0 sh) ->
  bget k (length sh) (idx_add idx b) = tget k idx.
Proof.
  intros Hk Hidx Hb. unfold bget, tget. rewrite Hk.
  replace (pad (length sh) (kept_shape axes 0 sh)) with (kept_shape axes 0 sh)
    by (unfold pad; now rewrite TensorFacts.kept_shape_length, Nat.sub_diag).
  now rewrite (proj2 (block_position axes sh 0 Hidx Hb)).
Qed.

Lemma elemwise_statistic (f : R -> R -> R) (axes : list nat) (x k : tensor) :
  shape k = kept_shape axes 0 (shape x) ->
  elemwise f x k
  = Ok (tbuild (shape x)
               (fun idx => f (bget x (ndim x) idx) (bget k (ndim x) idx))).
Proof.
  intros Hk. unfold elemwise, ndim.
  rewrite Hk, TensorFacts.kept_shape_length, Nat.max_id, TensorFacts.pad_same.
  replace (pad (length (shape x)) (kept_shape axes 0 (shape x)))
    with (kept_shape axes 0 (shape x))
    by (unfold pad; now rewrite TensorFacts.kept_shape_length, Nat.sub_diag).
  now rewrite TensorFacts.bshape_kept.
Qed.

Lemma rsum_affine (a m c : R) (u : nat -> R) (l : list nat) :
  rsum (map (fun k => (u k - m) * a + c)%R l)
  = ((rsum (map u l) - INR (length l) * m) * a + INR (length l) * c)%R.
Proof.
  induction l as [| k l IH].
  - cbn. ring.
  - cbn [map rsum fold_right length]. fold (rsum (map u l)).
    fold (rsum (map (fun k => (u k - m) * a + c)%R l)).
    rewrite IH, S_INR. ring.
Qed.

(** The entries of [(inputs - mean) * gamma * invstd + beta] when the four
    statistics have kept their axes. *)
Lemma normalize_train_entries (axes : list nat) (x g b m s out : tensor)
      (idx bk : list nat) :
  shape g = kept_shape axes 0 (shape x) ->
  shape b = kept_shape axes 0 (shape x) ->
  shape m = kept_shape axes 0 (shape x) ->
  shape s = kept_shape axes 0 (shape x) ->
  Theano.normalize_train x g b m s = Ok out ->
  Forall2 lt idx (kept_shape axes 0 (shape x)) ->
  Forall2 lt bk (block_shape axes 0 (shape x)) ->
  shape out = shape x /\
  tget out (idx_add idx bk)
  = ((tget x (idx_add idx bk) - tget m idx) * tget g idx * tget s idx
     + tget b idx)%R.
Proof.
  intros Hg Hb Hm Hs Hout Hidx Hbk.
  destruct (block_position axes (shape x) 0 Hidx Hbk) as [Hin _].
  revert Hout. unfold Theano.normalize_train, sub, mul, add.
  rewrite (@elemwise_statistic Rminus axes x m Hm). cbn [bind].
  rewrite (@elemwise_statistic Rmult axes (tbuild (shape x) _) g Hg).
  cbn [bind].
  rewrite (@elemwise_statistic Rmult axes (tbuild (shape x) _) s Hs).
  cbn [bind].
  rewrite (@elemwise_statistic Rplus axes (tbuild (shape x) _) b Hb).
  intros [= <-]. split; [reflexivity | ].
  cbn [shape tbuild].
  rewrite tget_tbuild by exact Hin.
  unfold ndim. cbn [shape tbuild].
  rewrite (bget_statistic axes (shape x) b Hb Hidx Hbk).
  rewrite (@bget_full (tbuild (shape x) _) (idx_add idx bk)) by exact Hin.
  rewrite tget_tbuild by exact Hin.
  unfold ndim. cbn [shape tbuild].
  rewrite (bget_statistic axes (shape x) s Hs Hidx Hbk).
  rewrite (@bget_full (tbuild (shape x) _) (idx_add idx bk)) by exact Hin.
  rewrite tget_tbuild by exact Hin.
  unfold ndim. cbn [shape tbuild].
  rewrite (bget_statistic axes (shape x) g Hg Hidx Hbk).
  rewrite (@bget_full (tbuild (shape x) _) (idx_add idx bk)) by exact Hin.
  rewrite tget_tbuild by exact Hin.
  fold (ndim x).
  rewrite (bget_full x Hin).
  unfold ndim. rewrite (bget_statistic axes (shape x) m Hm Hidx Hbk).
  reflexivity.
Qed.

Lemma mean_keep_entry (axes : list nat) (t : tensor) (j : nat) :
  j < size (kept_shape axes 0 (shape t)) ->
  nth j (data (mean_keep axes t)) 0%R
  = (rsum (map (fun k =>
                  tget t (idx_add (unravel (kept_shape axes 0 (shape t)) j)
                                  (unravel (block_shape axes 0 (shape t)) k)))
               (seq 0 (size (block_shape axes 0 (shape t)))))
     / INR (size (block_shape axes 0 (shape t))))%R.
Proof.
  intros Hj. unfold mean_keep, tmap, count. cbn [data].
  rewrite TensorFacts.nth_map_in
    by (unfold sum_keep, tbuild; cbn [data];
        now rewrite length_map, length_seq).
  unfold sum_keep. now rewrite TensorFacts.nth_tbuild.
Qed.

Lemma tget_unravel (t : tensor) (j : nat) :
  j < size (shape t) -> tget t (unravel (shape t) j) = nth j (data t) 0%R.
Proof.
  intros Hj. unfold tget.
  now rewrite TensorFacts.ravel_unravel, Nat.mod_small.
Qed.

(** The mean of [(inputs - mean) * gamma * invstd + beta] over the
    normalization axes is [beta], entry by entry. *)
Lemma normalize_train_mean (axes : list nat) (x g b s out : tensor) :
  size (shape x) <> 0 ->
  shape g = kept_shape axes 0 (shape x) ->
  shape b = kept_shape axes 0 (shape x) ->
  shape s = kept_shape axes 0 (shape x) ->
  Theano.normalize_train x g b (mean_keep axes x) s = Ok out ->
  shape out = shape x /\
  forall j, j < size (kept_shape axes 0 (shape x)) ->
    nth j (data (mean_keep axes out)) 0%R = nth j (data b) 0%R.
Proof.
  intros Hsize Hg Hb Hs Hout.
  pose proof (@size_positive (shape x) Hsize) as Hpos.
  pose proof (@kept_positive axes (shape x) 0 Hpos) as Hkpos.
  pose proof (@block_positive axes (shape x) 0 Hpos) as Hbpos.
  assert (Hshape : shape out = shape x).
  { apply (@normalize_train_entries axes x g b (mean_keep axes x) s out
             (unravel (kept_shape axes 0 (shape x)) 0)
             (unravel (block_shape axes 0 (shape x)) 0)); auto;
      now apply unravel_in_range. }
  split; [exact Hshape | ].
  intros j Hj.
  rewrite mean_keep_entry by (rewrite Hshape; exact Hj).
  rewrite Hshape.
  set (ksh := kept_shape axes 0 (shape x)) in *.
  set (blk := block_shape axes 0 (shape x)) in *.
  set (idx := unravel ksh j).
  assert (Hidx : Forall2 lt idx ksh) by now apply unravel_in_range.
  assert (Hcount : INR (size blk) <> 0%R).
  { apply not_0_INR. now apply positive_size. }
  assert (Hm : tget (mean_keep axes x) idx
               = (rsum (map (fun k => tget x (idx_add idx (unravel blk k)))
                            (seq 0 (size blk))) / INR (size blk))%R).
  { unfold idx, ksh.
    rewrite <- (TensorFacts.mean_keep_shape axes x).
    rewrite tget_unravel by (rewrite TensorFacts.mean_keep_shape; exact Hj).
    now rewrite mean_keep_entry by exact Hj. }
  rewrite (map_ext_in
             (fun k => tget out (idx_add idx (unravel blk k)))
             (fun k => ((tget x (idx_add idx (unravel blk k))
                         - tget (mean_keep axes x) idx)
                        * (tget g idx * tget s idx) + tget b idx)%R)).
  2: { intros k _.
       destruct (@normalize_train_entries axes x g b (mean_keep axes x) s out
                   idx (unravel blk k)) as [_ He]; auto.
       { now apply unravel_in_range. }
       rewrite He. ring. }
  rewrite (rsum_affine (tget g idx * tget s idx)
             (tget (mean_keep axes x) idx) (tget b idx)
             (fun k => tget x (idx_add idx (unravel blk k)))).
  rewrite length_seq, Hm.
  replace (tget b idx) with (nth j (data b) 0%R).
  - field. exact Hcount.
  - subst idx ksh. rewrite <- Hb. symmetry. apply tget_unravel.
    rewrite Hb. exact Hj.
Qed.

Lemma size_drop_axes (axes : list nat) (sh : list nat) (i : nat) :
  size (drop_axes axes i sh) = size (kept_shape axes i sh).
Proof.
  revert i. induction sh as [| d sh IH]; intros i; [reflexivity | ].
  cbn [drop_axes kept_shape]. destruct (mem i axes); cbn [size fold_right];
    change (fold_right Nat.mul 1) with size; rewrite IH; lia.
Qed.

(** Training mode centres the batch on [beta].  When a [BatchNormLayer] in
    training mode, with an activation that hands its input on (['linear']),
    succeeds on a batch that is not empty, the mean of the output over the
    normalization axes is [beta], exactly and whatever [gamma], [epsilon] and
    the running statistics are. *)
Theorem batch_norm_train_output_mean
        (l l' : BatchNormLayer.t) (x out : tensor) :
  let axes := BatchNormLayer.axes l in
  BatchNormLayer.training_flag l = true ->
  (forall t, Utils.call (BatchNormLayer.activation l)
                        (BatchNormLayer.call_kwargs l) t = Ok t) ->
  BatchNormLayer.get_output l x = Ok (out, l') ->
  axes <> [] ->
  size (shape x) <> 0 ->
  shape (BatchNormLayer.gamma l) = drop_axes axes 0 (shape x) ->
  shape (BatchNormLayer.beta l) = drop_axes axes 0 (shape x) ->
  well_formed (BatchNormLayer.beta l) ->
  shape out = shape x /\
  mean axes true out
  = Ok (expand_dims axes (ndim x) (BatchNormLayer.beta l)).
Proof.
  intros axes Hflag Hact Hout Hne Hsize Hg Hb Hwf.
  revert Hout. unfold BatchNormLayer.get_output. rewrite Hflag.
  unfold BatchNormLayer.batch_normalization_train.
  destruct (Theano.batch_normalization_train x (BatchNormLayer.gamma l)
              (BatchNormLayer.beta l) (Theano.Axes (BatchNormLayer.axes l))
              (BatchNormLayer.epsilon l)
              (BatchNormLayer.running_average_factor l)
              (Some (BatchNormLayer.running_mean l,
                     BatchNormLayer.running_var l)))
    as [[[[o m] i] u] | e] eqn:Ht; cbn [bind]; [ | discriminate].
  apply TheanoFacts.batch_normalization_train_running in Ht
    as [v [nm [nv [Hvalid [Hvar [Hnorm _]]]]]].
  fold axes in Hvalid, Hvar, Hnorm.
  assert (Hfull : (ndim (BatchNormLayer.gamma l) =? ndim x) = false).
  { apply Nat.eqb_neq. unfold ndim at 1. rewrite Hg.
    pose proof (@ShapeFacts.drop_axes_shorter axes (shape x) Hne Hvalid).
    unfold ndim. lia. }
  rewrite Hfull in Hnorm. unfold Theano.place in Hnorm.
  destruct (@normalize_train_mean axes x
              (expand_dims axes (ndim x) (BatchNormLayer.gamma l))
              (expand_dims axes (ndim x) (BatchNormLayer.beta l))
              (inv (tsqrt (shift (BatchNormLayer.epsilon l) v))) o)
    as [Hshape Hentries]; auto using ShapeFacts.expand_dims_shape.
  { cbn. now apply TensorFacts.var_keep_shape. }
  assert (Hres : shape o = shape x /\
                 mean axes true o
                 = Ok (expand_dims axes (ndim x) (BatchNormLayer.beta l))).
  { split; [exact Hshape | ].
    unfold mean.
    replace (ndim o) with (ndim x) by (unfold ndim; now rewrite Hshape).
    rewrite Hvalid. f_equal.
    assert (Hlen : length (data (BatchNormLayer.beta l))
                   = size (kept_shape axes 0 (shape x))).
    { rewrite Hwf, Hb. apply size_drop_axes. }
    unfold mean_keep, tmap, expand_dims. f_equal.
    - cbn [shape sum_keep tbuild]. rewrite Hshape, Hb.
      unfold ndim. symmetry. apply TensorFacts.expanded_dropped.
    - apply nth_ext with (d := 0%R) (d' := 0%R).
      + rewrite length_map. unfold sum_keep, tbuild. cbn [data].
        now rewrite length_map, length_seq, Hshape, Hlen.
      + intros j Hj.
        rewrite length_map in Hj. unfold sum_keep, tbuild in Hj.
        cbn [data] in Hj. rewrite length_map, length_seq, Hshape in Hj.
        exact (Hentries j Hj). }
  destruct u as [[mean_ var_] | ]; cbn [bind]; rewrite Hact; cbn [bind];
    intros [= <- _]; exact Hres.
Qed.

Lemma centred_entries (axes : list nat) (x s c z : tensor)
      (idx bk : list nat) :
  shape s = kept_shape axes 0 (shape x) ->
  sub x (mean_keep axes x) = Ok c ->
  div c s = Ok z ->
  Forall2 lt idx (kept_shape axes 0 (shape x)) ->
  Forall2 lt bk (block_shape axes 0 (shape x)) ->
  shape z = shape x /\
  tget z (idx_add idx bk)
  = ((tget x (idx_add idx bk) - tget (mean_keep axes x) idx) / tget s idx)%R.
Proof.
  intros Hs Hc Hz Hidx Hbk.
  destruct (block_position axes (shape x) 0 Hidx Hbk) as [Hin _].
  revert Hc Hz. unfold sub, div.
  rewrite (@elemwise_statistic Rminus axes x (mean_keep axes x) eq_refl).
  intros [= <-].
  rewrite (@elemwise_statistic Rdiv axes (tbuild (shape x) _) s Hs).
  intros [= <-]. split; [reflexivity | ].
  cbn [shape tbuild].
  rewrite tget_tbuild by exact Hin.
  unfold ndim. cbn [shape tbuild].
  rewrite (bget_statistic axes (shape x) s Hs Hidx Hbk).
  rewrite (@bget_full (tbuild (shape x) _) (idx_add idx bk)) by exact Hin.
  rewrite tget_tbuild by exact Hin.
  fold (ndim x). rewrite (bget_full x Hin).
  unfold ndim.
  now rewrite (@bget_statistic axes (shape x) (mean_keep axes x) idx bk
                 eq_refl Hidx Hbk).
Qed.

(** An array centred on its own means and divided by a statistic has mean
    zero along the axes of the statistics. *)
Lemma centred_mean_zero (axes : list nat) (x s c z : tensor) :
  size (shape x) <> 0 ->
  shape s = kept_shape axes 0 (shape x) ->
  sub x (mean_keep axes x) = Ok c ->
  div c s = Ok z ->
  shape z = shape x /\
  mean_keep axes z = zeros (kept_shape axes 0 (shape x)).
Proof.
  intros Hsize Hs Hc Hz.
  pose proof (@size_positive (shape x) Hsize) as Hpos.
  pose proof (@kept_positive axes (shape x) 0 Hpos) as Hkpos.
  pose proof (@block_positive axes (shape x) 0 Hpos) as Hbpos.
  assert (Hshape : shape z = shape x).
  { apply (@centred_entries axes x s c z
             (unravel (kept_shape axes 0 (shape x)) 0)
             (unravel (block_shape axes 0 (shape x)) 0)); auto;
      now apply unravel_in_range. }
  split; [exact Hshape | ].
  assert (Hlen : length (data (mean_keep axes z))
                 = size (kept_shape axes 0 (shape x))).
  { unfold mean_keep, tmap, sum_keep, tbuild. cbn [data shape].
    now rewrite !length_map, length_seq, Hshape. }
  assert (Hdata : data (mean_keep axes z)
                  = repeat 0%R (size (kept_shape axes 0 (shape x)))).
  { apply nth_ext with (d := 0%R) (d' := 0%R).
    - now rewrite Hlen, repeat_length.
    - intros j Hj. rewrite Hlen in Hj.
      rewrite nth_repeat.
      rewrite mean_keep_entry by (rewrite Hshape; exact Hj).
      rewrite Hshape.
      set (ksh := kept_shape axes 0 (shape x)) in *.
      set (blk := block_shape axes 0 (shape x)) in *.
      set (idx := unravel ksh j).
      assert (Hidx : Forall2 lt idx ksh) by now apply unravel_in_range.
      assert (Hcount : INR (size blk) <> 0%R).
      { apply not_0_INR. now apply positive_size. }
      assert (Hm : tget (mean_keep axes x) idx
                   = (rsum (map (fun k => tget x (idx_add idx (unravel blk k)))
                                (seq 0 (size blk))) / INR (size blk))%R).
      { subst idx ksh.
        rewrite <- (TensorFacts.mean_keep_shape axes x).
        rewrite tget_unravel by (rewrite TensorFacts.mean_keep_shape; exact Hj).
        now rewrite mean_keep_entry by exact Hj. }
      rewrite (map_ext_in
                 (fun k => tget z (idx_add idx (unravel blk k)))
                 (fun k => ((tget x (idx_add idx (unravel blk k))
                             - tget (mean_keep axes x) idx)
                            * (/ tget s idx) + 0)%R)).
      2: { intros k _.
           destruct (@centred_entries axes x s c z idx (unravel blk k))
             as [_ He]; auto.
           { now apply unravel_in_range. }
           rewrite He. unfold Rdiv. ring. }
      rewrite (rsum_affine (/ tget s idx) (tget (mean_keep axes x) idx) 0
                 (fun k => tget x (idx_add idx (unravel blk k)))).
      rewrite length_seq, Hm.
      generalize (/ tget s idx)%R. intros a. field. exact Hcount. }
  unfold zeros, full.
  destruct (mean_keep axes z) as [msh mdata] eqn:Hmk.
  cbn [data] in Hdata. subst mdata. f_equal.
  assert (Hms : shape (mean_keep axes z) = msh) by now rewrite Hmk.
  rewrite <- Hms, TensorFacts.mean_keep_shape. now rewrite Hshape.
Qed.

Lemma tget_tmap (f : R -> R) (t : tensor) (idx : list nat) :
  well_formed t -> Forall2 lt idx (shape t) ->
  tget (tmap f t) idx = f (tget t idx).
Proof.
  intros Hwf Hidx. unfold tget, tmap. cbn [shape data].
  apply TensorFacts.nth_map_in. rewrite Hwf. now apply ravel_lt.
Qed.

Lemma centred_array (axes : list nat) (x c : tensor) (idx bk : list nat) :
  sub x (mean_keep axes x) = Ok c ->
  Forall2 lt idx (kept_shape axes 0 (shape x)) ->
  Forall2 lt bk (block_shape axes 0 (shape x)) ->
  shape c = shape x /\ well_formed c /\
  tget c (idx_add idx bk)
  = (tget x (idx_add idx bk) - tget (mean_keep axes x) idx)%R.
Proof.
  intros Hc Hidx Hbk.
  destruct (block_position axes (shape x) 0 Hidx Hbk) as [Hin _].
  revert Hc. unfold sub.
  rewrite (@elemwise_statistic Rminus axes x (mean_keep axes x) eq_refl).
  intros [= <-]. split; [reflexivity | ].
  split; [apply TensorFacts.tbuild_well_formed | ].
  rewrite tget_tbuild by exact Hin.
  rewrite (bget_full x Hin). unfold ndim.
  now rewrite (@bget_statistic axes (shape x) (mean_keep axes x) idx bk
                 eq_refl Hidx Hbk).
Qed.

Lemma quotient_well_formed (axes : list nat) (c s z : tensor) :
  shape s = kept_shape axes 0 (shape c) -> div c s = Ok z -> well_formed z.
Proof.
  intros Hs. unfold div. rewrite (@elemwise_statistic Rdiv axes c s Hs).
  intros [= <-]. apply TensorFacts.tbuild_well_formed.
Qed.

Lemma rsum_nonneg (u : nat -> R) (l : list nat) :
  (forall k, 0 <= u k)%R -> (0 <= rsum (map u l))%R.
Proof.
  intros Hu. induction l as [| k l IH]; cbn; [lra | ].
  specialize (Hu k). fold (rsum (map u l)). lra.
Qed.

Lemma mean_keep_entry_at (axes : list nat) (t : tensor) (sh : list nat)
      (j : nat) :
  shape t = sh ->
  j < size (kept_shape axes 0 sh) ->
  nth j (data (mean_keep axes t)) 0%R
  = (rsum (map (fun k =>
                  tget t (idx_add (unravel (kept_shape axes 0 sh) j)
                                  (unravel (block_shape axes 0 sh) k)))
               (seq 0 (size (block_shape axes 0 sh))))
     / INR (size (block_shape axes 0 sh)))%R.
Proof. intros <-. apply mean_keep_entry. Qed.

Lemma mean_keep_well_formed (axes : list nat) (t : tensor) :
  well_formed (mean_keep axes t).
Proof.
  unfold well_formed, mean_keep, tmap, sum_keep, tbuild. cbn [data shape].
  now rewrite !length_map, length_seq.
Qed.

(** The variance that is left: an array centred on its means and divided by
    [sqrt(var + epsilon)] has, along the axes of the statistics, the mean
    square [var / (var + epsilon)]. *)
Lemma centred_variance (axes : list nat) (epsilon : R) (x c v z : tensor) :
  size (shape x) <> 0 ->
  (0 < epsilon)%R ->
  sub x (mean_keep axes x) = Ok c ->
  var axes true x = Ok v ->
  div c (tsqrt (shift epsilon v)) = Ok z ->
  mean_keep axes (sqr z) = tmap (fun u => (u / (u + epsilon))%R) v.
Proof.
  intros Hsize Heps Hc Hv Hz.
  pose proof (@size_positive (shape x) Hsize) as Hpos.
  pose proof (@kept_positive axes (shape x) 0 Hpos) as Hkpos.
  pose proof (@block_positive axes (shape x) 0 Hpos) as Hbpos.
  pose proof (TensorFacts.var_keep_shape _ _ Hv) as Hvs.
  assert (Hss : shape (tsqrt (shift epsilon v)) = kept_shape axes 0 (shape x))
    by exact Hvs.
  assert (Hcs : shape c = shape x /\ well_formed c).
  { destruct (@centred_array axes x c
                (unravel (kept_shape axes 0 (shape x)) 0)
                (unravel (block_shape axes 0 (shape x)) 0) Hc) as [H1 [H2 _]];
      auto; now apply unravel_in_range. }
  destruct Hcs as [Hcs Hcwf].
  assert (Hzs : shape z = shape x).
  { apply (@centred_entries axes x (tsqrt (shift epsilon v)) c z
             (unravel (kept_shape axes 0 (shape x)) 0)
             (unravel (block_shape axes 0 (shape x)) 0)); auto;
      now apply unravel_in_range. }
  assert (Hzwf : well_formed z).
  { apply (@quotient_well_formed axes c (tsqrt (shift epsilon v)) z);
      [now rewrite Hcs | exact Hz]. }
  assert (Hveq : v = mean_keep axes (sqr c)).
  { revert Hv. unfold var.
    destruct (valid_axes axes (ndim x)) eqn:Hvalid; [ | discriminate].
    rewrite Hc. cbn [bind]. unfold mean.
    replace (ndim (sqr c)) with (ndim x)
      by (unfold ndim, sqr; cbn; now rewrite Hcs).
    rewrite Hvalid. now intros [= <-]. }
  assert (Hvwf : well_formed v) by (rewrite Hveq; apply mean_keep_well_formed).
  assert (Hsqcs : shape (sqr c) = shape x) by exact Hcs.
  assert (Hsqzs : shape (sqr z) = shape x) by exact Hzs.
  set (ksh := kept_shape axes 0 (shape x)) in *.
  set (blk := block_shape axes 0 (shape x)) in *.
  assert (Hcount : (0 < INR (size blk))%R).
  { apply lt_0_INR. pose proof (positive_size Hbpos). lia. }
  (* the entries of the variance, and of the root it is divided by *)
  assert (Hventry : forall j, j < size ksh ->
            let idx := unravel ksh j in
            let M := tget (mean_keep axes x) idx in
            nth j (data v) 0%R
            = (rsum (map (fun k =>
                            ((tget x (idx_add idx (unravel blk k)) - M)
                             * (tget x (idx_add idx (unravel blk k)) - M))%R)
                         (seq 0 (size blk))) / INR (size blk))%R).
  { intros j Hj idx M. rewrite Hveq.
    rewrite (@mean_keep_entry_at axes (sqr c) (shape x) j Hsqcs Hj).
    fold ksh blk idx. f_equal. f_equal.
    apply map_ext_in. intros k _.
    assert (Hidx : Forall2 lt idx ksh) by now apply unravel_in_range.
    assert (Hbk : Forall2 lt (unravel blk k) blk) by now apply unravel_in_range.
    destruct (block_position axes (shape x) 0 Hidx Hbk) as [Hin _].
    unfold sqr. rewrite tget_tmap by (rewrite ?Hcs; auto).
    destruct (@centred_array axes x c idx (unravel blk k) Hc Hidx Hbk)
      as [_ [_ ->]].
    reflexivity. }
  assert (Hdata : data (mean_keep axes (sqr z))
                  = map (fun u => (u / (u + epsilon))%R) (data v)).
  { apply nth_ext with (d := 0%R) (d' := 0%R).
    - rewrite length_map, (mean_keep_well_formed axes (sqr z)), Hvwf.
      rewrite TensorFacts.mean_keep_shape, Hsqzs, Hvs. reflexivity.
    - intros j Hj.
      rewrite (mean_keep_well_formed axes (sqr z)) in Hj.
      rewrite TensorFacts.mean_keep_shape, Hsqzs in Hj. fold ksh in Hj.
      rewrite TensorFacts.nth_map_in by (rewrite Hvwf, Hvs; exact Hj).
      rewrite (@mean_keep_entry_at axes (sqr z) (shape x) j Hsqzs Hj).
      fold ksh blk.
      pose proof (Hventry j Hj) as HV. cbv zeta in HV.
      set (idx := unravel ksh j) in *.
      set (M := tget (mean_keep axes x) idx) in *.
      set (u := fun k => ((tget x (idx_add idx (unravel blk k)) - M)
                          * (tget x (idx_add idx (unravel blk k)) - M))%R) in *.
      set (V := nth j (data v) 0%R) in *.
      assert (Hidx : Forall2 lt idx ksh) by now apply unravel_in_range.
      assert (HVpos : (0 <= V)%R).
      { rewrite HV. apply Rmult_le_pos.
        - apply rsum_nonneg. intros k. unfold u. apply Rle_0_sqr.
        - left. now apply Rinv_0_lt_compat. }
      assert (Hs : tget (tsqrt (shift epsilon v)) idx = sqrt (V + epsilon)).
      { unfold tsqrt, shift.
        rewrite tget_tmap.
        - rewrite tget_tmap; [ | exact Hvwf | now rewrite Hvs].
          f_equal. f_equal. subst idx V. rewrite <- Hvs.
          apply tget_unravel. rewrite Hvs. exact Hj.
        - unfold well_formed, tmap. cbn [data shape].
          now rewrite length_map.
        - unfold tmap. cbn [shape]. now rewrite Hvs. }
      assert (Hsq : (sqrt (V + epsilon) * sqrt (V + epsilon)
                     = V + epsilon)%R) by (apply sqrt_sqrt; lra).
      assert (Hnz : sqrt (V + epsilon) <> 0%R).
      { intros H0. rewrite H0 in Hsq. lra. }
      rewrite (map_ext_in
                 (fun k => tget (sqr z) (idx_add idx (unravel blk k)))
                 (fun k => ((u k - 0) * (/ (V + epsilon)) + 0)%R)).
      2: { intros k _.
           assert (Hbk : Forall2 lt (unravel blk k) blk)
             by now apply unravel_in_range.
           destruct (block_position axes (shape x) 0 Hidx Hbk) as [Hin _].
           unfold sqr. rewrite tget_tmap by (rewrite ?Hzs; auto).
           destruct (@centred_entries axes x (tsqrt (shift epsilon v)) c z idx
                       (unravel blk k) Hss Hc Hz Hidx Hbk) as [_ ->].
           rewrite Hs. fold M. unfold u.
           set (r := sqrt (V + epsilon)) in *.
           rewrite <- Hsq. field. exact Hnz. }
      rewrite (rsum_affine (/ (V + epsilon)) 0 0 u).
      rewrite length_seq.
      assert (Hsum : rsum (map u (seq 0 (size blk))) = (V * INR (size blk))%R).
      { rewrite HV. field. lra. }
      rewrite Hsum. field. split; lra. }
  unfold tmap at 1. destruct (mean_keep axes (sqr z)) as [msh mdata] eqn:Hmk.
  cbn [data] in Hdata. subst mdata. f_equal.
  assert (Hms : shape (mean_keep axes (sqr z)) = msh) by now rewrite Hmk.
  rewrite <- Hms, TensorFacts.mean_keep_shape, Hsqzs. now rewrite Hvs.
Qed.

(** The general branch of [GroupNormLayer.get_output] normalizes every
    group.  Whenever it succeeds on a batch that is not empty, its result is
    [gamma * z + beta] for an array [z] that, seen with the shape
    [(n, groups, c / groups, h, w)], has over each group of channels of each
    sample the mean zero and, for a positive [epsilon], the mean square
    [var / (var + epsilon)], where [var] is the variance of the group in the
    input. *)
Theorem group_norm_normalizes_groups
        (l : GroupNormLayer.t) (gamma beta input out : tensor)
        (n c h w : nat) :
  shape input = [n; c; h; w] ->
  size (shape input) <> 0 ->
  GroupNormLayer.grouped_path l gamma beta input = Ok out ->
  let g := Z.to_nat (GroupNormLayer.groups l) in
  let cg := (n * c * h * w) / (n * g * h * w) in
  exists x v z z',
    reshape [n; g; cg; h; w] input = Ok x /\
    var [2; 3; 4] true x = Ok v /\
    shape z = [n; g; cg; h; w] /\
    mean [2; 3; 4] true z = Ok (zeros [n; g; 1; 1; 1]) /\
    ((0 < GroupNormLayer.epsilon l)%R ->
     mean [2; 3; 4] true (sqr z)
     = Ok (tmap (fun u => (u / (u + GroupNormLayer.epsilon l))%R) v)) /\
    reshape [n; c; h; w] z = Ok z' /\
    (scaled <- mul gamma z' ;; add scaled beta) = Ok out.
Proof.
  intros Hsh Hsize Hpath g cg. revert Hpath.
  unfold GroupNormLayer.grouped_path. rewrite Hsh.
  destruct (_ || _); [discriminate | ].
  fold g. fold cg.
  destruct (reshape [n; g; cg; h; w] input) as [x | e] eqn:Hx; cbn [bind];
    [ | discriminate].
  assert (Hxs : shape x = [n; g; cg; h; w] /\ size (shape x) <> 0).
  { revert Hx. unfold reshape.
    destruct (Nat.eqb_spec (size [n; g; cg; h; w]) (size (shape input)))
      as [He | _]; [ | discriminate].
    intros [= <-]. cbn [shape]. split; [reflexivity | now rewrite He]. }
  destruct Hxs as [Hxshape Hxsize].
  unfold mean at 1. unfold ndim. rewrite Hxshape.
  change (valid_axes [2; 3; 4] (length [n; g; cg; h; w])) with true.
  cbn [bind].
  destruct (var [2; 3; 4] true x) as [v | e] eqn:Hv; cbn [bind];
    [ | discriminate].
  destruct (sub x (mean_keep [2; 3; 4] x)) as [ce | e] eqn:Hc; cbn [bind];
    [ | discriminate].
  destruct (div ce (tsqrt (shift (GroupNormLayer.epsilon l) v)))
    as [z | e] eqn:Hz; cbn [bind]; [ | discriminate].
  destruct (reshape [n; c; h; w] z) as [z' | e] eqn:Hz'; cbn [bind];
    [ | discriminate].
  intros Hout.
  destruct (@centred_mean_zero [2; 3; 4] x
              (tsqrt (shift (GroupNormLayer.epsilon l) v)) ce z Hxsize)
    as [Hzs Hzero]; auto.
  { cbn. now apply TensorFacts.var_keep_shape. }
  exists x, v, z, z'.
  split; [reflexivity | ].
  split; [exact Hv | ].
  split; [now rewrite Hzs | ].
  split.
  { unfold mean, ndim. rewrite Hzs, Hxshape.
    change (valid_axes [2; 3; 4] (length [n; g; cg; h; w])) with true.
    rewrite Hzero, Hxshape. reflexivity. }
  split; [ | split; [exact Hz' | exact Hout]].
  intros Heps. unfold mean, ndim, sqr at 1. cbn [tmap shape].
  rewrite Hzs, Hxshape.
  change (valid_axes [2; 3; 4] (length [n; g; cg; h; w])) with true.
  cbv iota. f_equal.
  eapply centred_variance; eassumption.
Qed.

End MeanFacts.

(** ** The theorems at work on the samples *)

Lemma generate_in_background_every_capacity_witness :
  Pipeline.yielded
    (Pipeline.mkState [] true [] [Pipeline.Item 10; Pipeline.Item 20] true)
  = map (@Pipeline.Item nat) [10; 20].
Proof.
  exact (proj1 (proj1 (proj2 (proj2
    (@PipelineFacts.generate_in_background_every_capacity nat 1 [10; 20] _
       run_two_items))) eq_refl)).
Defined.

Lemma generate_in_background_unbounded_queue_witness :
  Pipeline.reachable 0 [10; 20]
    (Pipeline.mkState [] true
       [Pipeline.Item 10; Pipeline.Item 20; Pipeline.sentinel nat] [] false).
Proof.
  apply (@PipelineFacts.generate_in_background_unbounded_queue nat 0 [10; 20]).
  lia.
Defined.

(** A run over a generator that gives one item and raises. *)
Lemma failing_run_one_item :
  FailingPipeline.reachable 1 [10]
    (FailingPipeline.mkState [] true [] [Pipeline.Item 10] false).
Proof.
  unfold FailingPipeline.reachable, FailingPipeline.init.
  eapply rtn1_trans;
    [apply (@FailingPipeline.producer_raise nat 1 [] [Pipeline.Item 10] false) | ].
  eapply rtn1_trans;
    [apply (@FailingPipeline.consumer_yield nat 1 [] false (Pipeline.Item 10) [] []);
     reflexivity | ].
  eapply rtn1_trans;
    [apply (@FailingPipeline.producer_put nat 1 10 [] [] [] false); reflexivity | ].
  apply rtn1_refl.
Qed.

Lemma generate_in_background_producer_error_witness :
  (forall s', ~ FailingPipeline.step 1
                  (FailingPipeline.mkState [] true [] [Pipeline.Item 10] false) s')
  <-> FailingPipeline.mkState [] true [] [Pipeline.Item 10] false
      = FailingPipeline.mkState [] true [] (map (@Pipeline.Item nat) [10]) false.
Proof.
  exact (proj2 (proj2 (proj2
    (@FailingPipelineFacts.generate_in_background_producer_error nat 1 [10] _
       failing_run_one_item)))).
Defined.

Lemma progress_raises_only_type_error_witness :
  Progress.has_len (Progress.mkIterable [3; 1; 2] false) = false /\
  (@None Z = None \/ @None Z = Some 0%Z) /\
  Progress.progress (Progress.mkIterable [3; 1; 2] false) "" None (1 # 10)%Q
                    Samples.clock
  = ([], Some (TypeError "object of type 'generator' has no len()")).
Proof.
  exact (@ProgressFacts.progress_raises_only_type_error nat
           (Progress.mkIterable [3; 1; 2] false) "" None (1 # 10)%Q
           Samples.clock
           (TypeError "object of type 'generator' has no len()") eq_refl).
Defined.

Lemma generator_windows_witness :
  exists l,
    Batches.generator [1; 2; 3; 4; 5] [true; false; true; false; true] 2 false
    = Ok l /\
    length l = 2 /\
    (forall i b, nth_error l i = Some b ->
       Batches.inputs b = firstn 2 (skipn (i * 2) [1; 2; 3; 4; 5]) /\
       length (Batches.inputs b) = 2 /\
       (false = false ->
        Batches.targets b
        = firstn 2 (skipn (i * 2) [true; false; true; false; true]))) /\
    concat (map (@Batches.inputs nat bool) l) = [1; 2; 3; 4].
Proof.
  refine (@BatchFacts.generator_windows nat bool [1; 2; 3; 4; 5]
            [true; false; true; false; true] 2 false _).
  lia.
Defined.

Lemma generator_in_order_witness :
  exists l,
    DataManager.generator Samples.dm "test" [] = Ok l /\
    length l = 3 /\
    (forall i b, nth_error l i = Some b ->
       Batches.inputs b = firstn 2 (skipn (i * 2) [6; 7; 8; 9; 10; 11]) /\
       (false = false ->
        Batches.targets b
        = firstn 2 (skipn (i * 2) [false; false; true; true; false; true])) /\
       (false = true -> b = Batches.Single bool (Batches.inputs b))) /\
    concat (map (@Batches.inputs nat bool) l) = [6; 7; 8; 9; 10; 11].
Proof.
  refine (@DataManagerFacts.generator_in_order nat bool Samples.dm "test" []
            (DataManager.mkData [6; 7; 8; 9; 10; 11]
                                [false; false; true; true; false; true])
            6%Z _ _ _ _); try reflexivity.
Defined.

Lemma generator_shuffled_epoch_witness :
  exists l p,
    DataManager.generator Samples.dm_shuffle "train" [1; 0; 2; 3; 4] = Ok l /\
    Permutation p (combine [1; 2; 3; 4; 5] [true; false; true; false; true]) /\
    combine (concat (map (@Batches.inputs nat bool) l))
            (concat (map (@Batches.targets nat bool) l))
    = firstn 4 p /\
    (5 <= 4 ->
     Permutation
       (combine (concat (map (@Batches.inputs nat bool) l))
                (concat (map (@Batches.targets nat bool) l)))
       (combine [1; 2; 3; 4; 5] [true; false; true; false; true])).
Proof.
  refine (@DataManagerFacts.generator_shuffled_epoch nat bool Samples.dm_shuffle
            [1; 0; 2; 3; 4]
            (DataManager.mkData [1; 2; 3; 4; 5] [true; false; true; false; true])
            5%Z _ _ _ _ _ _ _); try reflexivity.
  apply perm_swap.
Defined.

Lemma get_batches_passes_batches_witness :
  exists front m sec,
    Progress.yields
      (front ++ [Progress.PrintTook _ (Feed.description 1 10) 2 m sec])
    = [Batches.Pair [1; 2] [true; false]; Batches.Pair [3; 4] [true; false]] /\
    forall o,
      Feed.get_batches Samples.dm (Some 1%Z) (Some 10%Z) "train" []
                       Samples.clock o
      <-> o = Feed.Completes
                (front ++ [Progress.PrintTook _ (Feed.description 1 10) 2 m sec]).
Proof.
  refine (@FeedFacts.get_batches_passes_batches nat bool Samples.dm 1 10 5
            "train" [] Samples.clock
            [Batches.Pair [1; 2] [true; false]; Batches.Pair [3; 4] [true; false]]
            _ _ _ _ _); try reflexivity; discriminate.
Defined.

Lemma get_batches_test_stage_total_witness :
  exists front m sec,
    length (Progress.yields
              (front ++ [Progress.PrintTook _ (Feed.description 1 10) 2 m sec]))
    = 3 /\
    forall o,
      Feed.get_batches Samples.dm (Some 1%Z) (Some 10%Z) "test" []
                       Samples.clock o
      <-> o = Feed.Completes
                (front ++ [Progress.PrintTook _ (Feed.description 1 10) 2 m sec]).
Proof.
  refine (@FeedFacts.get_batches_test_stage_total nat bool Samples.dm 1 10 6
            "test" [] Samples.clock
            (DataManager.mkData [6; 7; 8; 9; 10; 11]
                                [false; false; true; true; false; true])
            _ _ _ _ _); try reflexivity.
  cbn. lia.
Defined.

Lemma get_batches_less_than_a_batch_witness :
  Feed.get_batches Samples.dm_large_batch (Some 1%Z) (Some 10%Z) "train" []
                   Samples.clock
    (Feed.Fails [] (Feed.Exn (TypeError "object of type 'generator' has no len()"))).
Proof.
  refine (proj2 (@FeedFacts.get_batches_less_than_a_batch nat bool
                   Samples.dm_large_batch 1 10 5 "train" [] Samples.clock
                   _ _ _ _) eq_refl);
    try reflexivity.
  cbn. lia.
Defined.

Lemma model_iterates_once_witness :
  exists m',
    Model.iterate 4 (Model.mk [7; 8; 9] 0) = Some (m', [7; 8; 9], None) /\
    Model.index m' = 3%Z /\
    Model.layers m' = [7; 8; 9] /\
    Model.iterate 1 m' = Some (m', [], None).
Proof.
  refine (@ModelFacts.model_iterates_once nat [7; 8; 9] 0 4 1 _ _ _);
    simpl; lia.
Defined.

Lemma model_next_beyond_end_witness :
  Model.next (Model.mk [7; 8; 9] 5)
  = (Model.mk [7; 8; 9] 6, Model.Error nat (IndexError "list index out of range")).
Proof.
  refine (@ModelFacts.model_next_beyond_end nat [7; 8; 9] 5 _ _);
    [simpl; lia | discriminate].
Defined.

Lemma decrease_learning_rate_anneals_witness :
  exists vi vj,
    Schedule.decrease_learning_rate 0 1 (1 / 10) 100 = Ok vi /\
    Schedule.decrease_learning_rate 50 1 (1 / 10) 100 = Ok vj /\
    (1 / 10 <= vj <= vi)%R /\ (vi <= 1)%R /\
    (0%R = 0%R -> vi = 1%R) /\ (50%R = 100%R -> vj = (1 / 10)%R).
Proof.
  refine (@ScheduleFacts.decrease_learning_rate_anneals 0 50 1 (1 / 10) 100
            _ _ _ _); lra.
Defined.

Lemma decrease_learning_rate_after_tau_witness :
  Schedule.decrease_learning_rate 200 1 (1 / 10) 100
  = Ok (200 / 100 * (1 / 10))%R /\
  Schedule.decrease_learning_rate 300 1 (1 / 10) 100
  = Ok (300 / 100 * (1 / 10))%R /\
  (1 / 10 < 200 / 100 * (1 / 10) < 300 / 100 * (1 / 10))%R.
Proof.
  refine (@ScheduleFacts.decrease_learning_rate_after_tau 200 300 1 (1 / 10) 100
            _ _ _); lra.
Defined.

Lemma maxout_groups_witness :
  exists y,
    Utils.call Utils.maxout [("maxout_size"%string, Utils.PyInt 2)]
               Samples.channels_1x4 = Ok y /\
    Tensor.shape y = [1; 2] /\
    Tensor.well_formed y /\
    forall i, i < Tensor.size [1; 2] ->
      nth i (Tensor.data y) 0%R
      = fold_left Rmax
          (map (fun j =>
                  Tensor.tget Samples.channels_1x4
                    (match Tensor.unravel [1; 2] i with
                     | a :: b :: idx' => a :: j + 2 * b :: idx'
                     | idx => idx
                     end)) (seq 1 (2 - 1)))
          (Tensor.tget Samples.channels_1x4
             (match Tensor.unravel [1; 2] i with
              | a :: b :: idx' => a :: 0 + 2 * b :: idx'
              | idx => idx
              end)).
Proof.
  refine (@ActivationFacts.maxout_groups Samples.channels_1x4 1 4 2 2 [] _ _ _);
    [reflexivity | lia | reflexivity].
Defined.

(** One training pass of the sample renormalization layer over the batch
    [3; 3] succeeds. *)
Lemma brn_training_forward :
  exists y l',
    BatchRenormLayer.get_output Samples.brn_training Examples.batch_3_3
    = Ok (y, l').
Proof.
  tcompute.
  epsilon_accepted.
  do 2 eexists. reflexivity.
Qed.

Lemma batch_renorm_mode_independent_witness :
  exists y,
    BatchRenormLayer.get_output Examples.brn Examples.batch_3_3
    = Ok (y, Examples.brn).
Proof.
  destruct brn_training_forward as [y [l' H]].
  exists y.
  exact (proj2 (@ModeFacts.batch_renorm_mode_independent
                  Samples.brn_training l' Examples.batch_3_3 y eq_refl H)).
Defined.

(** A pass of the sample batch normalization layer in test mode succeeds. *)
Lemma bn_test_forward :
  exists y l',
    BatchNormLayer.get_output Examples.bn Examples.batch_0_2 = Ok (y, l').
Proof.
  tcompute.
  epsilon_accepted.
  do 2 eexists. reflexivity.
Qed.

Lemma forward_pass_frame_witness :
  exists y,
    BatchNormLayer.get_output Examples.bn Examples.batch_0_2
    = Ok (y, Examples.bn).
Proof.
  destruct bn_test_forward as [y [l' H]].
  exists y. rewrite H. do 2 f_equal.
  assert (Hl : Normalization.BatchNorm unit l'
               = Normalization.BatchNorm unit Examples.bn).
  { apply (@ModeFacts.forward_pass_frame Examples.eigh_2x2 unit
             (fun _ t => Ok t) (Normalization.BatchNorm unit Examples.bn)
             (Normalization.BatchNorm unit l')
             Examples.batch_0_2 Examples.batch_0_2 y eq_refl).
    cbn [Normalization.get_output Normalization.lift].
    rewrite H. reflexivity. }
  now injection Hl.
Defined.

Lemma init_unknown_activation_witness :
  BatchNormLayer.init [2; 1]%Z "BN" (1 / 10000)%R (1 / 10)%R "spatial"
                      (Utils.ByName "prelu") false []
  = Raise (KeyError "prelu").
Proof.
  refine (proj1 (@ModeFacts.init_unknown_activation "prelu" [2; 1]%Z "BN"
                   (1 / 10000)%R (1 / 10)%R 1%R 0%R "spatial" false [] 1%Z 1%Z _)).
  intros H. cbn in H.
  repeat (destruct H as [H | H]; [discriminate | ]). exact H.
Defined.

Lemma fully_connected_to_convolution_square_witness :
  Weights.fully_connected_to_convolution Samples.weight_4x2 [8; 1; 2; 2]%Z
  = Ok (Some (Tensor.mkTensor [2; 1; 2; 2] [1; 2; 3; 4; 5; 6; 7; 8]%R)).
Proof.
  refine (proj1 (@WeightFacts.fully_connected_to_convolution_square
                   Samples.weight_4x2 4 [2] [8; 1; 2; 2]%Z 1%Z _ _ _) 2%Z _ _);
    try reflexivity.
Defined.

Lemma load_weights_odd_count_witness :
  LoadWeights.load_weights [Samples.weight_4x2] [Samples.dense]
  = Raise (IndexError "list index out of range").
Proof.
  refine (@LoadWeightsFacts.load_weights_odd_count [Samples.weight_4x2]
            [Samples.dense] _ _ _).
  - repeat constructor. discriminate.
  - reflexivity.
  - simpl. lia.
Defined.

Lemma load_weights_returns_witness :
  exists model',
    LoadWeights.load_weights [Samples.weight_4x2; Samples.bias_2] [Samples.dense]
    = Ok model'.
Proof.
  refine (@LoadWeightsFacts.load_weights_returns
            [Samples.weight_4x2; Samples.bias_2] [Samples.dense] _ _).
  - repeat constructor. discriminate.
  - left. reflexivity.
Defined.



Lemma batch_norm_forward_succeeds_witness :
  exists y l',
    BatchNormLayer.get_output Examples.bn_training Examples.batch_0_2
    = Ok (y, l') /\
    Tensor.shape y = [2; 1] /\
    BatchNormLayer.axes l' = [0] /\
    BatchNormLayer.epsilon l' = (1 / 10000)%R /\
    BatchNormLayer.activation l' = Utils.theano_relu /\
    BatchNormLayer.call_kwargs l' = [] /\
    Tensor.shape (BatchNormLayer.gamma l') = [1] /\
    Tensor.shape (BatchNormLayer.beta l') = [1] /\
    Tensor.shape (BatchNormLayer.running_mean l') = [1] /\
    Tensor.shape (BatchNormLayer.running_var l') = [1].
Proof.
  refine (@ShapeFacts.batch_norm_forward_succeeds Examples.bn_training
            Examples.batch_0_2 _ _ _ _ _ _ _ _ _); try reflexivity.
  - discriminate.
  - cbn. unfold Theano.epsilon_min.
    apply FloatFacts.float32_accepted. lra.
  - intros _ H. cbn in H. lra.
  - intros t. eexists. split; reflexivity.
Defined.

Lemma epsilon_below_minimum_witness :
  is_ok (BatchNormLayer.get_output Samples.bn_small_epsilon Examples.batch_0_2)
  = false.
Proof.
  refine (proj1 (@EpsilonFacts.epsilon_below_minimum Samples.bn_small_epsilon
                   1%R 0%R Examples.batch_0_2 _)).
  cbn. unfold Theano.epsilon_min. lra.
Defined.

(** One training pass of the sample layer with the linear activation over
    the batch [0; 2] succeeds. *)
Lemma bn_linear_training_forward :
  exists y l',
    BatchNormLayer.get_output Samples.bn_linear_training Examples.batch_0_2
    = Ok (y, l').
Proof.
  tcompute.
  epsilon_accepted. divisor_not_zero.
  do 2 eexists. reflexivity.
Qed.

Lemma batch_norm_train_output_mean_witness :
  exists y,
    Tensor.shape y = [2; 1] /\
    Tensor.mean [0] true y = Ok (Tensor.mkTensor [1; 1] [7%R]).
Proof.
  destruct bn_linear_training_forward as [y [l' H]].
  exists y.
  refine (@MeanFacts.batch_norm_train_output_mean Samples.bn_linear_training l'
            Examples.batch_0_2 y eq_refl _ H _ _ eq_refl eq_refl eq_refl).
  - intros t. reflexivity.
  - discriminate.
  - discriminate.
Defined.

(** The general branch of the group normalization succeeds on the sample of
    four channels in two groups. *)
Lemma grouped_path_forward :
  exists out,
    GroupNormLayer.grouped_path Samples.gn_two_groups Samples.gamma_1x4x1x1
                                Samples.beta_1x4x1x1 Samples.sample_4x2
    = Ok out.
Proof. tcompute. eexists. reflexivity. Qed.

Lemma group_norm_normalizes_groups_witness :
  exists x v z,
    Tensor.reshape [1; 2; 2; 1; 2] Samples.sample_4x2 = Ok x /\
    Tensor.var [2; 3; 4] true x = Ok v /\
    Tensor.shape z = [1; 2; 2; 1; 2] /\
    Tensor.mean [2; 3; 4] true z = Ok (Tensor.zeros [1; 2; 1; 1; 1]) /\
    Tensor.mean [2; 3; 4] true (Tensor.sqr z)
    = Ok (Tensor.tmap (fun u => (u / (u + 1 / 10000))%R) v).
Proof.
  destruct grouped_path_forward as [out H].
  destruct (@MeanFacts.group_norm_normalizes_groups Samples.gn_two_groups
              Samples.gamma_1x4x1x1 Samples.beta_1x4x1x1 Samples.sample_4x2
              out 1 4 1 2 eq_refl ltac:(discriminate) H)
    as [x [v [z [z' [Hx [Hv [Hz [Hm [Hs _]]]]]]]]].
  exists x, v, z.
  repeat split; try assumption.
  apply Hs. cbn. lra.
Defined.
